(** * Item Editor (Minecraft Bedrock add-on): the pure utilities of [utils.ts]

    A shallow embedding of the Roman-numeral codec, the enchantment string
    parser, the coordinate parser, the spatial vector class, the form field
    registry and the item comparator, followed by the properties the
    specification states about them.

    Conventions of the embedding
    - A JavaScript string is a [string]: a sequence of code units below 256.
    - A JavaScript number that the program only ever builds from integer
      constants by [+] and [-] (enchantment levels, Roman numerals) is a
      [number]: [NaN] or an integer.  Such sums stay far below 2^53 for every
      string an engine can hold, so no rounding is lost.
    - A JavaScript number that comes out of [parseFloat] or trigonometry
      (coordinates, vector components) is a binary64 [float].
    - Host calls (the game's item, enchantment and player API) are variables
      of the sections that use them. *)

From Stdlib Require Import ZArith List String Ascii Bool Lia.
From Stdlib Require Import Permutation DecimalString DecimalPos DecimalZ.
From Stdlib Require Import Floats.
Import ListNotations.

Local Open Scope string_scope.
Local Open Scope Z_scope.

(* ===================================================================== *)
(** * JavaScript built-ins used by the program *)
(* ===================================================================== *)

Module Js.

(** ** Integral numbers with NaN *)

Inductive number : Type :=
| NaN : number
| Int : Z -> number.

(** [undefined] is [None]; ToNumber(undefined) is NaN. *)
Definition toNumber (v : option number) : number :=
  match v with
  | Some n => n
  | None => NaN
  end.

(** The relational operators: every comparison with NaN is false. *)
Definition lt (a b : number) : bool :=
  match a, b with
  | Int x, Int y => x <? y
  | _, _ => false
  end.

Definition gt (a b : number) : bool := lt b a.

Definition ge (a b : number) : bool :=
  match a, b with
  | Int x, Int y => y <=? x
  | _, _ => false
  end.

Definition add (a b : number) : number :=
  match a, b with
  | Int x, Int y => Int (x + y)
  | _, _ => NaN
  end.

Definition sub (a b : number) : number :=
  match a, b with
  | Int x, Int y => Int (x - y)
  | _, _ => NaN
  end.

(** The decimal digits of an integer, with a leading minus sign when
    negative. *)
Definition digits (z : Z) : string := NilZero.string_of_int (Z.to_int z).

Definition digitCount (z : Z) : Z := Z.of_nat (String.length (digits z)).

(** The binary64 number nearest to a positive integer, a tie going to the
    even significand; [None] stands for Infinity.  Every integer below 2^53
    is a binary64 number. *)
Definition nearestDouble (z : Z) : option Z :=
  if z <? 2 ^ 53 then Some z
  else
    let shift := Z.log2 z - 52 in
    let q := Z.shiftr z shift in
    let r := z - Z.shiftl q shift in
    let half := Z.shiftl 1 (shift - 1) in
    let q' :=
      if r <? half then q
      else if half <? r then q + 1
      else if Z.even q then q else q + 1 in
    let v := Z.shiftl q' shift in
    if 2 ^ 1024 <=? v then None else Some v.

Definition roundsTo (v c : Z) : bool :=
  match nearestDouble c with
  | Some w => w =? v
  | None => false
  end.

(** The decimal with the fewest significant digits that still denotes the
    binary64 number [v], the one nearest to [v] when there are several:
    with [k] significant digits the candidates are the two multiples of
    10^(digitCount v - k) around [v]. *)
Fixpoint shortest (fuel : nat) (k : Z) (v : Z) : Z :=
  match fuel with
  | O => v
  | S fuel' =>
      let unit := 10 ^ (digitCount v - k) in
      let down := v / unit * unit in
      let up := down + unit in
      if roundsTo v down && roundsTo v up
      then if v - down <=? up - v then down else up
      else if roundsTo v down then down
      else if roundsTo v up then up
      else shortest fuel' (k + 1) v
  end.

Fixpoint dropZeros (reversed : list ascii) : list ascii :=
  match reversed with
  | "0"%char :: rest => dropZeros rest
  | _ => reversed
  end.

(** The digits of an integer without its trailing zeros. *)
Definition significand (c : Z) : string :=
  string_of_list_ascii (rev (dropZeros (rev (list_ascii_of_string (digits c))))).

(** The exponent form, as in 1e+21 and 1.1805916207174113e+21. *)
Definition exponential (c : Z) : string :=
  match significand c with
  | String d EmptyString => String d EmptyString
  | String d rest => String d ("." ++ rest)
  | EmptyString => EmptyString
  end ++ "e+" ++ digits (digitCount c - 1).

(** An integer from 2^53 on is printed with the fewest digits that denote
    the same binary64 number, filled up with zeros, and in exponent form
    when that takes more than 21 digits. *)
Definition printLarge (z : Z) : string :=
  match nearestDouble z with
  | None => "Infinity"
  | Some v =>
      let c := shortest (Z.to_nat (digitCount v)) 1 v in
      if digitCount c <=? 21 then digits c else exponential c
  end.

(** [Number.prototype.toString] on integral numbers.  Below 2^53 every
    digit is printed.  An integer that is no binary64 number stands for the
    binary64 number nearest to it. *)
Definition Number_toString (a : number) : string :=
  match a with
  | NaN => "NaN"
  | Int z =>
      if Z.abs z <? 2 ^ 53 then digits z
      else (if z <? 0 then "-" else "") ++ printLarge (Z.abs z)
  end.

(** ** Strings *)

Definition chars (s : string) : list ascii := list_ascii_of_string s.

Definition code (c : ascii) : N := N_of_ascii c.

(** The characters matched by [\s] and removed by [trim]: TAB, LF, VT, FF,
    CR, SPACE and NO-BREAK SPACE (the ones below 256). *)
Definition isWhiteSpace (c : ascii) : bool :=
  let n := code c in
  ((9 <=? n) && (n <=? 13) || (n =? 32) || (n =? 160))%N.

(** The characters matched by [\w]: letters, digits and underscore. *)
Definition isWordChar (c : ascii) : bool :=
  let n := code c in
  ((48 <=? n) && (n <=? 57) || (65 <=? n) && (n <=? 90)
   || (97 <=? n) && (n <=? 122) || (n =? 95))%N.

Fixpoint trimStart (s : string) : string :=
  match s with
  | String c s' => if isWhiteSpace c then trimStart s' else s
  | EmptyString => EmptyString
  end.

(** [trimEnd] keeps a character when it is not white space or when something
    is kept after it. *)
Fixpoint trimEnd (s : string) : string :=
  match s with
  | String c s' =>
      match trimEnd s' with
      | EmptyString => if isWhiteSpace c then EmptyString else String c EmptyString
      | t => String c t
      end
  | EmptyString => EmptyString
  end.

Definition trim (s : string) : string := trimEnd (trimStart s).

Definition startsWith (s p : string) : bool := String.prefix p s.

(** [s.slice(1)] *)
Definition slice1 (s : string) : string :=
  match s with
  | String _ s' => s'
  | EmptyString => EmptyString
  end.

(** [s.split(sep)] for a one-character separator: the pieces between the
    separators, empty pieces included; the empty string gives one piece. *)
Fixpoint splitChar (sep : ascii) (cur : string) (s : string) : list string :=
  match s with
  | EmptyString => [cur]
  | String c s' =>
      if Ascii.eqb c sep then cur :: splitChar sep EmptyString s'
      else splitChar sep (cur ++ String c EmptyString) s'
  end.

Definition split (sep : ascii) (s : string) : list string :=
  splitChar sep EmptyString s.

(** [s.split(/\s+/)]: a maximal run of white space is one separator.
    [inRun] tells that the previous character belonged to such a run. *)
Fixpoint splitSpaces (inRun : bool) (cur : string) (s : string) : list string :=
  match s with
  | EmptyString => [cur]
  | String c s' =>
      if isWhiteSpace c then
        if inRun then splitSpaces true cur s'
        else cur :: splitSpaces true EmptyString s'
      else splitSpaces false (cur ++ String c EmptyString) s'
  end.

Definition splitWhiteSpace (s : string) : list string :=
  splitSpaces false EmptyString s.

(** [toLowerCase] on code units below 256: A-Z and the accented capitals. *)
Definition lowerChar (c : ascii) : ascii :=
  let n := code c in
  if ((65 <=? n) && (n <=? 90)
      || (192 <=? n) && (n <=? 222) && negb (n =? 215))%N
  then ascii_of_N (n + 32) else c.

Fixpoint mapChars (f : ascii -> ascii) (s : string) : string :=
  match s with
  | EmptyString => EmptyString
  | String c s' => String (f c) (mapChars f s')
  end.

Definition toLowerCase (s : string) : string := mapChars lowerChar s.

(** [s.replace(/ /g, '_')] *)
Definition spacesToUnderscores (s : string) : string :=
  mapChars (fun c => if Ascii.eqb c " "%char then "_"%char else c) s.

(** ** Arrays *)

(** [arr.includes(x)] on an array of strings *)
Definition includes (arr : list string) (x : string) : bool :=
  existsb (String.eqb x) arr.

(** [arr.every(p)] *)
Definition every {A} (p : A -> bool) (arr : list A) : bool := forallb p arr.

(** [arr.some(p)] *)
Definition some {A} (p : A -> bool) (arr : list A) : bool := existsb p arr.

(** [arr.indexOf(x)]: the first position holding [x], or -1. *)
Fixpoint indexOfFrom (i : Z) (arr : list string) (x : string) : Z :=
  match arr with
  | [] => -1
  | y :: ys => if String.eqb y x then i else indexOfFrom (i + 1) ys x
  end.

Definition indexOf (arr : list string) (x : string) : Z := indexOfFrom 0 arr x.

(** [arr.length] *)
Definition length {A} (arr : list A) : Z := Z.of_nat (List.length arr).

(** [arr[i]] for an integer [i]; [undefined] out of range. *)
Definition at_ {A} (arr : list A) (i : Z) : option A :=
  if i <? 0 then None else nth_error arr (Z.to_nat i).

(** [arr.sort(cmp)]: insertion sort, which is stable, with the comparator
    read as "a after b when cmp a b > 0". *)
Fixpoint insertBy (cmp : Z -> Z -> Z) (x : Z) (l : list Z) : list Z :=
  match l with
  | [] => [x]
  | y :: ys => if 0 <? cmp y x then x :: l else y :: insertBy cmp x ys
  end.

Definition sort (cmp : Z -> Z -> Z) (l : list Z) : list Z :=
  fold_left (fun acc x => insertBy cmp x acc) l [].

(** ** binary64 numbers *)

Definition isNaN (x : float) : bool := PrimFloat.is_nan x.

(** [x === y] and [x !== y] on numbers: NaN differs from everything and the
    two zeros are equal. *)
Definition strictEq (x y : float) : bool := PrimFloat.eqb x y.
Definition strictNe (x y : float) : bool := negb (PrimFloat.eqb x y).

(** [x || 0] on a number: NaN and both zeros are falsy. *)
Definition orZero (x : float) : float :=
  if isNaN x || PrimFloat.eqb x 0 then 0%float else x.

(** [Math.PI], the binary64 number nearest to pi. *)
Definition Math_PI : float := 0x1.921fb54442d18p+1%float.

(** [Math.sqrt] *)
Definition Math_sqrt (x : float) : float := PrimFloat.sqrt x.

(** [x ** 2]; the square is evaluated as the rounded product. *)
Definition square (x : float) : float := (x * x)%float.

(** The binary64 number nearest to [m * 10^e] (ties to even), for [0 <= m].
    Values of 10^310 and more overflow to infinity, values below 10^-330
    round to zero.  A negative power of ten is divided out with 70 extra bits
    and a sticky bit, which is enough for the final rounding to be the
    correct one. *)
Definition roundDecimal (neg : bool) (m e : Z) : float :=
  let signed (x : float) := if neg then (- x)%float else x in
  if m =? 0 then signed 0%float
  else
    (* 3/10 < log10 2 < 31/100 bounds the decimal order of magnitude *)
    if 310 <=? 3 * Z.log2 m / 10 + e then signed infinity
    else if 31 * (Z.log2 m + 1) / 100 + 1 + e <? -330 then signed 0%float
    else if 0 <=? e then
      signed (SF2Prim (binary_normalize prec emax (m * 10 ^ e) 0 false))
    else
      let den := 10 ^ (- e) in
      let s := Z.max 0 (Z.log2 den - Z.log2 m + 70) in
      let q := (m * 2 ^ s) / den in
      let sticky := if (m * 2 ^ s) mod den =? 0 then 0 else 1 in
      signed (SF2Prim (binary_normalize prec emax (2 * q + sticky) (- s - 1) false)).

Definition isDigit (c : ascii) : bool :=
  let n := code c in ((48 <=? n) && (n <=? 57))%N.

Definition digitValue (c : ascii) : Z := Z.of_N (code c) - 48.

(** The longest prefix of decimal digits: its value, its length, the rest. *)
Fixpoint readDigits (value count : Z) (s : string) : Z * Z * string :=
  match s with
  | String c s' =>
      if isDigit c then readDigits (10 * value + digitValue c) (count + 1) s'
      else (value, count, s)
  | EmptyString => (value, count, s)
  end.

Definition readSign (s : string) : bool * string :=
  match s with
  | String "-" s' => (true, s')
  | String "+" s' => (false, s')
  | _ => (false, s)
  end.

(** The exponent part [e] or [E], an optional sign and digits; without a
    digit it is not part of the literal. *)
Definition readExponent (s : string) : Z :=
  match s with
  | String c s' =>
      if Ascii.eqb c "e" || Ascii.eqb c "E" then
        let '(neg, s'') := readSign s' in
        let '(v, n, _) := readDigits 0 0 s'' in
        if n =? 0 then 0 else if neg then - v else v
      else 0
  | EmptyString => 0
  end.

(** [parseFloat]: leading white space is skipped, then the longest prefix
    that is a decimal literal is read; NaN when there is none. *)
Definition parseFloat (input : string) : float :=
  let '(neg, s) := readSign (trimStart input) in
  if String.prefix "Infinity" s then (if neg then neg_infinity else infinity)
  else
    let '(intValue, intCount, afterInt) := readDigits 0 0 s in
    let '(value, fracCount, afterFrac) :=
      match afterInt with
      | String "." s' => readDigits intValue 0 s'
      | _ => (intValue, 0, afterInt)
      end in
    if intCount + fracCount =? 0 then nan
    else roundDecimal neg value (readExponent afterFrac - fracCount).

End Js.

(** ** Exceptions *)

(** A thrown value is an [Error] object with its message, or anything else. *)
Inductive exn : Type :=
| ErrorObject (message : string)
| OtherValue.

(** The outcome of evaluating code that may throw. *)
Inductive completion (A : Type) : Type :=
| Return (a : A)
| Throw (e : exn).

Arguments Return {A} a.
Arguments Throw {A} e.

Definition bind {A B} (c : completion A) (k : A -> completion B) : completion B :=
  match c with
  | Return a => k a
  | Throw e => Throw e
  end.

(** [try { c } catch (e) { handler e }] *)
Definition tryCatch {A} (c : completion A) (handler : exn -> A) : A :=
  match c with
  | Return a => a
  | Throw e => handler e
  end.

Definition throws {A} (c : completion A) : Prop := exists e, c = Throw e.

Declare Scope js_scope.
Delimit Scope js_scope with js.
Notation "x <- c ;; k" := (bind c (fun x => k))
  (at level 61, c at next level, right associativity) : js_scope.

(* ===================================================================== *)
(** * class Vector3 *)
(* ===================================================================== *)

Module Vector3.

Record t : Type := new { x : float; y : float; z : float }.

Local Open Scope float_scope.

Definition add (this other : t) : t :=
  new (x this + x other) (y this + y other) (z this + z other).

Definition subtract (this other : t) : t :=
  new (x this - x other) (y this - y other) (z this - z other).

Definition multiply (this : t) (scalar : float) : t :=
  new (x this * scalar) (y this * scalar) (z this * scalar).

Definition divide (this : t) (scalar : float) : completion t :=
  if Js.strictNe scalar 0 then
    Return (new (x this / scalar) (y this / scalar) (z this / scalar))
  else
    Throw (ErrorObject "Cannot divide by zero").

Definition magnitude (this : t) : float :=
  Js.Math_sqrt (Js.square (x this) + Js.square (y this) + Js.square (z this)).

Definition normalize (this : t) : completion t :=
  let mag := magnitude this in
  if Js.strictNe mag 0 then
    divide this mag
  else
    Throw (ErrorObject "Cannot normalize a zero vector").

Definition equals (this other : t) : bool :=
  Js.strictEq (x this) (x other) && Js.strictEq (y this) (y other)
  && Js.strictEq (z this) (z other).

Definition dot (this other : t) : float :=
  x this * x other + y this * y other + z this * z other.

Definition cross (this other : t) : t :=
  new (y this * z other - z this * y other)
      (z this * x other - x this * z other)
      (x this * y other - y this * x other).

Definition distance (this other : t) : float :=
  Js.Math_sqrt (Js.square (x this - x other) + Js.square (y this - y other)
                + Js.square (z this - z other)).

End Vector3.

Definition degreesToRadians (degrees : float) : float :=
  (degrees * Js.Math_PI / 180)%float.

(* ===================================================================== *)
(** * Roman numerals *)
(* ===================================================================== *)

(** The table of [convertToRomanNumerals], in the order [Object.keys]
    enumerates it. *)
Definition romanNumerals : list (Z * string) :=
  [(1, "I"); (4, "IV"); (5, "V"); (9, "IX"); (10, "X")].

(** [romanNumerals[key]] appended to a string *)
Definition numeralOf (key : Z) : string :=
  match find (fun entry => fst entry =? key) romanNumerals with
  | Some entry => snd entry
  | None => "undefined"
  end.

Definition keys : list Z :=
  Js.sort (fun a b => b - a) (map fst romanNumerals).

(** An upper bound on the iterations of the inner loop: every key is at
    least 1, so [remaining] is subtracted from at most [remaining] times. *)
Definition iterations (remaining : Js.number) : nat :=
  match remaining with
  | Js.Int r => Z.to_nat r
  | Js.NaN => O
  end.

(** [while (remaining >= key) { result += romanNumerals[key]; remaining -= key }] *)
Fixpoint whileAtLeast (fuel : nat) (key : Z) (state : string * Js.number)
  : string * Js.number :=
  let '(result, remaining) := state in
  if Js.ge remaining (Js.Int key) then
    match fuel with
    | O => state
    | S fuel' =>
        whileAtLeast fuel' key (result ++ numeralOf key, Js.sub remaining (Js.Int key))
    end
  else state.

Definition convertToRomanNumerals (num : Js.number) : string :=
  if Js.gt num (Js.Int 10) then Js.Number_toString num
  else
    fst (fold_left
           (fun state key => whileAtLeast (iterations (snd state)) key state)
           keys ("", num)).

(** The table of [romanToNumber]; any other character gives [undefined]. *)
Definition romanSymbol (c : ascii) : option Js.number :=
  match c with
  | "I"%char => Some (Js.Int 1)
  | "V"%char => Some (Js.Int 5)
  | "X"%char => Some (Js.Int 10)
  | "L"%char => Some (Js.Int 50)
  | "C"%char => Some (Js.Int 100)
  | "D"%char => Some (Js.Int 500)
  | "M"%char => Some (Js.Int 1000)
  | _ => None
  end.

(** One iteration of the loop of [romanToNumber] on the state
    [(num, prevValue)]. *)
Definition romanStep (state : Js.number * option Js.number) (c : ascii)
  : Js.number * option Js.number :=
  let '(num, prevValue) := state in
  let value := romanSymbol c in
  if Js.lt (Js.toNumber value) (Js.toNumber prevValue)
  then (Js.sub num (Js.toNumber value), value)
  else (Js.add num (Js.toNumber value), value).

(** The loop runs from the last character to the first. *)
Definition romanToNumber (roman : string) : Js.number :=
  fst (fold_left romanStep (rev (Js.chars roman)) (Js.Int 0, Some (Js.Int 0))).

(* ===================================================================== *)
(** * The host's item API, as far as the utilities read it *)
(* ===================================================================== *)

(** [x !== y] on integral numbers *)
Definition numberNe (a b : Js.number) : bool :=
  match a, b with
  | Js.Int x, Js.Int y => negb (x =? y)
  | _, _ => true
  end.

Module EnchantmentType.
(** A type object of the host: [ref] is its identity, which is all that
    [===] and [!==] look at. *)
Record t : Type := { ref : nat; id : string; maxLevel : Js.number }.

(** [a === b] on type objects: the same object. *)
Definition same (a b : t) : bool := Nat.eqb (ref a) (ref b).
End EnchantmentType.

Record Enchantment : Type := { type : EnchantmentType.t; level : Js.number }.

Record ItemCooldownComponent : Type :=
  { cooldownCategory : string; cooldownTicks : Z }.

Record ItemDurabilityComponent : Type :=
  { maxDurability : Z; damage : Z }.

Record ItemFoodComponent : Type :=
  { canAlwaysEat : bool; nutrition : Z; saturationModifier : float;
    usingConvertsTo : string }.

(** [canAddEnchantment] is the host's compatibility check for this item; it
    is taken to answer for every enchantment it is asked about. *)
Record ItemEnchantableComponent : Type :=
  { getEnchantments : list Enchantment;
    canAddEnchantment : Enchantment -> bool }.

Inductive ItemLockMode : Type := LockNone | LockInventory | LockSlot.

Definition lockModeNe (a b : ItemLockMode) : bool :=
  match a, b with
  | LockNone, LockNone | LockInventory, LockInventory | LockSlot, LockSlot => false
  | _, _ => true
  end.

(** The value of a dynamic property.  A vector is an object: [ref] is its
    identity and [isInstance] tells whether it was built by the add-on's
    [Vector3] class (what [instanceof Vector3] tests). *)
Inductive DynamicProperty : Type :=
| PropBoolean (b : bool)
| PropNumber (n : float)
| PropString (s : string)
| PropVector (ref : nat) (isInstance : bool) (v : Vector3.t).

Inductive ItemComponentTypes : Type := Cooldown | Durability | Food | Enchantable.

Definition componentOf (componentType : ItemComponentTypes) : Type :=
  match componentType with
  | Cooldown => ItemCooldownComponent
  | Durability => ItemDurabilityComponent
  | Food => ItemFoodComponent
  | Enchantable => ItemEnchantableComponent
  end.

Record ItemStack : Type :=
  { typeId : string;
    nameTag : option string;
    amount : Z;
    isStackable : bool;
    getTags : list string;
    getLore : list string;
    getCanDestroy : list string;
    getCanPlaceOn : list string;
    keepOnDeath : bool;
    lockMode : ItemLockMode;
    cooldown : option ItemCooldownComponent;
    durability : option ItemDurabilityComponent;
    food : option ItemFoodComponent;
    enchantable : option ItemEnchantableComponent;
    dynamicProperties : list (string * DynamicProperty) }.

Definition getComponent (item : ItemStack) (componentType : ItemComponentTypes)
  : option (componentOf componentType) :=
  match componentType with
  | Cooldown => cooldown item
  | Durability => durability item
  | Food => food item
  | Enchantable => enchantable item
  end.

Definition hasComponent (item : ItemStack) (componentType : ItemComponentTypes) : bool :=
  match getComponent item componentType with
  | Some _ => true
  | None => false
  end.

Definition getDynamicPropertyIds (item : ItemStack) : list string :=
  map fst (dynamicProperties item).

Definition getDynamicProperty (item : ItemStack) (identifier : string)
  : option DynamicProperty :=
  match find (fun entry => String.eqb (fst entry) identifier) (dynamicProperties item) with
  | Some entry => Some (snd entry)
  | None => None
  end.

(** [item.setLore(lore)], the host's way to change the lore lines. *)
Definition setLore (item : ItemStack) (lore : list string) : ItemStack :=
  {| typeId := typeId item; nameTag := nameTag item; amount := amount item;
     isStackable := isStackable item; getTags := getTags item; getLore := lore;
     getCanDestroy := getCanDestroy item; getCanPlaceOn := getCanPlaceOn item;
     keepOnDeath := keepOnDeath item; lockMode := lockMode item;
     cooldown := cooldown item; durability := durability item; food := food item;
     enchantable := enchantable item; dynamicProperties := dynamicProperties item |}.

(* ===================================================================== *)
(** * parseEnchantments *)
(* ===================================================================== *)

Definition isEmpty (s : string) : bool :=
  match s with
  | EmptyString => true
  | String _ _ => false
  end.

Fixpoint allChars (p : ascii -> bool) (s : string) : bool :=
  match s with
  | EmptyString => true
  | String c s' => p c && allChars p s'
  end.

(** The tail [(?:\s+(\w+))$] of the pattern when the group takes part: white
    space, then word characters up to the end of the entry.  The two classes
    are disjoint, so the split is forced. *)
Definition matchLevel (rest : string) : option string :=
  match rest with
  | String c _ =>
      if Js.isWhiteSpace c then
        let word := Js.trimStart rest in
        if negb (isEmpty word) && allChars Js.isWordChar word then Some word else None
      else None
  | EmptyString => None
  end.

(** The lazy group [([\w\s]+?)]: names of growing length are tried, and the
    first one after which the rest of the pattern matches wins.  After a name
    the optional group is tried first, then the end of the entry. *)
Fixpoint matchName (name rest : string) : option (string * option string) :=
  match rest with
  | EmptyString => None
  | String c rest' =>
      if Js.isWordChar c || Js.isWhiteSpace c then
        let name' := name ++ String c EmptyString in
        match matchLevel rest' with
        | Some levelStr => Some (name', Some levelStr)
        | None =>
            if isEmpty rest' then Some (name', None) else matchName name' rest'
        end
      else None
  end.

(** [/^([\w\s]+?)(?:\s+(\w+))?$/.exec(entry)]: the two captured groups. *)
Definition enchantmentPattern_exec (entry : string) : option (string * option string) :=
  matchName EmptyString entry.

(** The object [parseEnchantments] returns: each property may be absent. *)
Record EnchantmentsResult : Type :=
  { enchantments : option (list Enchantment); error : option string }.

Section ParseEnchantments.

(** [EnchantmentTypes.get], the host's registry of enchantment types. *)
Variable EnchantmentTypes_get : string -> option EnchantmentType.t.

(** The levelStr of an entry is truthy when it is present and not empty. *)
Definition levelOf (levelStr : option string) : Js.number :=
  match levelStr with
  | Some s => if isEmpty s then Js.Int 1 else romanToNumber s
  | None => Js.Int 1
  end.

(** The body of the loop for one entry: the error it returns with, or the
    enchantment it pushes. *)
Definition parseEntry (item : ItemStack) (enchantableComponent : ItemEnchantableComponent)
  (entry : string) : string + Enchantment :=
  match enchantmentPattern_exec entry with
  | None => inl ("Invalid format: " ++ entry)
  | Some (name, levelStr) =>
      let level := levelOf levelStr in
      let formattedName := Js.spacesToUnderscores (Js.toLowerCase (Js.trim name)) in
      match EnchantmentTypes_get formattedName with
      | None => inl ("Invalid enchantment identifier: " ++ name)
      | Some type =>
          if Js.gt level (EnchantmentType.maxLevel type) then
            inl ("The enchantment level for " ++ name
                 ++ " is too high. Maximum allowed is "
                 ++ convertToRomanNumerals (EnchantmentType.maxLevel type) ++ ".")
          else
            let enchantment := {| type := type; level := level |} in
            if negb (canAddEnchantment enchantableComponent enchantment) then
              inl ("The " ++ name ++ " enchantment is not compatible with "
                   ++ typeId item ++ ".")
            else inr enchantment
      end
  end.

(** The [for] loop over the entries, with the array built so far. *)
Fixpoint parseEntries (item : ItemStack) (enchantableComponent : ItemEnchantableComponent)
  (enchantments : list Enchantment) (entries : list string) : EnchantmentsResult :=
  match entries with
  | [] => {| enchantments := Some enchantments; error := None |}
  | entry :: entries' =>
      match parseEntry item enchantableComponent entry with
      | inl message => {| enchantments := None; error := Some message |}
      | inr enchantment =>
          parseEntries item enchantableComponent (enchantments ++ [enchantment])%list entries'
      end
  end.

Definition enchantmentEntries (enchantmentsStr : string) : list string :=
  map Js.trim (Js.split ","%char enchantmentsStr).

Definition parseEnchantments (item : ItemStack) (enchantmentsStr : string)
  : EnchantmentsResult :=
  match getComponent item Enchantable with
  | None => {| enchantments := None; error := Some "This item cannot be enchanted." |}
  | Some enchantableComponent =>
      parseEntries item enchantableComponent [] (enchantmentEntries enchantmentsStr)
  end.

End ParseEnchantments.

(* ===================================================================== *)
(** * class FormFieldManager *)
(* ===================================================================== *)

Module FormFieldManager.

(** The private array [fields]. *)
Definition t : Type := list string.

(** [new FormFieldManager()] *)
Definition create : t := [].

(** A value of a form response; reading past the end of an array gives
    [undefined]. *)
Inductive FormValue : Type :=
| Undefined
| Boolean (b : bool)
| Number (n : float)
| Text (s : string).

(** [ModalFormResponse]: [formValues] may be absent. *)
Record ModalFormResponse : Type := { formValues : option (list FormValue) }.

(** [addField] changes the manager and returns an index. *)
Definition addField (this : t) (name : string) : t * Z :=
  let fields := (this ++ [name])%list in
  (fields, Js.length fields - 1).

Definition getFieldIndex (this : t) (name : string) : Z :=
  Js.indexOf this name.

Definition getValue (this : t) (response : ModalFormResponse) (name : string)
  (defaultValue : FormValue) : FormValue :=
  let index := getFieldIndex this name in
  match formValues response with
  | Some values =>
      if negb (index =? -1) && (index <? Js.length values) then
        match Js.at_ values index with
        | Some v => v
        | None => Undefined
        end
      else defaultValue
  | None => defaultValue
  end.

(** Registering a sequence of names one after the other: the final manager
    and the indices returned, in order. *)
Fixpoint addFields (this : t) (names : list string) : t * list Z :=
  match names with
  | [] => (this, [])
  | name :: names' =>
      let '(this', index) := addField this name in
      let '(final, indices) := addFields this' names' in
      (final, index :: indices)
  end.

End FormFieldManager.

(* ===================================================================== *)
(** * parseCoords *)
(* ===================================================================== *)

Module Vector2.
Record t : Type := { x : float; y : float }.
End Vector2.

(** What the coordinate parser reads of a player.  Both reads go to the host
    and throw when the player is no longer valid. *)
Record Player : Type :=
  { location : completion Vector3.t;
    getRotation : completion Vector2.t }.

Inductive Axis : Type := AxisX | AxisY | AxisZ.

Definition errInvalidInput : string :=
  "Error: Invalid coordinate input. Expected three components (x, y, z).".
Definition errMix : string :=
  "Error: Cannot mix relative (~) and local (^) coordinates.".
Definition errNotParsed : string :=
  "Error: One or more coordinates could not be parsed.".
Definition errInvalidValue : string := "Error: Invalid coordinate value.".

Definition isString {A} (v : A + string) : bool :=
  match v with
  | inl _ => false
  | inr _ => true
  end.

(** The two tests [components.some(component => component.startsWith(...))]. *)
Definition isRelative (components : list string) : bool :=
  Js.some (fun component => Js.startsWith component "~") components.

Definition isLocal (components : list string) : bool :=
  Js.some (fun component => Js.startsWith component "^") components.

Section ParseCoords.

(** [Math.sin] and [Math.cos]: the language leaves their accuracy to the
    engine. *)
Variables Math_sin Math_cos : float -> float.

Local Open Scope float_scope.
Local Open Scope js_scope.

Definition parseCoordinateWithDirection (player : Player) (input : string)
  (base : float) (axis : Axis) : completion (float + string) :=
  if Js.startsWith input "~" then
    let relativeValue := Js.parseFloat (Js.slice1 input) in
    Return (inl (if Js.isNaN relativeValue then base else base + relativeValue))
  else if Js.startsWith input "^" then
    let localValue := Js.orZero (Js.parseFloat (Js.slice1 input)) in
    rotation <- getRotation player ;;
    let yawRadians := degreesToRadians (Vector2.y rotation) in
    match axis with
    | AxisX => Return (inl (base + (- Math_sin yawRadians) * localValue))
    | AxisZ => Return (inl (base + Math_cos yawRadians * localValue))
    | AxisY => Return (inl (base + localValue))
    end
  else
    let absoluteValue := Js.parseFloat input in
    Return (if Js.isNaN absoluteValue then inr errInvalidValue else inl absoluteValue).

(** The [try] block of [parseCoords] on the three components. *)
Definition parseComponents (player : Player) (c0 c1 c2 : string)
  : completion (Vector3.t + string) :=
  playerLocation <- location player ;;
  let components := [c0; c1; c2] in
  if isRelative components && isLocal components then Return (inr errMix)
  else
    x <- parseCoordinateWithDirection player c0 (Vector3.x playerLocation) AxisX ;;
    y <- parseCoordinateWithDirection player c1 (Vector3.y playerLocation) AxisY ;;
    z <- parseCoordinateWithDirection player c2 (Vector3.z playerLocation) AxisZ ;;
    match x, y, z with
    | inl x, inl y, inl z => Return (inl (Vector3.new x y z))
    | _, _, _ => Return (inr errNotParsed)
    end.

Definition parseCoords (player : Player) (input : string) : Vector3.t + string :=
  match Js.splitWhiteSpace (Js.trim input) with
  | [c0; c1; c2] =>
      tryCatch (parseComponents player c0 c1 c2)
        (fun error =>
           match error with
           | ErrorObject message => inr ("Error: " ++ message)%string
           | OtherValue => inr "Error: An unknown error occurred."%string
           end)
  | _ => inr errInvalidInput
  end.

End ParseCoords.

(* ===================================================================== *)
(** * isSameItem *)
(* ===================================================================== *)

Definition optionStringNe (a b : option string) : bool :=
  match a, b with
  | Some x, Some y => negb (String.eqb x y)
  | None, None => false
  | _, _ => true
  end.

(** [a.length !== b.length || !a.every(x => b.includes(x))] *)
Definition differAsSets (a b : list string) : bool :=
  negb (Js.length a =? Js.length b) || negb (Js.every (fun x => Js.includes b x) a).

Definition compareCooldownComponents (comp1 comp2 : ItemCooldownComponent) : bool :=
  String.eqb (cooldownCategory comp1) (cooldownCategory comp2)
  && (cooldownTicks comp1 =? cooldownTicks comp2).

Definition compareDurabilityComponents (comp1 comp2 : ItemDurabilityComponent) : bool :=
  (maxDurability comp1 =? maxDurability comp2) && (damage comp1 =? damage comp2).

Definition compareFoodComponents (comp1 comp2 : ItemFoodComponent) : bool :=
  Bool.eqb (canAlwaysEat comp1) (canAlwaysEat comp2)
  && (nutrition comp1 =? nutrition comp2)
  && Js.strictEq (saturationModifier comp1) (saturationModifier comp2)
  && String.eqb (usingConvertsTo comp1) (usingConvertsTo comp2).

(** The loop of [compareEnchantableComponents] over two arrays of the same
    length, position by position. *)
Fixpoint sameEnchantments (enchantments1 enchantments2 : list Enchantment) : bool :=
  match enchantments1, enchantments2 with
  | e1 :: rest1, e2 :: rest2 =>
      if negb (EnchantmentType.same (type e1) (type e2)) || numberNe (level e1) (level e2)
      then false
      else sameEnchantments rest1 rest2
  | _, _ => true
  end.

Definition compareEnchantableComponents (comp1 comp2 : ItemEnchantableComponent) : bool :=
  let enchantments1 := getEnchantments comp1 in
  let enchantments2 := getEnchantments comp2 in
  if negb (Js.length enchantments1 =? Js.length enchantments2) then false
  else sameEnchantments enchantments1 enchantments2.

Definition compareComponent (item1 item2 : ItemStack) (componentType : ItemComponentTypes)
  (compareFunction : componentOf componentType -> componentOf componentType -> bool)
  : bool :=
  let hasComponent1 := hasComponent item1 componentType in
  let hasComponent2 := hasComponent item2 componentType in
  if negb (Bool.eqb hasComponent1 hasComponent2) then false
  else
    match getComponent item1 componentType, getComponent item2 componentType with
    | Some comp1, Some comp2 => compareFunction comp1 comp2
    | _, _ => true
    end.

Definition compareComponents (item1 item2 : ItemStack) : bool :=
  if negb (compareComponent item1 item2 Cooldown compareCooldownComponents) then false
  else if negb (compareComponent item1 item2 Durability compareDurabilityComponents) then false
  else if negb (compareComponent item1 item2 Food compareFoodComponents) then false
  else if negb (compareComponent item1 item2 Enchantable compareEnchantableComponents) then false
  else true.

(** [arraysEqual]: same length and the same string at every index. *)
Fixpoint sameAtEveryIndex (arr1 arr2 : list string) : bool :=
  match arr1, arr2 with
  | [], _ => true
  | x :: rest1, y :: rest2 => String.eqb x y && sameAtEveryIndex rest1 rest2
  | _ :: _, [] => false
  end.

Definition arraysEqual (arr1 arr2 : list string) : bool :=
  if negb (Js.length arr1 =? Js.length arr2) then false
  else sameAtEveryIndex arr1 arr2.

(** [typeof] of what [getDynamicProperty] returns *)
Definition typeof (prop : option DynamicProperty) : string :=
  match prop with
  | None => "undefined"
  | Some (PropBoolean _) => "boolean"
  | Some (PropNumber _) => "number"
  | Some (PropString _) => "string"
  | Some (PropVector _ _ _) => "object"
  end.

Definition instanceofVector3 (prop : option DynamicProperty) : option Vector3.t :=
  match prop with
  | Some (PropVector _ true v) => Some v
  | _ => None
  end.

(** [prop1 !== prop2]: objects are compared by identity. *)
Definition propertyNe (prop1 prop2 : option DynamicProperty) : bool :=
  match prop1, prop2 with
  | None, None => false
  | Some (PropBoolean a), Some (PropBoolean b) => negb (Bool.eqb a b)
  | Some (PropNumber a), Some (PropNumber b) => Js.strictNe a b
  | Some (PropString a), Some (PropString b) => negb (String.eqb a b)
  | Some (PropVector r1 _ _), Some (PropVector r2 _ _) => negb (Nat.eqb r1 r2)
  | _, _ => true
  end.

(** The loop of [compareDynamicProperties] over the identifiers of the first
    item. *)
Fixpoint sameProperties (item1 item2 : ItemStack) (properties : list string) : bool :=
  match properties with
  | [] => true
  | property :: rest =>
      let prop1 := getDynamicProperty item1 property in
      let prop2 := getDynamicProperty item2 property in
      if negb (String.eqb (typeof prop1) (typeof prop2)) then false
      else
        match instanceofVector3 prop1, instanceofVector3 prop2 with
        | Some v1, Some v2 =>
            if negb (Vector3.equals v1 v2) then false
            else sameProperties item1 item2 rest
        | _, _ =>
            if propertyNe prop1 prop2 then false
            else sameProperties item1 item2 rest
        end
  end.

Definition compareDynamicProperties (item1 item2 : ItemStack) : bool :=
  let item1DynamicProperties := getDynamicPropertyIds item1 in
  let item2DynamicProperties := getDynamicPropertyIds item2 in
  if negb (arraysEqual item1DynamicProperties item2DynamicProperties) then false
  else sameProperties item1 item2 item1DynamicProperties.

Section IsSameItem.

(** [item1.isStackableWith(item2)], answered by the host. *)
Variable isStackableWith : ItemStack -> ItemStack -> bool.

Definition isSameItem (item1 item2 : ItemStack) : bool :=
  if negb (String.eqb (typeId item1) (typeId item2)) then false
  else if optionStringNe (nameTag item1) (nameTag item2) then false
  else if negb (amount item1 =? amount item2) then false
  else if isStackable item1 && isStackableWith item1 item2 then false
  else if differAsSets (getTags item1) (getTags item2) then false
  else if differAsSets (getLore item1) (getLore item2) then false
  else if differAsSets (getCanDestroy item1) (getCanDestroy item2) then false
  else if differAsSets (getCanPlaceOn item1) (getCanPlaceOn item2) then false
  else if negb (Bool.eqb (keepOnDeath item1) (keepOnDeath item2)) then false
  else if lockModeNe (lockMode item1) (lockMode item2) then false
  else if negb (compareComponents item1 item2) then false
  else if negb (compareDynamicProperties item1 item2) then false
  else true.

End IsSameItem.

(* ===================================================================== *)
(** * Relations used to state the properties *)
(* ===================================================================== *)

(** Two enchantments agree: the same type object and the same level, a
    number. *)
Definition sameEnchantment (e1 e2 : Enchantment) : Prop :=
  EnchantmentType.ref (type e1) = EnchantmentType.ref (type e2)
  /\ exists n, level e1 = Js.Int n /\ level e2 = Js.Int n.

(** The characters of the table of [romanToNumber]. *)
Definition isRomanSymbol (c : ascii) : bool :=
  match romanSymbol c with
  | Some _ => true
  | None => false
  end.

(** The sum of the symbol values below a symbol value: what a run of
    subtractions after that symbol can take away at most. *)
Definition smallerSymbols (value : Z) : Z :=
  if value <=? 1 then 0
  else if value <=? 5 then 1
  else if value <=? 10 then 6
  else if value <=? 50 then 16
  else if value <=? 100 then 66
  else if value <=? 500 then 166
  else 666.

(** What the checks of [parseEntry] leave possible for a level: NaN, or an
    integer from 1 on that is not greater than the maximum of the type. *)
Definition levelChecked (enchantment : Enchantment) : Prop :=
  level enchantment = Js.NaN
  \/ exists n, level enchantment = Js.Int n /\ 1 <= n
               /\ Js.gt (Js.Int n) (EnchantmentType.maxLevel (type enchantment)) = false.

(* ===================================================================== *)
(** * Sample hosts and inputs for the examples *)
(* ===================================================================== *)

Module Sample.

Local Open Scope float_scope.

(** An engine's sine and cosine, by their Taylor polynomials of degree 9
    and 8: exact at zero and close on a quarter turn around it. *)
Definition sin (a : float) : float :=
  let a2 := a * a in
  a * (1 - a2 / 6 * (1 - a2 / 20 * (1 - a2 / 42 * (1 - a2 / 72)))).

Definition cos (a : float) : float :=
  let a2 := a * a in
  1 - a2 / 2 * (1 - a2 / 12 * (1 - a2 / 30 * (1 - a2 / 56))).

(** A valid player standing at (10, 64, 10) and facing yaw 0. *)
Definition player : Player :=
  {| location := Return (Vector3.new 10 64 10);
     getRotation := Return {| Vector2.x := 0; Vector2.y := 0 |} |}.

Local Close Scope float_scope.

Definition sharpness : EnchantmentType.t :=
  {| EnchantmentType.ref := 1; EnchantmentType.id := "sharpness";
     EnchantmentType.maxLevel := Js.Int 5 |}.

Definition unbreaking : EnchantmentType.t :=
  {| EnchantmentType.ref := 2; EnchantmentType.id := "unbreaking";
     EnchantmentType.maxLevel := Js.Int 3 |}.

(** A registry knowing two enchantment types. *)
Definition registry (identifier : string) : option EnchantmentType.t :=
  if String.eqb identifier "sharpness" then Some sharpness
  else if String.eqb identifier "unbreaking" then Some unbreaking
  else None.

(** A component whose compatibility check looks at the type only, as it does
    for a sword without enchantments. *)
Definition swordEnchantable : ItemEnchantableComponent :=
  {| getEnchantments := [];
     canAddEnchantment := fun enchantment =>
       String.eqb (EnchantmentType.id (type enchantment)) "sharpness"
       || String.eqb (EnchantmentType.id (type enchantment)) "unbreaking" |}.

Definition sword : ItemStack :=
  {| typeId := "minecraft:diamond_sword"; nameTag := None; amount := 1;
     isStackable := false; getTags := []; getLore := ["Forged"; "Blessed"];
     getCanDestroy := []; getCanPlaceOn := []; keepOnDeath := false;
     lockMode := LockNone; cooldown := None;
     durability := Some {| maxDurability := 1561; damage := 0 |};
     food := None; enchantable := Some swordEnchantable; dynamicProperties := [] |}.

(** The sword with a list of enchantments on it. *)
Definition enchantedSword (enchantments : list Enchantment) : ItemStack :=
  {| typeId := "minecraft:diamond_sword"; nameTag := None; amount := 1;
     isStackable := false; getTags := []; getLore := ["Forged"; "Blessed"];
     getCanDestroy := []; getCanPlaceOn := []; keepOnDeath := false;
     lockMode := LockNone; cooldown := None;
     durability := Some {| maxDurability := 1561; damage := 0 |};
     food := None;
     enchantable :=
       Some {| getEnchantments := enchantments;
               canAddEnchantment := canAddEnchantment swordEnchantable |};
     dynamicProperties := [] |}.

(** An item without the enchantable component. *)
Definition stick : ItemStack :=
  {| typeId := "minecraft:stick"; nameTag := None; amount := 16;
     isStackable := true; getTags := []; getLore := [];
     getCanDestroy := []; getCanPlaceOn := []; keepOnDeath := false;
     lockMode := LockNone; cooldown := None; durability := None;
     food := None; enchantable := None; dynamicProperties := [] |}.

(** Two hosts for [isStackableWith]: one that stacks everything, one that
    stacks nothing. *)
Definition stacksAll (item1 item2 : ItemStack) : bool := true.
Definition stacksNone (item1 item2 : ItemStack) : bool := false.

End Sample.

(* ===================================================================== *)
(** * More built-ins, for the rest of utils.ts and for its callers *)
(* ===================================================================== *)

Module JsText.

(** [arr.join(sep)] on an array of strings *)
Fixpoint join (sep : string) (arr : list string) : string :=
  match arr with
  | [] => EmptyString
  | [x] => x
  | x :: rest => x ++ sep ++ join sep rest
  end.

(** [s.includes(c)] for a one-character string [c] *)
Fixpoint includesChar (s : string) (c : ascii) : bool :=
  match s with
  | EmptyString => false
  | String d s' => Ascii.eqb d c || includesChar s' c
  end.

(** [s.charAt(0)]: the first character as a string, empty for the empty
    string. *)
Definition charAt0 (s : string) : string :=
  match s with
  | String c _ => String c EmptyString
  | EmptyString => EmptyString
  end.

(** The upper-case form of one code unit: a-z and the accented small letters
    move down by 32 and the sharp s becomes two letters.  The upper-case
    forms of the micro sign (181) and of y with diaeresis (255) lie above 255,
    outside the strings of this embedding; here they stand unchanged. *)
Definition upperChar (c : ascii) : string :=
  let n := Js.code c in
  if ((97 <=? n) && (n <=? 122)
      || (224 <=? n) && (n <=? 254) && negb (n =? 247))%N
  then String (ascii_of_N (n - 32)) EmptyString
  else if (n =? 223)%N then "SS"
  else String c EmptyString.

Fixpoint toUpperCase (s : string) : string :=
  match s with
  | EmptyString => EmptyString
  | String c s' => upperChar c ++ toUpperCase s'
  end.

(** [s.replace(/_/g, " ")] *)
Definition underscoresToSpaces (s : string) : string :=
  Js.mapChars (fun c => if Ascii.eqb c "_"%char then " "%char else c) s.

(** [s.split(sep)] for a separator of one character or more: the separator
    is looked for at each position from the left; where it is found the
    piece read so far ends and the search goes on after the separator. *)
Fixpoint dropChars (n : nat) (s : string) : string :=
  match n, s with
  | S n', String _ s' => dropChars n' s'
  | _, _ => s
  end.

Fixpoint splitAt (fuel : nat) (sep : string) (cur : string) (s : string) : list string :=
  match fuel with
  | O => [cur ++ s]
  | S fuel' =>
      match s with
      | EmptyString => [cur]
      | String c s' =>
          if String.prefix sep s
          then cur :: splitAt fuel' sep EmptyString (dropChars (String.length sep) s)
          else splitAt fuel' sep (cur ++ String c EmptyString) s'
      end
  end.

(** Every step consumes at least one character, so the length of the string
    bounds the number of steps. *)
Definition splitString (sep : string) (s : string) : list string :=
  splitAt (S (String.length s)) sep EmptyString s.

(** [arr.filter(x => x !== '')] *)
Definition nonEmpty (arr : list string) : list string :=
  filter (fun x => negb (isEmpty x)) arr.

End JsText.

(* ===================================================================== *)
(** * idToName, formatEnchantments, getName *)
(* ===================================================================== *)

(** [id.includes(":") ? id.split(":")[1] : id]; the second piece exists
    whenever the colon does. *)
Definition noNamespace (id : string) : string :=
  if JsText.includesChar id ":" then
    match Js.split ":"%char id with
    | _ :: second :: _ => second
    | _ => "undefined"
    end
  else id.

(** [word.charAt(0).toUpperCase() + word.slice(1)] *)
Definition capitalize (word : string) : string :=
  JsText.toUpperCase (JsText.charAt0 word) ++ Js.slice1 word.

Definition idToName (id : string) : string :=
  let namePart := JsText.underscoresToSpaces (noNamespace id) in
  JsText.join " " (map capitalize (Js.split " "%char namePart)).

Definition formatEnchantment (enchantment : Enchantment) : string :=
  let enchantmentName := idToName (EnchantmentType.id (type enchantment)) in
  let enchantmentLevel := convertToRomanNumerals (level enchantment) in
  enchantmentName ++ " " ++ enchantmentLevel.

Definition formatEnchantments (enchantments : list Enchantment) : string :=
  JsText.join ", " (map formatEnchantment enchantments).

(* ===================================================================== *)
(** * Shapes of strings used to state the properties *)
(* ===================================================================== *)

Definition firstChar (s : string) : option ascii :=
  match s with
  | String c _ => Some c
  | EmptyString => None
  end.

Fixpoint lastChar (s : string) : option ascii :=
  match s with
  | EmptyString => None
  | String c EmptyString => Some c
  | String _ s' => lastChar s'
  end.

(** The string is not empty and its first, or last, character passes [p]. *)
Definition firstIs (p : ascii -> bool) (s : string) : bool :=
  match firstChar s with
  | Some c => p c
  | None => false
  end.

Definition lastIs (p : ascii -> bool) (s : string) : bool :=
  match lastChar s with
  | Some c => p c
  | None => false
  end.

Definition notSpace (c : ascii) : bool := negb (Js.isWhiteSpace c).

Definition wordOrSpace (c : ascii) : bool := Js.isWordChar c || Ascii.eqb c " "%char.

(** The characters of an identifier without namespace: small letters, digits
    and the underscore. *)
Definition isIdChar (c : ascii) : bool :=
  let n := Js.code c in
  ((97 <=? n) && (n <=? 122) || (48 <=? n) && (n <=? 57) || (n =? 95))%N.

Definition notUnderscore (c : ascii) : bool := negb (Ascii.eqb c "_"%char).

(** A plain name such as [fire_aspect]: identifier characters, with no
    underscore at either end. *)
Definition isPlainName (s : string) : bool :=
  allChars isIdChar s && firstIs notUnderscore s && lastIs notUnderscore s.

(** A name as it is displayed, such as [Fire Aspect]: word characters and
    spaces, with a word character at either end. *)
Definition isDisplayName (s : string) : bool :=
  allChars wordOrSpace s && firstIs Js.isWordChar s && lastIs Js.isWordChar s.

(** The name under which [parseEntry] looks an entry up in the registry. *)
Definition formattedName (name : string) : string :=
  Js.spacesToUnderscores (Js.toLowerCase (Js.trim name)).

(** An enchantment that the enchantment field shows in a form that reads
    back: its type is registered under the plain name of its identifier, and
    its level lies in 1..10, does not exceed the maximum of the type and is
    accepted by the item. *)
Definition readsBack (EnchantmentTypes_get : string -> option EnchantmentType.t)
  (enchantableComponent : ItemEnchantableComponent) (enchantment : Enchantment) : Prop :=
  isPlainName (noNamespace (EnchantmentType.id (type enchantment))) = true
  /\ EnchantmentTypes_get (noNamespace (EnchantmentType.id (type enchantment)))
     = Some (type enchantment)
  /\ (exists n, level enchantment = Js.Int n /\ 1 <= n <= 10)
  /\ Js.gt (level enchantment) (EnchantmentType.maxLevel (type enchantment)) = false
  /\ canAddEnchantment enchantableComponent enchantment = true.

(* ===================================================================== *)
(** * editItemDetails: the text fields for lore and block lists *)
(* ===================================================================== *)

(** [s || ""] on a string: the empty string is the only falsy one. *)
Definition orEmpty (s : string) : string := if isEmpty s then EmptyString else s.

(** [s.includes(sub)] *)
Fixpoint includesString (sub s : string) : bool :=
  String.prefix sub s
  || match s with
     | String _ s' => includesString sub s'
     | EmptyString => false
     end.

(** The default text of the lore field: [item.getLore().join('<b>') || ""]. *)
Definition loreField (item : ItemStack) : string :=
  orEmpty (JsText.join "<b>" (getLore item)).

(** [loreInput.split('<b>').map(line => line.trim()).filter(line => line !== '')] *)
Definition loreLines (loreInput : string) : list string :=
  JsText.nonEmpty (map Js.trim (JsText.splitString "<b>" loreInput)).

(** The default text of a block list field: [blocks.join(', ') || ""]. *)
Definition blocksField (blocks : list string) : string :=
  orEmpty (JsText.join ", " blocks).

(** [input.split(',').map(block => block.trim()).filter(block => block !== '')] *)
Definition blockInputList (input : string) : list string :=
  JsText.nonEmpty (map Js.trim (Js.split ","%char input)).

(** A text between double quotes. *)
Definition quoted (s : string) : string :=
  String (ascii_of_nat 34) (s ++ String (ascii_of_nat 34) EmptyString).

Section ValidBlocks.

(** [BlockTypes.get(block)] as a truth value: whether the host knows the
    block type. *)
Variable BlockTypes_get : string -> bool.

(** The loop that checks the blocks of a list field: the blocks pushed so
    far, then either all of them or the message shown for the first block
    the host does not know.  [listName] is "Can Destroy" or "Can Place On". *)
Fixpoint validBlocks (listName : string) (valid : list string) (inputList : list string)
  : string + list string :=
  match inputList with
  | [] => inr valid
  | block :: rest =>
      if BlockTypes_get block then validBlocks listName (valid ++ [block])%list rest
      else inl ("Block type " ++ quoted block ++ " is invalid, cannot be added to "
                ++ quoted listName ++ " list.")
  end.

End ValidBlocks.

(* ===================================================================== *)
(** * getName and the item list of listItems *)
(* ===================================================================== *)

(** What [getName] is called on: a player, another entity, a block or an
    item.  An entity always has a name tag, empty when it was given none. *)
Inductive Source : Type :=
| SourcePlayer (name : string)
| SourceEntity (nameTag : string) (typeId : string)
| SourceBlock (typeId : string)
| SourceItem (item : ItemStack).

(** The four [instanceof] tests cover every source, so the final [throw] is
    never reached. *)
Definition getName (source : Source) : string :=
  match source with
  | SourcePlayer name => name
  | SourceEntity nameTag typeId =>
      if negb (isEmpty nameTag) then nameTag else idToName typeId
  | SourceBlock typeId => idToName typeId
  | SourceItem item =>
      match nameTag item with
      | Some tag => if negb (isEmpty tag) then tag else idToName (typeId item)
      | None => idToName (typeId item)
      end
  end.

Inductive EquipmentSlot : Type := Mainhand | Offhand | Head | Chest | Legs | Feet.

(** Every slot has an entry in the table, so "Unknown Slot" is not used. *)
Definition formatSlotName (slot : EquipmentSlot) : string :=
  match slot with
  | Mainhand => "Main hand"
  | Offhand => "Off hand"
  | Head => "Head"
  | Chest => "Chest"
  | Legs => "Legs"
  | Feet => "Feet"
  end.

(** An entry of [itemIndices]. *)
Inductive ItemIndex : Type :=
| EquippableIndex (slot : EquipmentSlot)
| ContainerIndex (index : Z).

(** The [container] argument: a container with its slots, or the equippable
    component. *)
Inductive Inventory : Type :=
| InContainer (slots : list (option ItemStack))
| InEquippable.

(** The target of the menu: an entity (a player is one) or a block. *)
Inductive Target : Type :=
| TargetEntity (entity : Source)
| TargetBlock (typeId : string).

Record ActionForm : Type := { title : string; buttons : list string }.

Section ListItems.

Variable isStackableWith : ItemStack -> ItemStack -> bool.

(** [Object.values(EquipmentSlot)], in the order of the host's enumeration. *)
Variable equipmentSlots : list EquipmentSlot.

(** The loop over the equipment slots on the buttons and indices so far. *)
Fixpoint listEquipment (getEquipment : EquipmentSlot -> option ItemStack)
  (slots : list EquipmentSlot) (state : list string * list ItemIndex)
  : list string * list ItemIndex :=
  match slots with
  | [] => state
  | slot :: rest =>
      match getEquipment slot with
      | Some equipment =>
          listEquipment getEquipment rest
            ((fst state ++ [(getName (SourceItem equipment) ++ " (Equipped)")%string])%list,
             (snd state ++ [EquippableIndex slot])%list)
      | None => listEquipment getEquipment rest state
      end
  end.

(** The loop over the container slots from index [i] on. *)
Fixpoint listContainer (mainhandItem : option ItemStack) (i : Z)
  (slots : list (option ItemStack)) (state : list string * list ItemIndex)
  : list string * list ItemIndex :=
  match slots with
  | [] => state
  | None :: rest => listContainer mainhandItem (i + 1) rest state
  | Some item :: rest =>
      match mainhandItem with
      | Some mainhand =>
          if isSameItem isStackableWith item mainhand
          then listContainer mainhandItem (i + 1) rest state
          else listContainer mainhandItem (i + 1) rest
                 ((fst state ++ [getName (SourceItem item)])%list,
                  (snd state ++ [ContainerIndex i])%list)
      | None =>
          listContainer mainhandItem (i + 1) rest
            ((fst state ++ [getName (SourceItem item)])%list,
             (snd state ++ [ContainerIndex i])%list)
      end
  end.

(** The menu that [listItems] builds and the table [itemIndices] it keeps
    for the answer. *)
Definition listItems (container : Inventory) (target : Target)
  (equippableComp : option (EquipmentSlot -> option ItemStack))
  : ActionForm * list ItemIndex :=
  let menuTitle :=
    match target with
    | TargetEntity entity => (getName entity ++ "'s Inventory - Item Editor")%string
    | TargetBlock typeId => (getName (SourceBlock typeId) ++ "'s Container - Item Editor")%string
    end in
  let state0 : list string * list ItemIndex := (["Go back"], []) in
  let state1 :=
    match equippableComp with
    | Some getEquipment => listEquipment getEquipment equipmentSlots state0
    | None => state0
    end in
  let state2 :=
    match container with
    | InContainer slots =>
        let mainhandItem :=
          match target, equippableComp with
          | TargetEntity _, Some getEquipment => getEquipment Mainhand
          | _, _ => None
          end in
        listContainer mainhandItem 0 slots state1
    | InEquippable => state1
    end in
  ({| title := menuTitle; buttons := fst state2 |}, snd state2).

(** The item the answer handler fetches for an entry of [itemIndices]. *)
Definition selectedItem (container : Inventory)
  (equippableComp : option (EquipmentSlot -> option ItemStack)) (selected : ItemIndex)
  : option ItemStack :=
  match selected, container, equippableComp with
  | ContainerIndex index, InContainer slots, _ =>
      match Js.at_ slots index with
      | Some item => item
      | None => None
      end
  | EquippableIndex slot, _, Some getEquipment => getEquipment slot
  | _, _, _ => None
  end.

End ListItems.

(* ===================================================================== *)
(** * Relations used to state the properties of listItems *)
(* ===================================================================== *)

(** The label of the button that belongs to an entry of [itemIndices] when
    the entry stands for [item]. *)
Definition buttonLabel (selected : ItemIndex) (item : ItemStack) : string :=
  match selected with
  | EquippableIndex _ => getName (SourceItem item) ++ " (Equipped)"
  | ContainerIndex _ => getName (SourceItem item)
  end.

(** The main-hand item that the container loop compares with. *)
Definition mainhandOf (target : Target)
  (equippableComp : option (EquipmentSlot -> option ItemStack)) : option ItemStack :=
  match target, equippableComp with
  | TargetEntity _, Some getEquipment => getEquipment Mainhand
  | _, _ => None
  end.

(** Whether the container loop skips an item. *)
Definition skipped (isStackableWith : ItemStack -> ItemStack -> bool)
  (mainhandItem : option ItemStack) (item : ItemStack) : bool :=
  match mainhandItem with
  | Some mainhand => isSameItem isStackableWith item mainhand
  | None => false
  end.

(* ===================================================================== *)
(** * editItemDetails: the form and its field registry *)
(* ===================================================================== *)

(** [prop || false] on what [getDynamicProperty] returns: [undefined],
    [false], zero, NaN and the empty string are falsy. *)
Definition orFalse (prop : option DynamicProperty) : DynamicProperty :=
  match prop with
  | None => PropBoolean false
  | Some (PropNumber n) =>
      if Js.isNaN n || PrimFloat.eqb n 0 then PropBoolean false else PropNumber n
  | Some (PropString s) => if isEmpty s then PropBoolean false else PropString s
  | Some value => value
  end.

(** [item.nameTag || ""] *)
Definition nameTagField (item : ItemStack) : string :=
  match nameTag item with
  | Some tag => orEmpty tag
  | None => EmptyString
  end.

(** The position of a lock mode in the table [lockModeIndices]. *)
Definition lockModeIndices (mode : ItemLockMode) : Z :=
  match mode with
  | LockSlot => 0
  | LockInventory => 1
  | LockNone => 2
  end.

(** The value of the enumeration [ItemLockMode]. *)
Definition lockModeName (mode : ItemLockMode) : string :=
  match mode with
  | LockSlot => "slot"
  | LockInventory => "inventory"
  | LockNone => "none"
  end.

(** A control of a modal form.  The default of a toggle is the boolean, or
    the truthy property value, that the code hands over. *)
Inductive Widget : Type :=
| TextField (label placeholderText defaultValue : string)
| Slider (label : string) (minimumValue maximumValue valueStep defaultValue : Z)
| Toggle (label : string) (defaultValue : DynamicProperty)
| Dropdown (label : string) (options : list string) (defaultValueIndex : Z).

(** The two objects that the first part of [editItemDetails] fills side by
    side: the field registry and the form. *)
Record EditForm : Type :=
  { formManager : FormFieldManager.t; widgets : list Widget }.

Definition addField (name : string) (form : EditForm) : EditForm :=
  {| formManager := fst (FormFieldManager.addField (formManager form) name);
     widgets := widgets form |}.

Definition addWidget (widget : Widget) (form : EditForm) : EditForm :=
  {| formManager := formManager form; widgets := (widgets form ++ [widget])%list |}.

(** [item.maxAmount] is read from the host beside the item. *)
Definition editForm (item : ItemStack) (maxAmount : Z) : EditForm :=
  let form := {| formManager := FormFieldManager.create; widgets := [] |} in
  let form := addField "nameTag" form in
  let form :=
    addWidget (TextField (String (ascii_of_nat 10) "Nametag") "Enter new name"
                 (nameTagField item)) form in
  let form :=
    if isStackable item
    then addWidget (Slider "Amount" 1 maxAmount 1 (amount item)) (addField "amount" form)
    else form in
  let form :=
    match getComponent item Durability with
    | Some durabilityComponent =>
        addWidget (Slider "Durability" 0 (maxDurability durabilityComponent) 1
                     (damage durabilityComponent))
          (addField "durability" form)
    | None => form
    end in
  let form := addField "keepOnDeath" form in
  let form := addWidget (Toggle "Keep on death" (PropBoolean (keepOnDeath item))) form in
  let form :=
    if negb (isStackable item)
    then addWidget
           (Toggle "Unbreakable"
              (orFalse (getDynamicProperty item "item_editor:unbreakable")))
           (addField "unbreakable" form)
    else form in
  let defaultLockModeValue := lockModeIndices (lockMode item) in
  let form := addField "lockMode" form in
  let form :=
    addWidget (Dropdown "Lock mode"
                 [lockModeName LockSlot; lockModeName LockInventory; lockModeName LockNone]
                 defaultLockModeValue) form in
  let form := addField "lore" form in
  let form := addWidget (TextField "Lore" "Use <b> for line breaks" (loreField item)) form in
  let form :=
    match getComponent item Enchantable with
    | Some enchantable =>
        addWidget (TextField "Enchantments" "e.g., Sharpness III, Unbreaking II"
                     (formatEnchantments (getEnchantments enchantable)))
          (addField "enchantments" form)
    | None => form
    end in
  let form := addField "canDestroy" form in
  let form :=
    addWidget (TextField "Can destroy these blocks" "Use , for multiple blocks"
                 (blocksField (getCanDestroy item))) form in
  let form := addField "canPlaceOn" form in
  let form :=
    addWidget (TextField "Can be placed on" "Use , for multiple blocks"
                 (blocksField (getCanPlaceOn item))) form in
  form.

(** The field that a control of the edit form stands for, by its label. *)
Definition label (widget : Widget) : string :=
  match widget with
  | TextField label _ _ | Slider label _ _ _ _ | Toggle label _ | Dropdown label _ _ => label
  end.

Definition fieldOf (widget : Widget) : string :=
  let l := label widget in
  if String.eqb l (String (ascii_of_nat 10) "Nametag") then "nameTag"
  else if String.eqb l "Amount" then "amount"
  else if String.eqb l "Durability" then "durability"
  else if String.eqb l "Keep on death" then "keepOnDeath"
  else if String.eqb l "Unbreakable" then "unbreakable"
  else if String.eqb l "Lock mode" then "lockMode"
  else if String.eqb l "Lore" then "lore"
  else if String.eqb l "Enchantments" then "enchantments"
  else if String.eqb l "Can destroy these blocks" then "canDestroy"
  else if String.eqb l "Can be placed on" then "canPlaceOn"
  else EmptyString.

(* ===================================================================== *)
(** * editItemDetails: the answer to the form *)
(* ===================================================================== *)

(** The ten values that the answer handler reads with [getValue], with the
    types the code gives them.  A slider or a dropdown answers with an
    integer. *)
Record EditInputs : Type :=
  { nameTagInput : option string;
    amountInput : Js.number;
    durabilityValue : Js.number;
    keepOnDeathInput : bool;
    isUnbreakable : bool;
    lockModeIndex : Js.number;
    loreInput : string;
    enchantmentsInput : string;
    canDestroyInput : string;
    canPlaceOnInput : string }.

(** [Object.keys(lockModeIndices)[lockModeIndex] as ItemLockMode]: the keys
    come in the order the table was written in, and an index outside of it
    gives [undefined]. *)
Definition lockModeOfIndex (index : Js.number) : option ItemLockMode :=
  match index with
  | Js.Int i => Js.at_ [LockSlot; LockInventory; LockNone] i
  | Js.NaN => None
  end.

(** The writes to the item and to its slot are the host's, and each of them
    may throw.  The item is passed along: a write gives the item as the host
    leaves it. *)
Record ItemHost : Type :=
  { set_nameTag : ItemStack -> option string -> completion ItemStack;
    set_amount : ItemStack -> Js.number -> completion ItemStack;
    set_damage : ItemStack -> Js.number -> completion ItemStack;
    set_keepOnDeath : ItemStack -> bool -> completion ItemStack;
    set_lockMode : ItemStack -> option ItemLockMode -> completion ItemStack;
    setDynamicProperty :
      ItemStack -> string -> option DynamicProperty -> completion ItemStack;
    host_setLore : ItemStack -> list string -> completion ItemStack;
    removeAllEnchantments : ItemStack -> completion ItemStack;
    addEnchantments : ItemStack -> option (list Enchantment) -> completion ItemStack;
    setCanDestroy : ItemStack -> list string -> completion ItemStack;
    setCanPlaceOn : ItemStack -> list string -> completion ItemStack;
    setEquipment : ItemStack -> completion unit;
    setItem : ItemStack -> completion unit;
    (** what the engine throws when a property of [undefined] is written *)
    typeError : exn }.

(** How the handler ends when nothing is thrown out of it. *)
Inductive EditOutcome : Type :=
| Stored (item : ItemStack)
| NotStored (item : ItemStack)
| ErrorShown (message : string)
| Ignored.

(** [error instanceof Error ? error.message : 'Unknown error occurred'] *)
Definition errorMessage (error : exn) : string :=
  match error with
  | ErrorObject message => message
  | OtherValue => "Unknown error occurred"
  end.

(** [newEnchantments.enchantments?.length === 0] *)
Definition noEnchantments (result : EnchantmentsResult) : bool :=
  match enchantments result with
  | Some [] => true
  | _ => false
  end.

(** A property that holds a string is truthy unless the string is empty. *)
Definition truthyString (s : option string) : bool :=
  match s with
  | Some text => negb (isEmpty text)
  | None => false
  end.

Section EditItemDetails.

Variable EnchantmentTypes_get : string -> option EnchantmentType.t.
Variable BlockTypes_get : string -> bool.
Variable host : ItemHost.

Local Open Scope js_scope.

(** The assignments up to the unbreakable property.  [durabilityComponent]
    is the component that was read when the form was built. *)
Definition applyFields (item : ItemStack) (inputs : EditInputs) : completion ItemStack :=
  let durabilityComponent := getComponent item Durability in
  item1 <- set_nameTag host item (nameTagInput inputs) ;;
  item2 <- set_amount host item1 (amountInput inputs) ;;
  item3 <- match durabilityComponent with
           | Some _ => set_damage host item2 (durabilityValue inputs)
           | None => Return item2
           end ;;
  item4 <- set_keepOnDeath host item3 (keepOnDeathInput inputs) ;;
  item5 <- set_lockMode host item4 (lockModeOfIndex (lockModeIndex inputs)) ;;
  if isUnbreakable inputs then
    item6 <- match durabilityComponent with
             | Some _ => set_damage host item5 (Js.Int 0)
             | None => Throw (typeError host)
             end ;;
    setDynamicProperty host item6 "item_editor:unbreakable" (Some (PropBoolean true))
  else setDynamicProperty host item5 "item_editor:unbreakable" None.

(** The [try] block around the enchantments: the outcome it returns with, or
    the item to go on with. *)
Definition applyEnchantments (item : ItemStack) (inputs : EditInputs)
  : completion (EditOutcome + ItemStack) :=
  if negb (isEmpty (enchantmentsInput inputs)) then
    item1 <- removeAllEnchantments host item ;;
    let newEnchantments :=
      parseEnchantments EnchantmentTypes_get item1 (enchantmentsInput inputs) in
    if noEnchantments newEnchantments then Return (inl Ignored)
    else if truthyString (error newEnchantments) then
      Return (inl (ErrorShown (match error newEnchantments with
                               | Some message => message
                               | None => EmptyString
                               end)))
    else
      item2 <- addEnchantments host item1 (enchantments newEnchantments) ;;
      Return (inr item2)
  else
    item1 <- removeAllEnchantments host item ;;
    Return (inr item1).

(** The rest of the handler, from the block lists on. *)
Definition applyBlocks (item : ItemStack) (container : Inventory) (isEquippable : bool)
  (inputs : EditInputs) : completion EditOutcome :=
  match validBlocks BlockTypes_get "Can Destroy" [] (blockInputList (canDestroyInput inputs)) with
  | inl message => Return (ErrorShown message)
  | inr validCanDestroyBlocks =>
      item1 <- setCanDestroy host item validCanDestroyBlocks ;;
      match validBlocks BlockTypes_get "Can Place On" []
              (blockInputList (canPlaceOnInput inputs)) with
      | inl message => Return (ErrorShown message)
      | inr validCanPlaceOnBlocks =>
          item2 <- setCanPlaceOn host item1 validCanPlaceOnBlocks ;;
          match isEquippable, container with
          | true, InEquippable =>
              _ <- setEquipment host item2 ;; Return (Stored item2)
          | false, InContainer _ =>
              _ <- setItem host item2 ;; Return (Stored item2)
          | _, _ => Return (NotStored item2)
          end
      end
  end.

(** The handler of an answer that was not cancelled.  [enchantable] is the
    component that was read when the form was built. *)
Definition onSubmit (item : ItemStack) (container : Inventory) (isEquippable : bool)
  (inputs : EditInputs) : completion EditOutcome :=
  let enchantable := getComponent item Enchantable in
  item1 <- applyFields item inputs ;;
  item2 <- host_setLore host item1 (loreLines (loreInput inputs)) ;;
  match enchantable with
  | Some _ =>
      match tryCatch (applyEnchantments item2 inputs)
              (fun error =>
                 inl (ErrorShown ("Failed to edit enchantments: " ++ errorMessage error)))
      with
      | inl outcome => Return outcome
      | inr item3 => applyBlocks item3 container isEquippable inputs
      end
  | None => applyBlocks item2 container isEquippable inputs
  end.

End EditItemDetails.

(** A host for the examples: it accepts a write when the value is in range
    and keeps everything else of the item. *)
Module SampleHost.

Definition write (item : ItemStack) (nameTag' : option string) (amount' : Z)
  (lore' canDestroy' canPlaceOn' : list string) (keepOnDeath' : bool)
  (lockMode' : ItemLockMode) (durability' : option ItemDurabilityComponent)
  (enchantable' : option ItemEnchantableComponent)
  (dynamicProperties' : list (string * DynamicProperty)) : ItemStack :=
  {| typeId := typeId item; nameTag := nameTag'; amount := amount';
     isStackable := isStackable item; getTags := getTags item; getLore := lore';
     getCanDestroy := canDestroy'; getCanPlaceOn := canPlaceOn';
     keepOnDeath := keepOnDeath'; lockMode := lockMode';
     cooldown := cooldown item; durability := durability'; food := food item;
     enchantable := enchantable'; dynamicProperties := dynamicProperties' |}.

Definition outOfBounds {A} : completion A :=
  Throw (ErrorObject "Unsupported or out of bounds value passed to function argument [0].").

Definition withoutProperty (identifier : string)
  (properties : list (string * DynamicProperty)) : list (string * DynamicProperty) :=
  filter (fun entry => negb (String.eqb (fst entry) identifier)) properties.

Definition host : ItemHost :=
  {| set_nameTag := fun item tag =>
       Return (write item tag (amount item) (getLore item) (getCanDestroy item)
                 (getCanPlaceOn item) (keepOnDeath item) (lockMode item) (durability item)
                 (enchantable item) (dynamicProperties item));
     set_amount := fun item value =>
       match value with
       | Js.Int n =>
           if (1 <=? n) && (n <=? 64)
           then Return (write item (nameTag item) n (getLore item) (getCanDestroy item)
                          (getCanPlaceOn item) (keepOnDeath item) (lockMode item)
                          (durability item) (enchantable item) (dynamicProperties item))
           else outOfBounds
       | Js.NaN => outOfBounds
       end;
     set_damage := fun item value =>
       match value, durability item with
       | Js.Int n, Some component =>
           if (0 <=? n) && (n <=? maxDurability component)
           then Return (write item (nameTag item) (amount item) (getLore item)
                          (getCanDestroy item) (getCanPlaceOn item) (keepOnDeath item)
                          (lockMode item)
                          (Some {| maxDurability := maxDurability component; damage := n |})
                          (enchantable item) (dynamicProperties item))
           else outOfBounds
       | _, _ => outOfBounds
       end;
     set_keepOnDeath := fun item value =>
       Return (write item (nameTag item) (amount item) (getLore item) (getCanDestroy item)
                 (getCanPlaceOn item) value (lockMode item) (durability item)
                 (enchantable item) (dynamicProperties item));
     set_lockMode := fun item value =>
       match value with
       | Some mode =>
           Return (write item (nameTag item) (amount item) (getLore item)
                     (getCanDestroy item) (getCanPlaceOn item) (keepOnDeath item) mode
                     (durability item) (enchantable item) (dynamicProperties item))
       | None => outOfBounds
       end;
     setDynamicProperty := fun item identifier value =>
       Return (write item (nameTag item) (amount item) (getLore item) (getCanDestroy item)
                 (getCanPlaceOn item) (keepOnDeath item) (lockMode item) (durability item)
                 (enchantable item)
                 (match value with
                  | Some v =>
                      (withoutProperty identifier (dynamicProperties item)
                       ++ [(identifier, v)])%list
                  | None => withoutProperty identifier (dynamicProperties item)
                  end));
     host_setLore := fun item lore => Return (setLore item lore);
     removeAllEnchantments := fun item =>
       Return (write item (nameTag item) (amount item) (getLore item) (getCanDestroy item)
                 (getCanPlaceOn item) (keepOnDeath item) (lockMode item) (durability item)
                 (match enchantable item with
                  | Some component =>
                      Some {| getEnchantments := [];
                              canAddEnchantment := canAddEnchantment component |}
                  | None => None
                  end)
                 (dynamicProperties item));
     addEnchantments := fun item added =>
       match added, enchantable item with
       | Some list, Some component =>
           Return (write item (nameTag item) (amount item) (getLore item)
                     (getCanDestroy item) (getCanPlaceOn item) (keepOnDeath item)
                     (lockMode item) (durability item)
                     (Some {| getEnchantments := (getEnchantments component ++ list)%list;
                              canAddEnchantment := canAddEnchantment component |})
                     (dynamicProperties item))
       | _, _ => outOfBounds
       end;
     setCanDestroy := fun item blocks =>
       Return (write item (nameTag item) (amount item) (getLore item) blocks
                 (getCanPlaceOn item) (keepOnDeath item) (lockMode item) (durability item)
                 (enchantable item) (dynamicProperties item));
     setCanPlaceOn := fun item blocks =>
       Return (write item (nameTag item) (amount item) (getLore item) (getCanDestroy item)
                 blocks (keepOnDeath item) (lockMode item) (durability item)
                 (enchantable item) (dynamicProperties item));
     setEquipment := fun _ => Return tt;
     setItem := fun _ => Return tt;
     typeError := ErrorObject "cannot set property 'damage' of undefined" |}.

(** A block registry knowing two block types. *)
Definition blocks (identifier : string) : bool :=
  String.eqb identifier "minecraft:stone" || String.eqb identifier "minecraft:dirt".

(** An item that does not stack and has no durability component. *)
Definition saddle : ItemStack :=
  {| typeId := "minecraft:saddle"; nameTag := None; amount := 1;
     isStackable := false; getTags := []; getLore := [];
     getCanDestroy := []; getCanPlaceOn := []; keepOnDeath := false;
     lockMode := LockNone; cooldown := None; durability := None;
     food := None; enchantable := None; dynamicProperties := [] |}.

(** The answer to the edit form of an item when nothing was changed but
    the unbreakable toggle. *)
Definition answer (item : ItemStack) (unbreakable : bool) : EditInputs :=
  {| nameTagInput := Some (nameTagField item);
     amountInput := Js.Int (amount item);
     durabilityValue :=
       match getComponent item Durability with
       | Some component => Js.Int (damage component)
       | None => Js.Int 0
       end;
     keepOnDeathInput := keepOnDeath item;
     isUnbreakable := unbreakable;
     lockModeIndex := Js.Int (lockModeIndices (lockMode item));
     loreInput := loreField item;
     enchantmentsInput :=
       match getComponent item Enchantable with
       | Some component => formatEnchantments (getEnchantments component)
       | None => EmptyString
       end;
     canDestroyInput := blocksField (getCanDestroy item);
     canPlaceOnInput := blocksField (getCanPlaceOn item) |}.

End SampleHost.

(** Whether the container is of the kind that [isEquippable] announces: only
    then does the handler have a slot to write the item to. *)
Definition kindMatches (isEquippable : bool) (container : Inventory) : bool :=
  match isEquippable, container with
  | true, InEquippable => true
  | false, InContainer _ => true
  | _, _ => false
  end.

(* ===================================================================== *)
(** * getContainer *)
(* ===================================================================== *)

(** [container.size] and [container.emptySlotsCount] of a container with
    these slots. *)
Definition size (slots : list (option ItemStack)) : Z := Js.length slots.

Definition emptySlotsCount (slots : list (option ItemStack)) : Z :=
  Js.length (filter (fun slot => match slot with None => true | Some _ => false end) slots).

(** How [getContainer] ends when nothing is thrown: with the error it
    shows, as the name it hands to the translation and the text after it, or
    with the menu of [listItems]. *)
Inductive ContainerOutcome : Type :=
| NoItems (translate text : string)
| ItemList (menu : ActionForm) (itemIndices : list ItemIndex).

Section GetContainer.

Variable isStackableWith : ItemStack -> ItemStack -> bool.
Variable equipmentSlots : list EquipmentSlot.

(** What the engine throws when a property of [undefined] is read. *)
Variable typeError : exn.

(** The loop that looks for a piece of equipment and stops at the first. *)
Fixpoint noEquipment (getEquipment : EquipmentSlot -> option ItemStack)
  (slots : list EquipmentSlot) : bool :=
  match slots with
  | [] => true
  | slot :: rest =>
      match getEquipment slot with
      | Some _ => false
      | None => noEquipment getEquipment rest
      end
  end.

(** [container] is [inventoryComp?.container], absent when the target has no
    inventory component; [equippableComp] is the equippable component of the
    target, which a block never has. *)
Definition getContainer (target : Target) (container : option (list (option ItemStack)))
  (equippableComp : option (EquipmentSlot -> option ItemStack))
  : completion ContainerOutcome :=
  match target with
  | TargetEntity entity =>
      match container with
      | None => Throw typeError
      | Some slots =>
          let isContainerEmpty := emptySlotsCount slots =? size slots in
          let areEquipmentSlotsEmpty :=
            match equippableComp with
            | Some getEquipment => noEquipment getEquipment equipmentSlots
            | None => true
            end in
          if isContainerEmpty && areEquipmentSlotsEmpty
          then Return (NoItems (getName entity) " has no items.")
          else
            let '(menu, itemIndices) :=
              listItems isStackableWith equipmentSlots (InContainer slots) target
                equippableComp in
            Return (ItemList menu itemIndices)
      end
  | TargetBlock typeId =>
      match container with
      | None => Return (NoItems (getName (SourceBlock typeId)) " is not a container.")
      | Some slots =>
          if emptySlotsCount slots =? size slots
          then Return (NoItems (getName (SourceBlock typeId)) "'s container is empty.")
          else
            let '(menu, itemIndices) :=
              listItems isStackableWith equipmentSlots (InContainer slots) target None in
            Return (ItemList menu itemIndices)
      end
  end.

End GetContainer.

(* ===================================================================== *)
(** * Properties *)
(* ===================================================================== *)

(** ** Roman numerals *)

Lemma keys_value : keys = [10; 9; 5; 4; 1].
Proof. reflexivity. Qed.

(** The bound [iterations] is enough: the inner loop of
    convertToRomanNumerals stops because its condition fails, never because
    the bound is used up. *)
Theorem whileAtLeast_exits (fuel : nat) :
  forall key result remaining,
    1 <= key ->
    (iterations remaining <= fuel)%nat ->
    Js.ge (snd (whileAtLeast fuel key (result, remaining))) (Js.Int key) = false.
Proof.
  induction fuel as [|fuel IH]; intros key result remaining Hkey Hfuel.
  - destruct remaining as [|r]; simpl; [reflexivity|].
    simpl in Hfuel.
    destruct (key <=? r) eqn:E; simpl; [|rewrite E; reflexivity].
    apply Z.leb_le in E. lia.
  - destruct remaining as [|r]; simpl; [reflexivity|].
    destruct (key <=? r) eqn:E; simpl; [|rewrite E; reflexivity].
    apply Z.leb_le in E.
    apply IH; [assumption|].
    simpl in *. lia.
Qed.

Lemma whileAtLeast_exits_witness :
  Js.ge (snd (whileAtLeast (iterations (Js.Int 3)) 1 ("", Js.Int 3))) (Js.Int 1) = false
  /\ whileAtLeast (iterations (Js.Int 3)) 1 ("", Js.Int 3) = ("III", Js.Int 0).
Proof.
  split; [|reflexivity].
  apply (whileAtLeast_exits (iterations (Js.Int 3)) 1 "" (Js.Int 3)); simpl; lia.
Defined.

Lemma keys_positive : Forall (fun key => 1 <= key) keys.
Proof. rewrite keys_value. repeat constructor; lia. Qed.

(** Decoding inverts encoding on the range the encoder covers. *)
Lemma romanToNumber_convertToRomanNumerals (n : Z) :
  1 <= n <= 10 -> romanToNumber (convertToRomanNumerals (Js.Int n)) = Js.Int n.
Proof.
  intros H.
  assert (Hcases : n = 1 \/ n = 2 \/ n = 3 \/ n = 4 \/ n = 5 \/ n = 6 \/ n = 7
                   \/ n = 8 \/ n = 9 \/ n = 10) by lia.
  repeat (destruct Hcases as [-> | Hcases]; [reflexivity|]).
  subst n. reflexivity.
Qed.

(** C8: for every integer n in [1,10], encoding n, decoding the numeral and
    encoding the result again gives the numeral of n. *)
Theorem roman_round_trip (n : Z) :
  1 <= n <= 10 ->
  convertToRomanNumerals (romanToNumber (convertToRomanNumerals (Js.Int n)))
  = convertToRomanNumerals (Js.Int n).
Proof.
  intros H. rewrite romanToNumber_convertToRomanNumerals by exact H. reflexivity.
Qed.

Lemma roman_round_trip_witness :
  convertToRomanNumerals (romanToNumber (convertToRomanNumerals (Js.Int 9)))
  = convertToRomanNumerals (Js.Int 9)
  /\ convertToRomanNumerals (Js.Int 9) = "IX".
Proof.
  split; [apply (roman_round_trip 9); lia | reflexivity].
Defined.

Lemma to_int_above_ten (n : Z) :
  10 < n -> Z.to_int n <> Decimal.Pos Decimal.Nil /\ Z.to_int n <> Decimal.Neg Decimal.Nil.
Proof.
  intros H. destruct n as [|p|p]; try lia.
  split; [|discriminate].
  simpl. intros [= E]. exact (DecimalPos.Unsigned.to_uint_nonnil p E).
Qed.

(** What toString prints from 2^53 on, on numbers whose output is known:
    the digits that denote the same binary64 number, zeros up to 21 digits,
    the exponent form beyond, and Infinity from 2^1024 on. *)
Lemma Number_toString_large :
  Js.Number_toString (Js.Int (2 ^ 53 - 1)) = "9007199254740991"
  /\ Js.Number_toString (Js.Int (2 ^ 53)) = "9007199254740992"
  /\ Js.Number_toString (Js.Int (2 ^ 53 + 2)) = "9007199254740994"
  /\ Js.Number_toString (Js.Int (2 ^ 64)) = "18446744073709552000"
  /\ Js.Number_toString (Js.Int 123456789012345680000) = "123456789012345680000"
  /\ Js.Number_toString (Js.Int (2 ^ 70)) = "1.1805916207174113e+21"
  /\ Js.Number_toString (Js.Int ((2 ^ 53 - 1) * 2 ^ 971)) = "1.7976931348623157e+308"
  /\ Js.Number_toString (Js.Int (2 ^ 1024)) = "Infinity".
Proof. vm_compute. repeat split. Qed.

(** C10, counterexample: 2^60 is greater than 10, and what comes back for it
    is not its decimal representation: the digits after the sixteenth are
    zeros, and the string reads back as another integer. *)
Lemma convertToRomanNumerals_rounds_digits :
  convertToRomanNumerals (Js.Int (2 ^ 60)) = "1152921504606847000"
  /\ Js.digits (2 ^ 60) = "1152921504606846976"
  /\ option_map Z.of_int
       (NilZero.int_of_string (convertToRomanNumerals (Js.Int (2 ^ 60))))
     = Some 1152921504606847000
  /\ (1152921504606847000 =? 2 ^ 60) = false.
Proof. vm_compute. repeat split. Qed.

(** C10, amended: for every integer n greater than 10, convertToRomanNumerals
    returns what toString gives for n.  For n below 2^53 that is the decimal
    representation of n, digit for digit, which reads back as n.  From 2^53
    on toString prints the fewest digits that denote the same binary64
    number: zeros stand for the last digits of 2^60, and 10^21 comes back in
    exponent form. *)
Theorem convertToRomanNumerals_above_ten (n : Z) :
  10 < n ->
  convertToRomanNumerals (Js.Int n) = Js.Number_toString (Js.Int n)
  /\ (n < 2 ^ 53 ->
      convertToRomanNumerals (Js.Int n) = Js.digits n
      /\ option_map Z.of_int (NilZero.int_of_string (convertToRomanNumerals (Js.Int n)))
         = Some n)
  /\ convertToRomanNumerals (Js.Int (2 ^ 60)) = "1152921504606847000"
  /\ convertToRomanNumerals (Js.Int (10 ^ 21)) = "1e+21".
Proof.
  intros H.
  assert (E : convertToRomanNumerals (Js.Int n) = Js.Number_toString (Js.Int n)).
  { unfold convertToRomanNumerals, Js.gt, Js.lt.
    destruct (10 <? n) eqn:L; [reflexivity|]. apply Z.ltb_ge in L. lia. }
  split; [exact E|]. split; [|split; vm_compute; reflexivity].
  intros Hsafe.
  assert (D : convertToRomanNumerals (Js.Int n) = Js.digits n).
  { rewrite E. unfold Js.Number_toString.
    replace (Z.abs n <? 2 ^ 53) with true; [reflexivity|].
    symmetry. apply Z.ltb_lt. lia. }
  split; [exact D|].
  rewrite D. unfold Js.digits.
  destruct (to_int_above_ten n H) as [Hp Hn].
  rewrite (NilZero.isi _ Hp Hn). simpl. f_equal. apply DecimalZ.of_to.
Qed.

Lemma convertToRomanNumerals_above_ten_witness :
  convertToRomanNumerals (Js.Int 11) = "11"
  /\ option_map Z.of_int (NilZero.int_of_string (convertToRomanNumerals (Js.Int 11)))
     = Some 11.
Proof.
  destruct (convertToRomanNumerals_above_ten 11) as (_ & H & _); [lia|].
  destruct H as [H1 H2]; [reflexivity|].
  split; [rewrite H1; reflexivity | exact H2].
Defined.

(** ** Vector3 *)

Lemma completion_throws_Return {A} (a : A) : ~ throws (Return a).
Proof. intros [e H]. discriminate H. Qed.

Lemma completion_throws_Throw {A} (e : exn) : throws (@Throw A e).
Proof. exists e. reflexivity. Qed.

Lemma divide_throws (v : Vector3.t) (scalar : float) :
  throws (Vector3.divide v scalar) <-> Js.strictEq scalar 0 = true.
Proof.
  unfold Vector3.divide, Js.strictNe, Js.strictEq.
  destruct (PrimFloat.eqb scalar 0); simpl; split; intros H.
  - reflexivity.
  - apply completion_throws_Throw.
  - exfalso. exact (completion_throws_Return _ H).
  - discriminate H.
Qed.

Lemma normalize_throws (v : Vector3.t) :
  throws (Vector3.normalize v) <-> Js.strictEq (Vector3.magnitude v) 0 = true.
Proof.
  unfold Vector3.normalize.
  destruct (Js.strictNe (Vector3.magnitude v) 0) eqn:E.
  - rewrite divide_throws. reflexivity.
  - unfold Js.strictNe in E. apply negb_false_iff in E. unfold Js.strictEq.
    split; intros _; [exact E | apply completion_throws_Throw].
Qed.

(** C5, counterexample: the magnitude of the zero-length vector is returned,
    it is the number 0, and nothing is thrown. *)
Lemma magnitude_zero_returns :
  Vector3.magnitude (Vector3.new 0 0 0) = 0%float
  /\ ~ throws (Return (Vector3.magnitude (Vector3.new 0 0 0))).
Proof.
  split; [reflexivity | apply completion_throws_Return].
Qed.

(** C5, amended: divide throws exactly on a zero divisor, normalize throws
    exactly on a vector of magnitude zero, in particular on the vector with
    all components zero, and magnitude throws on no vector: on the zero
    vector it returns 0. *)
Theorem vector_failures :
  (forall v scalar, throws (Vector3.divide v scalar) <-> Js.strictEq scalar 0 = true)
  /\ (forall v, Vector3.divide v 0 = Throw (ErrorObject "Cannot divide by zero"))
  /\ (forall v, throws (Vector3.normalize v) <-> Js.strictEq (Vector3.magnitude v) 0 = true)
  /\ Vector3.normalize (Vector3.new 0 0 0)
     = Throw (ErrorObject "Cannot normalize a zero vector")
  /\ (forall v, ~ throws (Return (Vector3.magnitude v)))
  /\ Vector3.magnitude (Vector3.new 0 0 0) = 0%float.
Proof.
  split; [exact divide_throws|].
  split; [intros v; reflexivity|].
  split; [exact normalize_throws|].
  split; [reflexivity|].
  split; [intros v; apply completion_throws_Return | reflexivity].
Qed.

(** ** parseCoords *)

(** Adding the negative zero changes no binary64 number. *)
Lemma float_add_neg_zero (a : float) : (a + (-0))%float = a.
Proof.
  apply Prim2SF_inj. rewrite add_spec.
  change (Prim2SF (-0)%float) with (S754_zero true).
  destruct (Prim2SF a) as [[|]|[|]| |[|] m e]; reflexivity.
Qed.

Section ParseCoordsFacts.

Variables Math_sin Math_cos : float -> float.

Abbreviation parseCoordinate := (parseCoordinateWithDirection Math_sin Math_cos).

(** A token without marker is parsed as a whole, and is the only kind of
    token that can come back as the error string. *)
Lemma parseCoordinate_absolute player input base axis :
  Js.startsWith input "~" = false ->
  Js.startsWith input "^" = false ->
  parseCoordinate player input base axis
  = Return (if Js.isNaN (Js.parseFloat input) then inr errInvalidValue
            else inl (Js.parseFloat input)).
Proof.
  intros Hrel Hloc. unfold parseCoordinateWithDirection.
  rewrite Hrel, Hloc. reflexivity.
Qed.

(** A token with a marker always yields a number once the rotation can be
    read: an unparsable offset counts as zero. *)
Lemma parseCoordinate_marked player rotation input base axis :
  getRotation player = Return rotation ->
  Js.startsWith input "~" = true \/ Js.startsWith input "^" = true ->
  exists value, parseCoordinate player input base axis = Return (inl value).
Proof.
  intros Hrot Hmark. unfold parseCoordinateWithDirection.
  destruct (Js.startsWith input "~") eqn:Hrel.
  - eexists. reflexivity.
  - destruct Hmark as [Hmark | Hmark]; [discriminate Hmark|].
    rewrite Hmark, Hrot. simpl. destruct axis; eexists; reflexivity.
Qed.

Lemma parseCoordinate_returns player rotation input base axis :
  getRotation player = Return rotation ->
  exists result, parseCoordinate player input base axis = Return result.
Proof.
  intros Hrot.
  destruct (Js.startsWith input "~") eqn:Hrel.
  - destruct (parseCoordinate_marked player rotation input base axis Hrot) as [v Hv];
      [left; exact Hrel | eauto].
  - destruct (Js.startsWith input "^") eqn:Hloc.
    + destruct (parseCoordinate_marked player rotation input base axis Hrot) as [v Hv];
        [right; exact Hloc | eauto].
    + rewrite parseCoordinate_absolute by assumption. eauto.
Qed.

(** A relative token with an unparsable offset gives the base itself. *)
Lemma parseCoordinate_relative_unparsed player input base axis :
  Js.startsWith input "~" = true ->
  Js.isNaN (Js.parseFloat (Js.slice1 input)) = true ->
  parseCoordinate player input base axis = Return (inl base).
Proof.
  intros Hrel Hnan. unfold parseCoordinateWithDirection.
  rewrite Hrel, Hnan. reflexivity.
Qed.

Lemma parseComponents_mix player origin c0 c1 c2 :
  location player = Return origin ->
  isRelative [c0; c1; c2] && isLocal [c0; c1; c2] = true ->
  parseComponents Math_sin Math_cos player c0 c1 c2 = Return (inr errMix).
Proof.
  intros Hloc Hmix. unfold parseComponents. rewrite Hloc. cbn [bind].
  rewrite Hmix. reflexivity.
Qed.

Lemma parseComponents_unparsed player origin rotation c0 c1 c2 bad :
  location player = Return origin ->
  getRotation player = Return rotation ->
  isRelative [c0; c1; c2] && isLocal [c0; c1; c2] = false ->
  In bad [c0; c1; c2] ->
  Js.startsWith bad "~" = false ->
  Js.startsWith bad "^" = false ->
  Js.isNaN (Js.parseFloat bad) = true ->
  parseComponents Math_sin Math_cos player c0 c1 c2 = Return (inr errNotParsed).
Proof.
  intros Hloc Hrot Hmix Hin Hrel Hlocal Hnan.
  unfold parseComponents. rewrite Hloc. cbn [bind].
  rewrite Hmix.
  destruct (parseCoordinate_returns player rotation c0 (Vector3.x origin) AxisX Hrot)
    as [rx Hx].
  destruct (parseCoordinate_returns player rotation c1 (Vector3.y origin) AxisY Hrot)
    as [ry Hy].
  destruct (parseCoordinate_returns player rotation c2 (Vector3.z origin) AxisZ Hrot)
    as [rz Hz].
  assert (Hbad : forall base axis,
             parseCoordinate player bad base axis = Return (inr errInvalidValue)).
  { intros base axis. rewrite parseCoordinate_absolute by assumption.
    rewrite Hnan. reflexivity. }
  destruct Hin as [<- | [<- | [<- | []]]].
  - rewrite Hbad, Hy, Hz. simpl. destruct ry, rz; reflexivity.
  - rewrite Hx, Hbad, Hz. simpl. destruct rx, rz; reflexivity.
  - rewrite Hx, Hy, Hbad. simpl. destruct rx, ry; reflexivity.
Qed.

End ParseCoordsFacts.

(** C4, counterexample: the numeric part of the token "~abc" cannot be parsed
    as a number, and the input is still turned into a vector. *)
Lemma parseCoords_accepts_unparsed_offset :
  Js.isNaN (Js.parseFloat "abc") = true
  /\ parseCoords Sample.sin Sample.cos Sample.player "~abc 1 2"
     = inl (Vector3.new 10 1 2).
Proof.
  split; vm_compute; reflexivity.
Qed.

Lemma marker_one (token : string) :
  Js.startsWith token "~" = true -> Js.startsWith token "^" = false.
Proof.
  unfold Js.startsWith. destruct token as [|c rest]; [discriminate|].
  destruct c as [[|] [|] [|] [|] [|] [|] [|] [|]]; try discriminate; reflexivity.
Qed.

Section MarkedTokens.

Variables Math_sin Math_cos : float -> float.
Variable player : Player.
Variable rotation : Vector2.t.
Hypothesis rotationRead : getRotation player = Return rotation.

(** What a token with the marker ^ and the offset zero gives on an axis. *)
Abbreviation localZero :=
  (fun (base : float) (axis : Axis) =>
     match axis with
     | AxisX => (base + - Math_sin (degreesToRadians (Vector2.y rotation)) * 0)%float
     | AxisY => (base + 0)%float
     | AxisZ => (base + Math_cos (degreesToRadians (Vector2.y rotation)) * 0)%float
     end).

Lemma parseCoordinate_local_unparsed (token : string) (base : float) (axis : Axis) :
  Js.startsWith token "~" = false ->
  Js.startsWith token "^" = true ->
  Js.isNaN (Js.parseFloat (Js.slice1 token)) = true ->
  parseCoordinateWithDirection Math_sin Math_cos player token base axis
  = Return (inl (localZero base axis)).
Proof.
  intros Hrel Hlocal Hnan. unfold parseCoordinateWithDirection, Js.orZero.
  rewrite Hrel, Hlocal, Hnan, rotationRead. cbn [orb bind].
  destruct axis; reflexivity.
Qed.

End MarkedTokens.

(** C4, amended: when the player's location and rotation can be read and the
    three tokens do not mix the two markers, a token without marker that
    cannot be parsed as a number makes parseCoords return the generic
    parse-failure string, and no vector; a token with a marker is never the
    cause of that error, whatever follows the marker, and an unparsable text
    after the marker counts as the offset zero: a ~ token gives the base
    itself, a ^ token what the offset 0 gives, and three such tokens make
    parseCoords return the player's location, for ~, or the location moved
    by the offset 0 along each axis, for ^. *)
Theorem parseCoords_unparsed_token
  (Math_sin Math_cos : float -> float) (player : Player)
  (origin : Vector3.t) (rotation : Vector2.t) (input c0 c1 c2 bad : string) :
  location player = Return origin ->
  getRotation player = Return rotation ->
  Js.splitWhiteSpace (Js.trim input) = [c0; c1; c2] ->
  isRelative [c0; c1; c2] && isLocal [c0; c1; c2] = false ->
  In bad [c0; c1; c2] ->
  Js.startsWith bad "~" = false ->
  Js.startsWith bad "^" = false ->
  Js.isNaN (Js.parseFloat bad) = true ->
  parseCoords Math_sin Math_cos player input = inr errNotParsed
  /\ (forall marked base axis,
        Js.startsWith marked "~" = true \/ Js.startsWith marked "^" = true ->
        exists value,
          parseCoordinateWithDirection Math_sin Math_cos player marked base axis
          = Return (inl value))
  /\ (forall marked base axis,
        Js.startsWith marked "~" = true ->
        Js.isNaN (Js.parseFloat (Js.slice1 marked)) = true ->
        parseCoordinateWithDirection Math_sin Math_cos player marked base axis
        = Return (inl base))
  /\ (forall marked base axis,
        Js.startsWith marked "^" = true ->
        Js.isNaN (Js.parseFloat (Js.slice1 marked)) = true ->
        parseCoordinateWithDirection Math_sin Math_cos player marked base axis
        = Return (inl match axis with
                      | AxisX =>
                          (base + - Math_sin (degreesToRadians (Vector2.y rotation)) * 0)%float
                      | AxisY => (base + 0)%float
                      | AxisZ =>
                          (base + Math_cos (degreesToRadians (Vector2.y rotation)) * 0)%float
                      end)
        /\ parseCoordinateWithDirection Math_sin Math_cos player marked base axis
           = parseCoordinateWithDirection Math_sin Math_cos player "^0" base axis)
  /\ (forall marked d0 d1 d2,
        Js.splitWhiteSpace (Js.trim marked) = [d0; d1; d2] ->
        Forall (fun token =>
                  Js.startsWith token "~" = true
                  /\ Js.isNaN (Js.parseFloat (Js.slice1 token)) = true) [d0; d1; d2] ->
        parseCoords Math_sin Math_cos player marked
        = inl (Vector3.new (Vector3.x origin) (Vector3.y origin) (Vector3.z origin)))
  /\ (forall marked d0 d1 d2,
        Js.splitWhiteSpace (Js.trim marked) = [d0; d1; d2] ->
        Forall (fun token =>
                  Js.startsWith token "^" = true
                  /\ Js.isNaN (Js.parseFloat (Js.slice1 token)) = true) [d0; d1; d2] ->
        parseCoords Math_sin Math_cos player marked
        = inl (Vector3.new
                 (Vector3.x origin
                  + - Math_sin (degreesToRadians (Vector2.y rotation)) * 0)%float
                 (Vector3.y origin + 0)%float
                 (Vector3.z origin
                  + Math_cos (degreesToRadians (Vector2.y rotation)) * 0)%float)).
Proof.
  intros Hloc Hrot Hsplit Hmix Hin Hrel Hlocal Hnan.
  assert (Hnot : forall token, Js.startsWith token "^" = true ->
                               Js.startsWith token "~" = false).
  { intros token Hcaret. destruct (Js.startsWith token "~") eqn:Htilde; [|reflexivity].
    rewrite (marker_one token Htilde) in Hcaret. discriminate Hcaret. }
  assert (Hcaret : forall marked base axis,
             Js.startsWith marked "^" = true ->
             Js.isNaN (Js.parseFloat (Js.slice1 marked)) = true ->
             parseCoordinateWithDirection Math_sin Math_cos player marked base axis
             = Return (inl match axis with
                           | AxisX =>
                               (base
                                + - Math_sin (degreesToRadians (Vector2.y rotation)) * 0)%float
                           | AxisY => (base + 0)%float
                           | AxisZ =>
                               (base
                                + Math_cos (degreesToRadians (Vector2.y rotation)) * 0)%float
                           end)).
  { intros marked base axis Hmark Hbad.
    exact (parseCoordinate_local_unparsed Math_sin Math_cos player rotation Hrot marked
             base axis (Hnot marked Hmark) Hmark Hbad). }
  split; [|split; [|split; [|split; [|split]]]].
  - unfold parseCoords. rewrite Hsplit.
    rewrite (parseComponents_unparsed Math_sin Math_cos player origin rotation
               c0 c1 c2 bad) by assumption.
    reflexivity.
  - intros marked base axis Hmark.
    exact (parseCoordinate_marked Math_sin Math_cos player rotation marked base axis
             Hrot Hmark).
  - intros marked base axis Hmark Hbad.
    exact (parseCoordinate_relative_unparsed Math_sin Math_cos player marked base axis
             Hmark Hbad).
  - intros marked base axis Hmark Hbad. split; [exact (Hcaret marked base axis Hmark Hbad)|].
    rewrite (Hcaret marked base axis Hmark Hbad).
    unfold parseCoordinateWithDirection.
    change (Js.startsWith "^0" "~") with false.
    change (Js.startsWith "^0" "^") with true.
    replace (Js.orZero (Js.parseFloat (Js.slice1 "^0"))) with 0%float
      by (vm_compute; reflexivity).
    rewrite Hrot. cbn [bind]. destruct axis; reflexivity.
  - intros marked d0 d1 d2 Hsplit' Hall.
    inversion Hall as [|? ? [T0 N0] Hall1]; subst.
    inversion Hall1 as [|? ? [T1 N1] Hall2]; subst.
    inversion Hall2 as [|? ? [T2 N2] _]; subst.
    unfold parseCoords. rewrite Hsplit'. unfold parseComponents. rewrite Hloc.
    cbn [bind]. unfold isLocal, Js.some. cbn [existsb].
    rewrite (marker_one d0 T0), (marker_one d1 T1), (marker_one d2 T2).
    cbn [orb]. rewrite andb_false_r.
    rewrite !parseCoordinate_relative_unparsed by assumption.
    reflexivity.
  - intros marked d0 d1 d2 Hsplit' Hall.
    inversion Hall as [|? ? [T0 N0] Hall1]; subst.
    inversion Hall1 as [|? ? [T1 N1] Hall2]; subst.
    inversion Hall2 as [|? ? [T2 N2] _]; subst.
    unfold parseCoords. rewrite Hsplit'. unfold parseComponents. rewrite Hloc.
    cbn [bind]. unfold isRelative, Js.some. cbn [existsb].
    rewrite (Hnot d0 T0), (Hnot d1 T1), (Hnot d2 T2). cbn [orb andb].
    rewrite (Hcaret d0 _ AxisX T0 N0), (Hcaret d1 _ AxisY T1 N1),
      (Hcaret d2 _ AxisZ T2 N2).
    reflexivity.
Qed.

Lemma parseCoords_unparsed_token_witness :
  parseCoords Sample.sin Sample.cos Sample.player "~1 north ~" = inr errNotParsed
  /\ parseCoords Sample.sin Sample.cos Sample.player "~abc ~ ~x1"
     = inl (Vector3.new 10 64 10)
  /\ parseCoords Sample.sin Sample.cos Sample.player "^abc ^ ^x1"
     = inl (Vector3.new 10 64 10).
Proof.
  destruct (parseCoords_unparsed_token Sample.sin Sample.cos Sample.player
              (Vector3.new 10 64 10) {| Vector2.x := 0; Vector2.y := 0 |}
              "~1 north ~" "~1" "north" "~" "north")
    as (Hbad & _ & _ & _ & Hrelative & Hlocal); try reflexivity.
  - simpl. right. left. reflexivity.
  - split; [exact Hbad|]. split.
    + apply (Hrelative "~abc ~ ~x1" "~abc" "~" "~x1"); [reflexivity|].
      repeat constructor.
    + rewrite (Hlocal "^abc ^ ^x1" "^abc" "^" "^x1"); [vm_compute; reflexivity
                                                        | reflexivity |].
      repeat constructor.
Defined.

(** C7: from the origin (10,64,10) the input "~ ~-1 ~" gives (10,63,10); with
    yaw 0 the input "^ ^ ^1" gives the origin moved by (0,0,1), that is x
    unchanged, y plus 0 and z plus 1; and three tokens that mix a ~ token and
    a ^ token give the mix error whatever else they hold.  Sine and cosine
    are the engine's, known to be exact at zero. *)
Theorem parseCoords_examples (Math_sin Math_cos : float -> float) :
  Math_sin 0%float = 0%float ->
  Math_cos 0%float = 1%float ->
  (forall player,
      location player = Return (Vector3.new 10 64 10) ->
      parseCoords Math_sin Math_cos player "~ ~-1 ~" = inl (Vector3.new 10 63 10))
  /\ (forall player origin pitch,
        location player = Return origin ->
        getRotation player = Return {| Vector2.x := pitch; Vector2.y := 0 |} ->
        parseCoords Math_sin Math_cos player "^ ^ ^1"
        = inl (Vector3.new (Vector3.x origin) (Vector3.y origin + 0)
                 (Vector3.z origin + 1)))
  /\ (forall player origin input c0 c1 c2,
        location player = Return origin ->
        Js.splitWhiteSpace (Js.trim input) = [c0; c1; c2] ->
        isRelative [c0; c1; c2] = true ->
        isLocal [c0; c1; c2] = true ->
        parseCoords Math_sin Math_cos player input = inr errMix)
  /\ (forall player origin,
        location player = Return origin ->
        parseCoords Math_sin Math_cos player "~1 ^1 ~1" = inr errMix).
Proof.
  intros Hsin Hcos.
  assert (Hmixed : forall player origin input c0 c1 c2,
             location player = Return origin ->
             Js.splitWhiteSpace (Js.trim input) = [c0; c1; c2] ->
             isRelative [c0; c1; c2] = true ->
             isLocal [c0; c1; c2] = true ->
             parseCoords Math_sin Math_cos player input = inr errMix).
  { intros player origin input c0 c1 c2 Hloc Hsplit Hrel Hlocal.
    unfold parseCoords. rewrite Hsplit.
    rewrite (parseComponents_mix Math_sin Math_cos player origin); try assumption.
    - reflexivity.
    - rewrite Hrel, Hlocal. reflexivity. }
  split; [|split; [|split]].
  - intros player Hloc. unfold parseCoords.
    change (Js.splitWhiteSpace (Js.trim "~ ~-1 ~")) with ["~"; "~-1"; "~"].
    unfold parseComponents. rewrite Hloc. vm_compute. reflexivity.
  - intros player origin pitch Hloc Hrot. unfold parseCoords.
    change (Js.splitWhiteSpace (Js.trim "^ ^ ^1")) with ["^"; "^"; "^1"].
    unfold parseComponents. rewrite Hloc. cbn [bind].
    change (isRelative ["^"; "^"; "^1"] && isLocal ["^"; "^"; "^1"]) with false.
    cbv iota. unfold parseCoordinateWithDirection.
    change (Js.startsWith "^" "~") with false.
    change (Js.startsWith "^1" "~") with false.
    change (Js.startsWith "^" "^") with true.
    change (Js.startsWith "^1" "^") with true.
    cbv iota. rewrite Hrot. cbn [bind Vector2.y].
    change (degreesToRadians 0) with 0%float.
    rewrite Hsin, Hcos.
    change (Js.orZero (Js.parseFloat (Js.slice1 "^"))) with 0%float.
    change (Js.orZero (Js.parseFloat (Js.slice1 "^1"))) with 1%float.
    change (- (0) * 0)%float with (-0)%float.
    change (1 * 1)%float with 1%float.
    rewrite float_add_neg_zero. reflexivity.
  - exact Hmixed.
  - intros player origin Hloc.
    apply (Hmixed player origin "~1 ^1 ~1" "~1" "^1" "~1"); try assumption; reflexivity.
Qed.

Lemma parseCoords_examples_witness :
  parseCoords Sample.sin Sample.cos Sample.player "~ ~-1 ~" = inl (Vector3.new 10 63 10)
  /\ parseCoords Sample.sin Sample.cos Sample.player "^ ^ ^1"
     = inl (Vector3.add (Vector3.new 10 64 10) (Vector3.new 0 0 1))
  /\ parseCoords Sample.sin Sample.cos Sample.player "~1 ^1 ~1" = inr errMix.
Proof.
  destruct (parseCoords_examples Sample.sin Sample.cos) as (H1 & H2 & _ & H4);
    try reflexivity.
  split; [apply H1; reflexivity|].
  split; [|apply (H4 Sample.player (Vector3.new 10 64 10)); reflexivity].
  rewrite (H2 Sample.player (Vector3.new 10 64 10) 0%float); reflexivity.
Defined.

(** ** isSameItem *)

Lemma includes_In (arr : list string) (x : string) :
  Js.includes arr x = true <-> In x arr.
Proof.
  unfold Js.includes. rewrite existsb_exists. split.
  - intros [y [Hin Heq]]. apply String.eqb_eq in Heq. subst y. exact Hin.
  - intros Hin. exists x. split; [exact Hin | apply String.eqb_refl].
Qed.

(** The test applied to tags, lore and block lists passes exactly when the
    lengths agree and every element of the first list occurs in the second. *)
Lemma differAsSets_false (a b : list string) :
  differAsSets a b = false <-> List.length a = List.length b /\ incl a b.
Proof.
  unfold differAsSets, Js.every, Js.length.
  rewrite orb_false_iff, !negb_false_iff, Z.eqb_eq, forallb_forall.
  split; intros [Hlen Hall]; split.
  - lia.
  - intros x Hx. apply includes_In. exact (Hall x Hx).
  - lia.
  - intros x Hx. apply includes_In. exact (Hall x Hx).
Qed.

(** The order of the lines plays no role in that test. *)
Lemma differAsSets_Permutation (a b : list string) :
  Permutation a b -> differAsSets a b = false.
Proof.
  intros Hperm. apply differAsSets_false. split.
  - exact (Permutation_length Hperm).
  - intros x Hx. exact (Permutation_in x Hperm Hx).
Qed.

Lemma differAsSets_refl (a : list string) : differAsSets a a = false.
Proof. apply differAsSets_Permutation. apply Permutation_refl. Qed.

Lemma optionStringNe_refl (a : option string) : optionStringNe a a = false.
Proof. destruct a as [s|]; simpl; [rewrite String.eqb_refl|]; reflexivity. Qed.

Lemma lockModeNe_refl (a : ItemLockMode) : lockModeNe a a = false.
Proof. destruct a; reflexivity. Qed.

Lemma sameEnchantment_test (e1 e2 : Enchantment) :
  negb (EnchantmentType.same (type e1) (type e2)) || numberNe (level e1) (level e2) = false
  <-> sameEnchantment e1 e2.
Proof.
  unfold sameEnchantment, EnchantmentType.same, numberNe.
  rewrite orb_false_iff, negb_false_iff, Nat.eqb_eq.
  split; intros [Hid Hlevel]; (split; [exact Hid|]).
  - destruct (level e1) as [|x], (level e2) as [|y]; try discriminate Hlevel.
    apply negb_false_iff, Z.eqb_eq in Hlevel. subst y. exists x. split; reflexivity.
  - destruct Hlevel as [n [-> ->]]. rewrite Z.eqb_refl. reflexivity.
Qed.

Lemma sameEnchantments_Forall2 (l1 : list Enchantment) :
  forall l2, List.length l1 = List.length l2 ->
             (sameEnchantments l1 l2 = true <-> Forall2 sameEnchantment l1 l2).
Proof.
  induction l1 as [|e1 l1 IH]; intros [|e2 l2] Hlen; try discriminate Hlen.
  - split; [constructor | reflexivity].
  - injection Hlen as Hlen. simpl.
    destruct (negb (EnchantmentType.same (type e1) (type e2))
              || numberNe (level e1) (level e2)) eqn:E.
    + split; [discriminate|].
      intros H. inversion H as [|? ? ? ? Hhead Htail]; subst.
      apply sameEnchantment_test in Hhead. congruence.
    + apply sameEnchantment_test in E. rewrite (IH l2 Hlen).
      split; [intros H; constructor; assumption|].
      intros H. inversion H; subst. assumption.
Qed.

(** Enchantment lists are compared position by position. *)
Lemma compareEnchantableComponents_positional (comp1 comp2 : ItemEnchantableComponent) :
  compareEnchantableComponents comp1 comp2 = true
  <-> Forall2 sameEnchantment (getEnchantments comp1) (getEnchantments comp2).
Proof.
  unfold compareEnchantableComponents, Js.length.
  destruct (Z.of_nat (List.length (getEnchantments comp1))
            =? Z.of_nat (List.length (getEnchantments comp2))) eqn:E; simpl.
  - apply Z.eqb_eq in E. apply sameEnchantments_Forall2. lia.
  - apply Z.eqb_neq in E. split; [discriminate|].
    intros H. apply Forall2_length in H. lia.
Qed.

(** The comparison of dynamic properties reads nothing of the second item
    but its dynamic properties. *)
Lemma compareDynamicProperties_ext (item1 item2 item2' : ItemStack) :
  dynamicProperties item2 = dynamicProperties item2' ->
  compareDynamicProperties item1 item2 = compareDynamicProperties item1 item2'.
Proof.
  intros Hsame.
  assert (Hget : forall property,
             getDynamicProperty item2 property = getDynamicProperty item2' property).
  { intros property. unfold getDynamicProperty. rewrite Hsame. reflexivity. }
  unfold compareDynamicProperties, getDynamicPropertyIds. rewrite Hsame.
  destruct (negb (arraysEqual (map fst (dynamicProperties item1))
                    (map fst (dynamicProperties item2')))); [reflexivity|].
  induction (map fst (dynamicProperties item1)) as [|property rest IH];
    [reflexivity|].
  simpl. rewrite Hget, IH. reflexivity.
Qed.

Section IsSameItemFacts.

Variable isStackableWith : ItemStack -> ItemStack -> bool.

(** Items that differ in their lore lines only. *)
Lemma isSameItem_setLore (item : ItemStack) (lore : list string) :
  isSameItem isStackableWith item (setLore item lore)
  = negb (isStackable item && isStackableWith item (setLore item lore))
    && negb (differAsSets (getLore item) lore)
    && compareComponents item item
    && compareDynamicProperties item item.
Proof.
  unfold isSameItem.
  change (typeId (setLore item lore)) with (typeId item).
  change (nameTag (setLore item lore)) with (nameTag item).
  change (amount (setLore item lore)) with (amount item).
  change (getTags (setLore item lore)) with (getTags item).
  change (getLore (setLore item lore)) with lore.
  change (getCanDestroy (setLore item lore)) with (getCanDestroy item).
  change (getCanPlaceOn (setLore item lore)) with (getCanPlaceOn item).
  change (keepOnDeath (setLore item lore)) with (keepOnDeath item).
  change (lockMode (setLore item lore)) with (lockMode item).
  change (compareComponents item (setLore item lore)) with (compareComponents item item).
  rewrite (compareDynamicProperties_ext item (setLore item lore) item eq_refl).
  rewrite String.eqb_refl, optionStringNe_refl, Z.eqb_refl, !differAsSets_refl,
    Bool.eqb_reflx, lockModeNe_refl.
  simpl.
  destruct (isStackable item && isStackableWith item (setLore item lore));
    destruct (differAsSets (getLore item) lore);
    destruct (compareComponents item item);
    destruct (compareDynamicProperties item item); reflexivity.
Qed.

End IsSameItemFacts.

(** C1, counterexample: two swords whose lore holds the same two lines in
    different orders, and that agree on everything else, are reported as the
    same item by every host. *)
Lemma isSameItem_ignores_lore_order :
  getLore (setLore Sample.sword ["Blessed"; "Forged"]) <> getLore Sample.sword
  /\ Permutation (getLore Sample.sword) (getLore (setLore Sample.sword ["Blessed"; "Forged"]))
  /\ isSameItem Sample.stacksAll Sample.sword (setLore Sample.sword ["Blessed"; "Forged"])
     = true
  /\ isSameItem Sample.stacksNone Sample.sword (setLore Sample.sword ["Blessed"; "Forged"])
     = true.
Proof.
  split; [discriminate|].
  split; [apply perm_swap|].
  split; reflexivity.
Qed.

Lemma Forall2_nth_error {A B} (R : A -> B -> Prop) (l1 : list A) :
  forall l2 i a b,
    Forall2 R l1 l2 -> nth_error l1 i = Some a -> nth_error l2 i = Some b -> R a b.
Proof.
  induction l1 as [|x l1 IH]; intros l2 i a b Hall Ha Hb.
  - destruct i; discriminate Ha.
  - inversion Hall as [|? y ? l2' Hhead Htail]; subst.
    destruct i as [|i].
    + injection Ha as <-. injection Hb as <-. exact Hhead.
    + exact (IH l2' i a b Htail Ha Hb).
Qed.

(** isSameItem answers true only when the enchantable components of the
    two items, where both have one, pass compareEnchantableComponents. *)
Lemma isSameItem_enchantable (isStackableWith : ItemStack -> ItemStack -> bool)
  (item1 item2 : ItemStack) (comp1 comp2 : ItemEnchantableComponent) :
  getComponent item1 Enchantable = Some comp1 ->
  getComponent item2 Enchantable = Some comp2 ->
  isSameItem isStackableWith item1 item2 = true ->
  compareEnchantableComponents comp1 comp2 = true.
Proof.
  intros H1 H2 Hsame. unfold isSameItem in Hsame.
  destruct (compareComponents item1 item2) eqn:Hcomp.
  - unfold compareComponents in Hcomp.
    destruct (compareComponent item1 item2 Enchantable compareEnchantableComponents)
      eqn:Hench.
    + unfold compareComponent, hasComponent in Hench.
      rewrite H1, H2 in Hench. exact Hench.
    + repeat match type of Hcomp with
             | (if ?b then _ else _) = true => destruct b; try discriminate Hcomp
             end.
  - repeat match type of Hsame with
           | (if ?b then _ else _) = true => destruct b; try discriminate Hsame
           end.
Qed.

(** C1, amended: lore lists compare by length and containment, not by
    position: two items that differ only in the order of their lore lines
    are the same item, provided the host does not report the first as
    stackable with the second and the item's components and dynamic
    properties compare equal to themselves.  Enchantment lists do compare
    position by position in isSameItem: two items with enchantable
    components are the same item only when their enchantment lists hold, at
    every position, the same type object and the same level, and isSameItem
    answers false as soon as the lists differ at one position. *)
Theorem isSameItem_lore_order
  (isStackableWith : ItemStack -> ItemStack -> bool) (item : ItemStack)
  (lore : list string) :
  Permutation (getLore item) lore ->
  isStackable item && isStackableWith item (setLore item lore) = false ->
  compareComponents item item = true ->
  compareDynamicProperties item item = true ->
  isSameItem isStackableWith item (setLore item lore) = true
  /\ (forall comp1 comp2,
        compareEnchantableComponents comp1 comp2 = true
        <-> Forall2 sameEnchantment (getEnchantments comp1) (getEnchantments comp2))
  /\ (forall item1 item2 comp1 comp2,
        getComponent item1 Enchantable = Some comp1 ->
        getComponent item2 Enchantable = Some comp2 ->
        isSameItem isStackableWith item1 item2 = true ->
        Forall2 sameEnchantment (getEnchantments comp1) (getEnchantments comp2))
  /\ (forall item1 item2 comp1 comp2 i e1 e2,
        getComponent item1 Enchantable = Some comp1 ->
        getComponent item2 Enchantable = Some comp2 ->
        nth_error (getEnchantments comp1) i = Some e1 ->
        nth_error (getEnchantments comp2) i = Some e2 ->
        ~ sameEnchantment e1 e2 ->
        isSameItem isStackableWith item1 item2 = false).
Proof.
  intros Hperm Hstack Hcomp Hdyn.
  assert (Hpositional : forall item1 item2 comp1 comp2,
             getComponent item1 Enchantable = Some comp1 ->
             getComponent item2 Enchantable = Some comp2 ->
             isSameItem isStackableWith item1 item2 = true ->
             Forall2 sameEnchantment (getEnchantments comp1) (getEnchantments comp2)).
  { intros item1 item2 comp1 comp2 H1 H2 Hsame.
    apply compareEnchantableComponents_positional.
    exact (isSameItem_enchantable isStackableWith item1 item2 comp1 comp2 H1 H2 Hsame). }
  split; [|split; [|split]].
  - rewrite isSameItem_setLore, Hstack, Hcomp, Hdyn.
    rewrite (differAsSets_Permutation _ _ Hperm). reflexivity.
  - exact compareEnchantableComponents_positional.
  - exact Hpositional.
  - intros item1 item2 comp1 comp2 i e1 e2 H1 H2 Hnth1 Hnth2 Hdiffer.
    destruct (isSameItem isStackableWith item1 item2) eqn:Hsame; [|reflexivity].
    exfalso. apply Hdiffer.
    exact (Forall2_nth_error sameEnchantment _ _ i e1 e2
             (Hpositional item1 item2 comp1 comp2 H1 H2 Hsame) Hnth1 Hnth2).
Qed.

Lemma isSameItem_lore_order_witness :
  isSameItem Sample.stacksAll Sample.sword (setLore Sample.sword ["Blessed"; "Forged"])
  = true
  /\ isSameItem Sample.stacksAll
       (Sample.enchantedSword [{| type := Sample.sharpness; level := Js.Int 2 |};
                               {| type := Sample.unbreaking; level := Js.Int 2 |}])
       (Sample.enchantedSword [{| type := Sample.unbreaking; level := Js.Int 2 |};
                               {| type := Sample.sharpness; level := Js.Int 2 |}])
     = false
  /\ isSameItem Sample.stacksAll
       (Sample.enchantedSword [{| type := Sample.sharpness; level := Js.Int 2 |};
                               {| type := Sample.unbreaking; level := Js.Int 2 |}])
       (Sample.enchantedSword [{| type := Sample.sharpness; level := Js.Int 2 |};
                               {| type := Sample.unbreaking; level := Js.Int 2 |}])
     = true.
Proof.
  destruct (isSameItem_lore_order Sample.stacksAll Sample.sword ["Blessed"; "Forged"])
    as (Hlore & _ & _ & Hdiffer).
  - apply perm_swap.
  - reflexivity.
  - reflexivity.
  - reflexivity.
  - split; [exact Hlore|]. split; [|vm_compute; reflexivity].
    apply (Hdiffer
             (Sample.enchantedSword [{| type := Sample.sharpness; level := Js.Int 2 |};
                                     {| type := Sample.unbreaking; level := Js.Int 2 |}])
             (Sample.enchantedSword [{| type := Sample.unbreaking; level := Js.Int 2 |};
                                     {| type := Sample.sharpness; level := Js.Int 2 |}])
             _ _ O {| type := Sample.sharpness; level := Js.Int 2 |}
             {| type := Sample.unbreaking; level := Js.Int 2 |}
             eq_refl eq_refl eq_refl eq_refl).
    intros [Href _]. discriminate Href.
Defined.

Lemma isSameItem_false_when_stacking
  (isStackableWith : ItemStack -> ItemStack -> bool) (item1 item2 : ItemStack) :
  isStackable item1 = true ->
  isStackableWith item1 item2 = true ->
  isSameItem isStackableWith item1 item2 = false.
Proof.
  intros Hstackable Hwith. unfold isSameItem. rewrite Hstackable, Hwith. simpl.
  destruct (negb (typeId item1 =? typeId item2)%string); [reflexivity|].
  destruct (optionStringNe (nameTag item1) (nameTag item2)); [reflexivity|].
  destruct (negb (amount item1 =? amount item2)); reflexivity.
Qed.

(** C2: when the first item is stackable and the host reports it as
    stackable with the second, isSameItem returns false, whatever the other
    fields hold; in particular a stackable item that the host stacks with
    itself is not the same item as itself. *)
Theorem isSameItem_stackable (isStackableWith : ItemStack -> ItemStack -> bool) :
  (forall item1 item2,
      isStackable item1 = true ->
      isStackableWith item1 item2 = true ->
      isSameItem isStackableWith item1 item2 = false)
  /\ (forall item,
        isStackable item = true ->
        isStackableWith item item = true ->
        isSameItem isStackableWith item item = false).
Proof.
  split.
  - exact (isSameItem_false_when_stacking isStackableWith).
  - intros item. exact (isSameItem_false_when_stacking isStackableWith item item).
Qed.

(** The stick is stackable; a host that stacks it with itself makes it differ
    from itself, although every compared field matches: with a host that
    stacks nothing the same comparison succeeds. *)
Lemma isSameItem_stackable_witness :
  isSameItem Sample.stacksAll Sample.stick Sample.stick = false
  /\ isSameItem Sample.stacksNone Sample.stick Sample.stick = true.
Proof.
  split; [|reflexivity].
  apply (proj2 (isSameItem_stackable Sample.stacksAll) Sample.stick); reflexivity.
Defined.

(** ** parseEnchantments *)

Local Open Scope list_scope.

Section ParseEnchantmentsFacts.

Variable EnchantmentTypes_get : string -> option EnchantmentType.t.
Variable item : ItemStack.
Variable enchantableComponent : ItemEnchantableComponent.

Abbreviation accepted :=
  (fun entry enchantment =>
     parseEntry EnchantmentTypes_get item enchantableComponent entry = inr enchantment).

(** The loop either pushes the enchantment of every entry, in order, or stops
    at the first entry that fails and returns its message alone. *)
Lemma parseEntries_outcome (entries : list string) :
  forall enchantments,
    (exists parsed,
        Forall2 accepted entries parsed
        /\ parseEntries EnchantmentTypes_get item enchantableComponent enchantments entries
           = {| enchantments := Some (enchantments ++ parsed)%list; error := None |})
    \/ (exists before entry after parsed message,
           entries = before ++ entry :: after
           /\ Forall2 accepted before parsed
           /\ parseEntry EnchantmentTypes_get item enchantableComponent entry = inl message
           /\ parseEntries EnchantmentTypes_get item enchantableComponent enchantments entries
              = {| enchantments := None; error := Some message |}).
Proof.
  induction entries as [|entry entries IH]; intros acc.
  - left. exists []. split; [constructor|]. simpl. rewrite app_nil_r. reflexivity.
  - simpl.
    destruct (parseEntry EnchantmentTypes_get item enchantableComponent entry)
      as [message | enchantment] eqn:E.
    + right. exists [], entry, entries, [], message.
      repeat split; [constructor | exact E].
    + destruct (IH (acc ++ [enchantment])%list) as
        [[parsed [Hall Hres]] | (before & bad & after & parsed & message & Hsplit & Hall & Hbad & Hres)].
      * left. exists (enchantment :: parsed). split; [constructor; assumption|].
        rewrite Hres, <- app_assoc. reflexivity.
      * right. exists (entry :: before), bad, after, (enchantment :: parsed), message.
        repeat split; try assumption.
        -- rewrite Hsplit. reflexivity.
        -- constructor; assumption.
Qed.

End ParseEnchantmentsFacts.

(** C6, counterexample: the only entry is one that a sword accepts, so no
    entry fails; the stick has no enchantable component and the call still
    returns an error, one that describes no entry. *)
Lemma parseEnchantments_rejects_item :
  parseEnchantments Sample.registry Sample.stick "Sharpness V"
  = {| enchantments := None; error := Some "This item cannot be enchanted." |}
  /\ parseEntry Sample.registry Sample.stick Sample.swordEnchantable "Sharpness V"
     = inr {| type := Sample.sharpness; level := Js.Int 5 |}.
Proof.
  split; reflexivity.
Qed.

(** C6, amended: for an item without the enchantable component
    parseEnchantments returns the error "This item cannot be enchanted." and
    no list, before any entry is looked at.  For any other item it returns
    either a list, without error, holding the validated descriptor of every
    comma-separated entry in input order, or, without list, the error of the
    first entry that fails. *)
Theorem parseEnchantments_outcome
  (EnchantmentTypes_get : string -> option EnchantmentType.t) (item : ItemStack)
  (enchantmentsStr : string) :
  match getComponent item Enchantable with
  | None =>
      parseEnchantments EnchantmentTypes_get item enchantmentsStr
      = {| enchantments := None; error := Some "This item cannot be enchanted." |}
  | Some enchantableComponent =>
      (exists parsed,
          Forall2 (fun entry enchantment =>
                     parseEntry EnchantmentTypes_get item enchantableComponent entry
                     = inr enchantment)
            (enchantmentEntries enchantmentsStr) parsed
          /\ parseEnchantments EnchantmentTypes_get item enchantmentsStr
             = {| enchantments := Some parsed; error := None |})
      \/ (exists before entry after parsed message,
             enchantmentEntries enchantmentsStr = before ++ entry :: after
             /\ Forall2 (fun entry enchantment =>
                           parseEntry EnchantmentTypes_get item enchantableComponent entry
                           = inr enchantment)
                  before parsed
             /\ parseEntry EnchantmentTypes_get item enchantableComponent entry
                = inl message
             /\ parseEnchantments EnchantmentTypes_get item enchantmentsStr
                = {| enchantments := None; error := Some message |})
  end.
Proof.
  unfold parseEnchantments.
  destruct (getComponent item Enchantable) as [enchantableComponent|]; [|reflexivity].
  exact (parseEntries_outcome EnchantmentTypes_get item enchantableComponent
           (enchantmentEntries enchantmentsStr) []).
Qed.

(** C3, the failing input: a level written in decimal digits, or in lower
    case, decodes to NaN; NaN is not greater than the maximum, and a host
    whose compatibility check looks at the type only accepts it, so the list
    that is returned holds a level that is no integer of [1, maximum]. *)
Theorem parseEnchantments_returns_NaN_level :
  romanToNumber "5" = Js.NaN
  /\ parseEnchantments Sample.registry Sample.sword "Sharpness 5"
     = {| enchantments := Some [{| type := Sample.sharpness; level := Js.NaN |}];
          error := None |}
  /\ parseEnchantments Sample.registry Sample.sword "unbreaking iii, Sharpness V"
     = {| enchantments := Some [{| type := Sample.unbreaking; level := Js.NaN |};
                                {| type := Sample.sharpness; level := Js.Int 5 |}];
          error := None |}.
Proof.
  split; [reflexivity|]. split; reflexivity.
Qed.

(** ** FormFieldManager *)

Module FormFieldManagerFacts.

Import FormFieldManager.

Lemma addField_value (this : t) (name : string) :
  addField this name = (this ++ [name], Z.of_nat (List.length this)).
Proof.
  unfold addField, Js.length. rewrite length_app. simpl. f_equal. lia.
Qed.

(** Registering names one after the other appends them and returns the
    consecutive indices that start at the number of fields present. *)
Lemma addFields_value (names : list string) :
  forall this,
    addFields this names
    = (this ++ names, map Z.of_nat (seq (List.length this) (List.length names))).
Proof.
  induction names as [|name names IH]; intros this.
  - simpl. rewrite app_nil_r. reflexivity.
  - cbn [addFields]. rewrite addField_value, IH.
    rewrite <- app_assoc, length_app. simpl.
    replace (List.length this + 1)%nat with (S (List.length this)) by lia.
    reflexivity.
Qed.

(** [indexOf] finds the first position of a string. *)
Lemma indexOfFrom_found (x : string) (arr : list string) :
  forall start, In x arr ->
    exists k, Js.indexOfFrom start arr x = start + Z.of_nat k
              /\ nth_error arr k = Some x
              /\ forall j, (j < k)%nat -> nth_error arr j <> Some x.
Proof.
  induction arr as [|y arr IH]; intros start Hin; [contradiction|].
  simpl. destruct (String.eqb_spec y x) as [-> | Hne].
  - exists O. repeat split; [lia | lia].
  - destruct Hin as [Heq | Hin]; [contradiction|].
    destruct (IH (start + 1) Hin) as (k & Hidx & Hnth & Hfirst).
    exists (S k). repeat split.
    + rewrite Hidx. lia.
    + exact Hnth.
    + intros [|j] Hj; simpl.
      * intros [= E]. contradiction.
      * apply Hfirst. lia.
Qed.

Lemma indexOfFrom_missing (x : string) (arr : list string) :
  forall start, ~ In x arr -> Js.indexOfFrom start arr x = -1.
Proof.
  induction arr as [|y arr IH]; intros start Hnot; [reflexivity|].
  simpl. destruct (String.eqb_spec y x) as [-> | Hne].
  - exfalso. apply Hnot. left. reflexivity.
  - apply IH. intros Hin. apply Hnot. right. exact Hin.
Qed.

Lemma getValue_no_values this response name defaultValue :
  formValues response = None ->
  getValue this response name defaultValue = defaultValue.
Proof. intros H. unfold getValue. rewrite H. reflexivity. Qed.

Lemma getValue_unregistered this response name defaultValue :
  getFieldIndex this name = -1 ->
  getValue this response name defaultValue = defaultValue.
Proof.
  intros H. unfold getValue. rewrite H.
  destruct (formValues response); reflexivity.
Qed.

Lemma getValue_out_of_range this response values name defaultValue :
  formValues response = Some values ->
  Z.of_nat (List.length values) <= getFieldIndex this name ->
  getValue this response name defaultValue = defaultValue.
Proof.
  intros Hvalues Hrange. unfold getValue, Js.length. rewrite Hvalues.
  destruct (getFieldIndex this name <? Z.of_nat (List.length values)) eqn:E.
  - apply Z.ltb_lt in E. lia.
  - rewrite andb_false_r. reflexivity.
Qed.

Lemma getValue_in_range this response values name defaultValue k value :
  formValues response = Some values ->
  getFieldIndex this name = Z.of_nat k ->
  nth_error values k = Some value ->
  getValue this response name defaultValue = value.
Proof.
  intros Hvalues Hindex Hnth. unfold getValue, Js.length, Js.at_.
  rewrite Hvalues, Hindex.
  assert (Hlt : (k < List.length values)%nat).
  { apply nth_error_Some. rewrite Hnth. discriminate. }
  replace (Z.of_nat k =? -1) with false by (symmetry; apply Z.eqb_neq; lia).
  replace (Z.of_nat k <? Z.of_nat (List.length values)) with true
    by (symmetry; apply Z.ltb_lt; lia).
  replace (Z.of_nat k <? 0) with false by (symmetry; apply Z.ltb_ge; lia).
  simpl. rewrite Nat2Z.id, Hnth. reflexivity.
Qed.

End FormFieldManagerFacts.

(** C9: registering names on a fresh manager returns the indices 0, 1, 2, ...
    in registration order, the k-th call returning k-1; getFieldIndex gives a
    registered name the index of its (first) registration and gives -1 to a
    name that was not registered; getValue gives the response value at that
    index, and the default when the name was not registered, when the
    response has no values, or when the index is past the values. *)
Theorem field_registry (names : list string) :
  let manager := fst (FormFieldManager.addFields FormFieldManager.create names) in
  manager = names
  /\ snd (FormFieldManager.addFields FormFieldManager.create names)
     = map Z.of_nat (seq 0 (List.length names))
  /\ (forall this name,
        FormFieldManager.addField this name
        = (this ++ [name], Z.of_nat (List.length this)))
  /\ (forall name,
        In name names ->
        exists k, FormFieldManager.getFieldIndex manager name = Z.of_nat k
                  /\ nth_error names k = Some name
                  /\ forall j, (j < k)%nat -> nth_error names j <> Some name)
  /\ (forall name,
        ~ In name names -> FormFieldManager.getFieldIndex manager name = -1)
  /\ (forall response name defaultValue,
        ~ In name names ->
        FormFieldManager.getValue manager response name defaultValue = defaultValue)
  /\ (forall response name defaultValue,
        FormFieldManager.formValues response = None ->
        FormFieldManager.getValue manager response name defaultValue = defaultValue)
  /\ (forall response values name defaultValue,
        FormFieldManager.formValues response = Some values ->
        Z.of_nat (List.length values) <= FormFieldManager.getFieldIndex manager name ->
        FormFieldManager.getValue manager response name defaultValue = defaultValue)
  /\ (forall response values name defaultValue k value,
        FormFieldManager.formValues response = Some values ->
        FormFieldManager.getFieldIndex manager name = Z.of_nat k ->
        nth_error values k = Some value ->
        FormFieldManager.getValue manager response name defaultValue = value).
Proof.
  intros manager.
  assert (Hmanager : manager = names).
  { unfold manager. rewrite FormFieldManagerFacts.addFields_value. reflexivity. }
  rewrite Hmanager. clear manager Hmanager.
  split; [reflexivity|].
  split; [rewrite FormFieldManagerFacts.addFields_value; reflexivity|].
  split; [exact FormFieldManagerFacts.addField_value|].
  split.
  { intros name Hin. unfold FormFieldManager.getFieldIndex, Js.indexOf.
    destruct (FormFieldManagerFacts.indexOfFrom_found name names 0 Hin)
      as (k & Hidx & Hrest).
    exists k. split; [rewrite Hidx; lia | exact Hrest]. }
  split.
  { intros name Hnot. apply FormFieldManagerFacts.indexOfFrom_missing. exact Hnot. }
  split.
  { intros response name defaultValue Hnot.
    apply FormFieldManagerFacts.getValue_unregistered.
    apply FormFieldManagerFacts.indexOfFrom_missing. exact Hnot. }
  split; [intros; apply FormFieldManagerFacts.getValue_no_values; assumption|].
  split.
  - intros response values name defaultValue Hvalues Hrange.
    exact (FormFieldManagerFacts.getValue_out_of_range names response values name
             defaultValue Hvalues Hrange).
  - intros response values name defaultValue k value Hvalues Hindex Hnth.
    exact (FormFieldManagerFacts.getValue_in_range names response values name
             defaultValue k value Hvalues Hindex Hnth).
Qed.

(** Registering "a" then "b": the indices are 0 and 1, both names are found
    again, and a query for the unregistered "c" gives the default whatever
    the response holds. *)
Lemma field_registry_witness :
  snd (FormFieldManager.addFields FormFieldManager.create ["a"; "b"]) = [0; 1]
  /\ FormFieldManager.getFieldIndex ["a"; "b"] "b" = 1
  /\ FormFieldManager.getFieldIndex ["a"; "b"] "c" = -1
  /\ (forall response defaultValue,
        FormFieldManager.getValue ["a"; "b"] response "c" defaultValue = defaultValue).
Proof.
  destruct (field_registry ["a"; "b"]) as (_ & Hindices & _ & _ & _ & Hdefault & _).
  split; [exact Hindices|].
  split; [reflexivity|].
  split; [reflexivity|].
  intros response defaultValue. apply Hdefault.
  simpl. intros [H | [H | []]]; discriminate H.
Defined.

(** ** Levels decoded by romanToNumber *)

Lemma romanSymbol_values (c : ascii) (value : Js.number) :
  romanSymbol c = Some value ->
  exists v, value = Js.Int v
            /\ (v = 1 \/ v = 5 \/ v = 10 \/ v = 50 \/ v = 100 \/ v = 500 \/ v = 1000).
Proof.
  destruct c as [[|] [|] [|] [|] [|] [|] [|] [|]]; simpl; intros [= <-];
    eexists; split; try reflexivity; lia.
Qed.

(** Once the running total is NaN it stays NaN. *)
Lemma romanStep_NaN (symbols : list ascii) :
  forall prevValue, fst (fold_left romanStep symbols (Js.NaN, prevValue)) = Js.NaN.
Proof.
  induction symbols as [|c symbols IH]; intros prevValue; [reflexivity|].
  cbn [fold_left]. unfold romanStep at 2. cbn beta iota.
  destruct (Js.lt (Js.toNumber (romanSymbol c)) (Js.toNumber prevValue)); apply IH.
Qed.

(** A character outside the table turns the total into NaN. *)
Lemma romanStep_not_symbol (symbols : list ascii) :
  forall num prevValue,
    forallb isRomanSymbol symbols = false ->
    fst (fold_left romanStep symbols (num, prevValue)) = Js.NaN.
Proof.
  induction symbols as [|c symbols IH]; intros num prevValue Hbad; [discriminate Hbad|].
  cbn [forallb] in Hbad. cbn [fold_left]. unfold romanStep at 2. cbn beta iota.
  unfold isRomanSymbol in Hbad at 1.
  destruct (romanSymbol c) as [value|] eqn:E.
  - cbn [andb] in Hbad.
    destruct (Js.lt (Js.toNumber (Some value)) (Js.toNumber prevValue));
      apply IH; exact Hbad.
  - cbn [Js.toNumber Js.lt]. destruct num; apply romanStep_NaN.
Qed.

(** On symbols of the table the total, after the first symbol, is an integer
    that exceeds what later subtractions can take away. *)
Lemma romanStep_symbols (symbols : list ascii) :
  forall n v,
    forallb isRomanSymbol symbols = true ->
    1 + smallerSymbols v <= n ->
    (v = 1 \/ v = 5 \/ v = 10 \/ v = 50 \/ v = 100 \/ v = 500 \/ v = 1000) ->
    exists n', fst (fold_left romanStep symbols (Js.Int n, Some (Js.Int v))) = Js.Int n'
               /\ 1 <= n'.
Proof.
  induction symbols as [|c symbols IH]; intros n v Hall Hn Hv.
  - exists n. split; [reflexivity|]. unfold smallerSymbols in Hn.
    repeat (destruct (_ <=? _) in Hn); lia.
  - simpl in Hall. apply andb_true_iff in Hall as [Hc Hall].
    unfold isRomanSymbol in Hc.
    destruct (romanSymbol c) as [value|] eqn:E; [|discriminate Hc].
    destruct (romanSymbol_values c value E) as (a & -> & Ha).
    cbn [fold_left]. unfold romanStep at 2. cbn beta iota. rewrite E.
    cbn [Js.toNumber Js.lt Js.add Js.sub].
    destruct (a <? v) eqn:L.
    + apply Z.ltb_lt in L. apply IH; [exact Hall | | exact Ha].
      unfold smallerSymbols in *.
      destruct Ha as [-> | [-> | [-> | [-> | [-> | [-> | ->]]]]]];
        destruct Hv as [-> | [-> | [-> | [-> | [-> | [-> | ->]]]]]];
        simpl in *; lia.
    + apply Z.ltb_ge in L. apply IH; [exact Hall | | exact Ha].
      assert (1 <= n).
      { unfold smallerSymbols in Hn. repeat (destruct (_ <=? _) in Hn); lia. }
      unfold smallerSymbols.
      destruct Ha as [-> | [-> | [-> | [-> | [-> | [-> | ->]]]]]]; simpl; lia.
Qed.

Lemma chars_forallb (p : ascii -> bool) (s : string) :
  forallb p (Js.chars s) = allChars p s.
Proof.
  induction s as [|c s IH]; [reflexivity|].
  simpl. rewrite IH. reflexivity.
Qed.

(** romanToNumber gives an integer from 1 on for a non-empty string of table
    symbols, and NaN as soon as one character is not in the table. *)
Lemma romanToNumber_range (roman : string) :
  (allChars isRomanSymbol roman = false -> romanToNumber roman = Js.NaN)
  /\ (allChars isRomanSymbol roman = true -> isEmpty roman = false ->
      exists n, romanToNumber roman = Js.Int n /\ 1 <= n).
Proof.
  unfold romanToNumber. rewrite <- chars_forallb.
  assert (Hrev : forallb isRomanSymbol (rev (Js.chars roman))
                 = forallb isRomanSymbol (Js.chars roman)).
  { induction (Js.chars roman) as [|c l IH]; [reflexivity|].
    simpl. rewrite forallb_app, IH. simpl. rewrite andb_true_r. apply andb_comm. }
  rewrite <- Hrev. split.
  - apply romanStep_not_symbol.
  - intros Hall Hne.
    destruct (rev (Js.chars roman)) as [|c symbols] eqn:E.
    + destruct roman as [|c s]; [discriminate Hne|].
      apply (f_equal (@List.length ascii)) in E. rewrite length_rev in E.
      discriminate E.
    + simpl in Hall. apply andb_true_iff in Hall as [Hc Hall].
      unfold isRomanSymbol in Hc.
      destruct (romanSymbol c) as [value|] eqn:Ev; [|discriminate Hc].
      destruct (romanSymbol_values c value Ev) as (a & -> & Ha).
      cbn [fold_left]. unfold romanStep at 2. cbn beta iota. rewrite Ev.
      cbn [Js.toNumber Js.lt Js.add Js.sub].
      replace (a <? 0) with false by (symmetry; apply Z.ltb_ge; lia).
      replace (0 + a) with a by lia.
      apply romanStep_symbols; [exact Hall | | exact Ha].
      unfold smallerSymbols.
      destruct Ha as [-> | [-> | [-> | [-> | [-> | [-> | ->]]]]]]; simpl; lia.
Qed.

Lemma levelOf_range (levelStr : option string) :
  levelOf levelStr = Js.NaN \/ exists n, levelOf levelStr = Js.Int n /\ 1 <= n.
Proof.
  destruct levelStr as [s|]; simpl; [|right; exists 1; split; [reflexivity | lia]].
  destruct (isEmpty s) eqn:Hempty; [right; exists 1; split; [reflexivity | lia]|].
  destruct (romanToNumber_range s) as [Hnan Hint].
  destruct (allChars isRomanSymbol s).
  - right. apply Hint; [reflexivity | exact Hempty].
  - left. apply Hnan. reflexivity.
Qed.

Lemma parseEntry_level EnchantmentTypes_get item enchantableComponent entry enchantment :
  parseEntry EnchantmentTypes_get item enchantableComponent entry = inr enchantment ->
  levelChecked enchantment.
Proof.
  unfold parseEntry.
  destruct (enchantmentPattern_exec entry) as [[name levelStr]|]; [|discriminate].
  destruct (EnchantmentTypes_get _) as [type|]; [|discriminate].
  destruct (Js.gt (levelOf levelStr) (EnchantmentType.maxLevel type)) eqn:Hmax;
    [discriminate|].
  destruct (negb (canAddEnchantment enchantableComponent _)); [discriminate|].
  intros [= <-]. unfold levelChecked. simpl.
  destruct (levelOf_range levelStr) as [Hnan | (n & Hn & Hpos)].
  - left. exact Hnan.
  - right. exists n. rewrite Hn in Hmax. repeat split; assumption.
Qed.

(** The levels of a returned list: each is NaN (its text held a character
    that is no Roman symbol) or an integer from 1 up to the maximum of its
    type. *)
Theorem parseEnchantments_levels
  (EnchantmentTypes_get : string -> option EnchantmentType.t) (item : ItemStack)
  (enchantmentsStr : string) (parsed : list Enchantment) :
  enchantments (parseEnchantments EnchantmentTypes_get item enchantmentsStr) = Some parsed ->
  Forall levelChecked parsed.
Proof.
  unfold parseEnchantments.
  destruct (getComponent item Enchantable) as [enchantableComponent|]; [|discriminate].
  destruct (parseEntries_outcome EnchantmentTypes_get item enchantableComponent
              (enchantmentEntries enchantmentsStr) [])
    as [[l [Hall Hres]] | (before & bad & after & l & message & _ & _ & _ & Hres)];
    rewrite Hres; simpl; [|discriminate].
  intros [= <-]. clear Hres.
  induction Hall as [|entry enchantment entries l Hhead _ IH]; constructor.
  - exact (parseEntry_level _ _ _ _ _ Hhead).
  - exact IH.
Qed.

Lemma parseEnchantments_levels_witness :
  Forall levelChecked
    [{| type := Sample.unbreaking; level := Js.Int 3 |};
     {| type := Sample.sharpness; level := Js.Int 1 |}].
Proof.
  apply (parseEnchantments_levels Sample.registry Sample.sword "Unbreaking III, sharpness").
  reflexivity.
Defined.

(** The two level rules of an entry whose name is a registered type: a level
    above the maximum of the type is rejected with the message that renders
    the maximum as a Roman numeral, and an entry without level text asks for
    level 1. *)
Theorem parseEntry_level_rules
  (EnchantmentTypes_get : string -> option EnchantmentType.t) (item : ItemStack)
  (enchantableComponent : ItemEnchantableComponent) (entry name : string)
  (levelStr : option string) (type : EnchantmentType.t) :
  enchantmentPattern_exec entry = Some (name, levelStr) ->
  EnchantmentTypes_get (Js.spacesToUnderscores (Js.toLowerCase (Js.trim name))) = Some type ->
  (Js.gt (levelOf levelStr) (EnchantmentType.maxLevel type) = true ->
   parseEntry EnchantmentTypes_get item enchantableComponent entry
   = inl ("The enchantment level for " ++ name ++ " is too high. Maximum allowed is "
          ++ convertToRomanNumerals (EnchantmentType.maxLevel type) ++ ".")%string)
  /\ (levelStr = None ->
      forall enchantment,
        parseEntry EnchantmentTypes_get item enchantableComponent entry = inr enchantment ->
        enchantment = {| type := type; level := Js.Int 1 |}).
Proof.
  intros Hmatch Htype. unfold parseEntry. rewrite Hmatch, Htype. split.
  - intros Hhigh. rewrite Hhigh. reflexivity.
  - intros -> enchantment. simpl.
    destruct (Js.gt (Js.Int 1) (EnchantmentType.maxLevel type)); [discriminate|].
    destruct (negb (canAddEnchantment enchantableComponent _)); [discriminate|].
    intros [= <-]. reflexivity.
Qed.

Lemma parseEntry_level_rules_witness :
  parseEntry Sample.registry Sample.sword Sample.swordEnchantable "Sharpness VI"
  = inl "The enchantment level for Sharpness is too high. Maximum allowed is V."
  /\ parseEntry Sample.registry Sample.sword Sample.swordEnchantable "Sharpness V"
     = inr {| type := Sample.sharpness; level := Js.Int 5 |}.
Proof.
  split; [|reflexivity].
  apply (parseEntry_level_rules Sample.registry Sample.sword Sample.swordEnchantable
           "Sharpness VI" "Sharpness" (Some "VI") Sample.sharpness);
    reflexivity.
Defined.

(* ===================================================================== *)
(** * Properties of the rest of the code *)
(* ===================================================================== *)

(** ** Strings and arrays *)

Lemma append_empty_r (s : string) : (s ++ "")%string = s.
Proof. induction s as [|c s IH]; simpl; [|rewrite IH]; reflexivity. Qed.

Lemma append_assoc (a b c : string) : ((a ++ b) ++ c)%string = (a ++ (b ++ c))%string.
Proof. induction a as [|x a IH]; simpl; [|rewrite IH]; reflexivity. Qed.

Lemma allChars_append (p : ascii -> bool) (a b : string) :
  allChars p (a ++ b)%string = allChars p a && allChars p b.
Proof.
  induction a as [|c a IH]; simpl; [reflexivity|].
  rewrite IH, andb_assoc. reflexivity.
Qed.

Lemma whileAtLeast_stops (fuel : nat) (key : Z) (state : string * Js.number) :
  Js.ge (snd state) (Js.Int key) = false -> whileAtLeast fuel key state = state.
Proof.
  destruct state as [result remaining]. simpl. intros H.
  destruct fuel; simpl; rewrite H; reflexivity.
Qed.

(** Levels that are not positive have no numeral at all. *)
Lemma convertToRomanNumerals_not_positive (n : Z) :
  n <= 0 -> convertToRomanNumerals (Js.Int n) = "".
Proof.
  intros H. unfold convertToRomanNumerals, Js.gt, Js.lt.
  replace (10 <? n) with false by (symmetry; apply Z.ltb_ge; lia).
  rewrite keys_value. cbn [fold_left].
  assert (Hstop : forall key, 1 <= key ->
             whileAtLeast (iterations (snd ("", Js.Int n))) key ("", Js.Int n)
             = ("", Js.Int n)).
  { intros key Hkey. apply whileAtLeast_stops. simpl.
    apply Z.leb_gt. lia. }
  repeat (rewrite Hstop by lia). reflexivity.
Qed.

(** No printed number is a Roman numeral: the digits of an integer start
    with a digit or with the minus sign. *)
Lemma digits_not_roman (z : Z) : allChars isRomanSymbol (Js.digits z) = false.
Proof.
  unfold Js.digits. destruct z as [|p|p]; [reflexivity| |reflexivity].
  simpl.
  pose proof (DecimalPos.Unsigned.to_uint_nonnil p) as Hnil.
  destruct (Pos.to_uint p); [contradiction | reflexivity..].
Qed.

Lemma printLarge_not_roman (z : Z) : allChars isRomanSymbol (Js.printLarge z) = false.
Proof.
  unfold Js.printLarge. destruct (Js.nearestDouble z) as [v|]; [|reflexivity].
  cbv zeta.
  destruct (Js.digitCount (Js.shortest (Z.to_nat (Js.digitCount v)) 1 v) <=? 21);
    [apply digits_not_roman|].
  unfold Js.exponential. rewrite allChars_append.
  apply andb_false_iff. right. reflexivity.
Qed.

Lemma decimal_not_roman (n : Z) :
  0 < n -> romanToNumber (Js.Number_toString (Js.Int n)) = Js.NaN.
Proof.
  intros H. apply romanToNumber_range. unfold Js.Number_toString.
  destruct (Z.abs n <? 2 ^ 53); [apply digits_not_roman|].
  replace (n <? 0) with false by (symmetry; apply Z.ltb_ge; lia).
  apply printLarge_not_roman.
Qed.

(** Decoding what convertToRomanNumerals prints gives the number back exactly
    on 0..10: a negative number prints as the empty string, which decodes to
    0, and a number above 10 prints in decimal digits, which decode to NaN. *)
Theorem romanToNumber_of_display (n : Z) :
  romanToNumber (convertToRomanNumerals (Js.Int n))
  = if n <? 0 then Js.Int 0 else if n <=? 10 then Js.Int n else Js.NaN.
Proof.
  destruct (n <? 0) eqn:Hneg.
  - apply Z.ltb_lt in Hneg.
    rewrite convertToRomanNumerals_not_positive by lia. reflexivity.
  - apply Z.ltb_ge in Hneg. destruct (n <=? 10) eqn:Hten.
    + apply Z.leb_le in Hten.
      destruct (Z.eq_dec n 0) as [-> | Hnz]; [reflexivity|].
      apply romanToNumber_convertToRomanNumerals. lia.
    + apply Z.leb_gt in Hten.
      assert (E : convertToRomanNumerals (Js.Int n) = Js.Number_toString (Js.Int n)).
      { unfold convertToRomanNumerals, Js.gt, Js.lt.
        replace (10 <? n) with true by (symmetry; apply Z.ltb_lt; lia).
        reflexivity. }
      rewrite E. apply decimal_not_roman. lia.
Qed.

Ltac each_char c :=
  destruct c as [[|] [|] [|] [|] [|] [|] [|] [|]]; try reflexivity; try discriminate.

Lemma word_not_space (c : ascii) : Js.isWordChar c = true -> Js.isWhiteSpace c = false.
Proof. each_char c. Qed.

Lemma wordOrSpace_not_comma (c : ascii) : wordOrSpace c = true -> Ascii.eqb c ","%char = false.
Proof. each_char c. Qed.

Lemma lowerChar_word (c : ascii) : Js.isWordChar (Js.lowerChar c) = Js.isWordChar c.
Proof. each_char c. Qed.

Lemma lowerChar_wordOrSpace (c : ascii) : wordOrSpace (Js.lowerChar c) = wordOrSpace c.
Proof. each_char c. Qed.

Lemma lowerChar_upperChar (c : ascii) :
  (isIdChar c || Ascii.eqb c " "%char) = true ->
  Js.toLowerCase (JsText.upperChar c) = String c EmptyString.
Proof. each_char c. Qed.

Lemma lowerChar_fixed (c : ascii) :
  (isIdChar c || Ascii.eqb c " "%char) = true -> Js.lowerChar c = c.
Proof. each_char c. Qed.

Lemma allChars_mapChars (p : ascii -> bool) (f : ascii -> ascii) (s : string) :
  allChars p (Js.mapChars f s) = allChars (fun c => p (f c)) s.
Proof. induction s as [|c s IH]; simpl; [|rewrite IH]; reflexivity. Qed.

Lemma allChars_ext (p q : ascii -> bool) (s : string) :
  (forall c, p c = q c) -> allChars p s = allChars q s.
Proof. intros H. induction s as [|c s IH]; simpl; [|rewrite H, IH]; reflexivity. Qed.

Lemma allChars_impl (p q : ascii -> bool) (s : string) :
  (forall c, p c = true -> q c = true) -> allChars p s = true -> allChars q s = true.
Proof.
  intros H. induction s as [|c s IH]; simpl; [reflexivity|].
  intros Hs. apply andb_true_iff in Hs as [Hc Hs].
  rewrite (H c Hc), (IH Hs). reflexivity.
Qed.

Lemma firstIs_mapChars (p : ascii -> bool) (f : ascii -> ascii) (s : string) :
  firstIs p (Js.mapChars f s) = firstIs (fun c => p (f c)) s.
Proof. destruct s; reflexivity. Qed.

Lemma lastChar_mapChars (f : ascii -> ascii) (s : string) :
  lastChar (Js.mapChars f s) = option_map f (lastChar s).
Proof.
  induction s as [|c s IH]; [reflexivity|].
  simpl. destruct s as [|d s]; [reflexivity|]. exact IH.
Qed.

Lemma lastIs_mapChars (p : ascii -> bool) (f : ascii -> ascii) (s : string) :
  lastIs p (Js.mapChars f s) = lastIs (fun c => p (f c)) s.
Proof.
  unfold lastIs. rewrite lastChar_mapChars. destruct (lastChar s); reflexivity.
Qed.

Lemma firstIs_ext (p q : ascii -> bool) (s : string) :
  (forall c, p c = q c) -> firstIs p s = firstIs q s.
Proof. intros H. destruct s; simpl; [reflexivity | apply H]. Qed.

Lemma lastIs_ext (p q : ascii -> bool) (s : string) :
  (forall c, p c = q c) -> lastIs p s = lastIs q s.
Proof. intros H. unfold lastIs. destruct (lastChar s); [apply H | reflexivity]. Qed.

Lemma lastIs_allChars (p q : ascii -> bool) (s : string) :
  allChars p s = true -> lastIs q s = true -> lastIs (fun c => p c && q c) s = true.
Proof.
  unfold lastIs. induction s as [|c s IH]; [discriminate|].
  simpl. intros Hall. apply andb_true_iff in Hall as [Hc Hall].
  destruct s as [|d s]; [intros ->; rewrite Hc; reflexivity|].
  apply IH. exact Hall.
Qed.

Lemma lastChar_append (a : string) (c : ascii) (b : string) :
  lastChar (a ++ String c b)%string = lastChar (String c b).
Proof.
  induction a as [|x a IH]; [reflexivity|].
  simpl append. destruct (a ++ String c b)%string as [|y rest] eqn:E.
  - destruct a; discriminate E.
  - exact IH.
Qed.

Lemma mapChars_append (f : ascii -> ascii) (a b : string) :
  Js.mapChars f (a ++ b)%string = (Js.mapChars f a ++ Js.mapChars f b)%string.
Proof. induction a as [|c a IH]; simpl; [|rewrite IH]; reflexivity. Qed.

Lemma mapChars_fixed (p : ascii -> bool) (f : ascii -> ascii) (s : string) :
  (forall c, p c = true -> f c = c) -> allChars p s = true -> Js.mapChars f s = s.
Proof.
  intros H. induction s as [|c s IH]; simpl; [reflexivity|].
  intros Hs. apply andb_true_iff in Hs as [Hc Hs].
  rewrite (H c Hc), (IH Hs). reflexivity.
Qed.

Lemma mapChars_length (f : ascii -> ascii) (s : string) :
  String.length (Js.mapChars f s) = String.length s.
Proof. induction s as [|c s IH]; simpl; [|rewrite IH]; reflexivity. Qed.

Lemma splitChar_not_nil (sep : ascii) (s : string) :
  forall cur, Js.splitChar sep cur s <> [].
Proof.
  induction s as [|c s IH]; intros cur; simpl; [discriminate|].
  destruct (Ascii.eqb c sep); [discriminate | apply IH].
Qed.

Lemma join_cons (sep x : string) (rest : list string) :
  rest <> [] -> JsText.join sep (x :: rest) = (x ++ sep ++ JsText.join sep rest)%string.
Proof. destruct rest; [contradiction | reflexivity]. Qed.

(** Joining the pieces of a split with the separator gives the string back. *)
Lemma join_splitChar (sep : ascii) (s : string) :
  forall cur,
    JsText.join (String sep EmptyString) (Js.splitChar sep cur s) = (cur ++ s)%string.
Proof.
  induction s as [|c s IH]; intros cur; simpl.
  - rewrite append_empty_r. reflexivity.
  - destruct (Ascii.eqb_spec c sep) as [-> | Hne].
    + rewrite join_cons by apply splitChar_not_nil. rewrite IH. reflexivity.
    + rewrite IH, append_assoc. reflexivity.
Qed.

Lemma splitChar_all (p : ascii -> bool) (sep : ascii) (s : string) :
  forall cur,
    allChars p cur = true -> allChars p s = true ->
    Forall (fun piece => allChars p piece = true) (Js.splitChar sep cur s).
Proof.
  induction s as [|c s IH]; intros cur Hcur Hs; simpl.
  - constructor; [exact Hcur | constructor].
  - simpl in Hs. apply andb_true_iff in Hs as [Hc Hs].
    destruct (Ascii.eqb c sep).
    + constructor; [exact Hcur | apply IH; [reflexivity | exact Hs]].
    + apply IH; [|exact Hs]. rewrite allChars_append, Hcur. simpl.
      rewrite Hc. reflexivity.
Qed.

(** A piece without the separator, followed by the separator, is cut off as
    it stands. *)
Lemma splitChar_piece (sep : ascii) (x : string) :
  JsText.includesChar x sep = false ->
  forall cur rest,
    Js.splitChar sep cur (x ++ String sep rest)
    = (cur ++ x)%string :: Js.splitChar sep EmptyString rest.
Proof.
  induction x as [|c x IH]; intros Hno cur rest; simpl.
  - rewrite Ascii.eqb_refl, append_empty_r. reflexivity.
  - simpl in Hno. apply orb_false_iff in Hno as [Hc Hx].
    rewrite Hc, (IH Hx), append_assoc. reflexivity.
Qed.

Lemma splitChar_last (sep : ascii) (x : string) :
  JsText.includesChar x sep = false ->
  forall cur, Js.splitChar sep cur x = [(cur ++ x)%string].
Proof.
  induction x as [|c x IH]; intros Hno cur; simpl.
  - rewrite append_empty_r. reflexivity.
  - simpl in Hno. apply orb_false_iff in Hno as [Hc Hx].
    rewrite Hc, (IH Hx), append_assoc. reflexivity.
Qed.

(** Splitting at commas what was joined with ", " gives the elements back,
    each but the first behind a space. *)
Lemma splitChar_join_comma (rest : list string) :
  forall cur x,
    Forall (fun y => JsText.includesChar y ","%char = false) (x :: rest) ->
    Js.splitChar ","%char cur (JsText.join ", " (x :: rest))
    = (cur ++ x)%string :: map (fun y => String " " y) rest.
Proof.
  induction rest as [|y rest IH]; intros cur x Hno;
    inversion Hno as [|? ? Hx Hrest]; subst.
  - simpl JsText.join. apply splitChar_last. exact Hx.
  - rewrite join_cons by discriminate.
    change (", " ++ JsText.join ", " (y :: rest))%string
      with (String "," (String " " (JsText.join ", " (y :: rest)))).
    rewrite splitChar_piece by exact Hx. f_equal.
    change (Js.splitChar "," "" (String " " (JsText.join ", " (y :: rest))))
      with (Js.splitChar "," " " (JsText.join ", " (y :: rest))).
    apply (IH " "%string y Hrest).
Qed.

Lemma split_join_comma (x : string) (rest : list string) :
  Forall (fun y => JsText.includesChar y ","%char = false) (x :: rest) ->
  Js.split ","%char (JsText.join ", " (x :: rest))
  = x :: map (fun y => String " " y) rest.
Proof. intros Hno. exact (splitChar_join_comma rest EmptyString x Hno). Qed.

(** ** trim *)

Lemma trimStart_clean (s : string) : firstIs notSpace s = true -> Js.trimStart s = s.
Proof.
  destruct s as [|c s]; [discriminate|]. unfold firstIs, notSpace. simpl.
  intros H. apply negb_true_iff in H. rewrite H. reflexivity.
Qed.

Lemma trimEnd_clean (s : string) : lastIs notSpace s = true -> Js.trimEnd s = s.
Proof.
  unfold lastIs, notSpace. induction s as [|c s IH]; [discriminate|].
  destruct s as [|d s].
  - simpl. intros H. apply negb_true_iff in H. rewrite H. reflexivity.
  - intros H. change (Js.trimEnd (String c (String d s)))
      with (match Js.trimEnd (String d s) with
            | EmptyString => if Js.isWhiteSpace c then EmptyString else String c EmptyString
            | t => String c t
            end).
    rewrite (IH H). reflexivity.
Qed.

Lemma trim_clean (s : string) :
  firstIs notSpace s = true -> lastIs notSpace s = true -> Js.trim s = s.
Proof.
  intros Hfirst Hlast. unfold Js.trim.
  rewrite (trimStart_clean s Hfirst). apply trimEnd_clean. exact Hlast.
Qed.

Lemma trim_after_space (s : string) : Js.trim (String " " s) = Js.trim s.
Proof. reflexivity. Qed.

(** What the entries of a joined list are: the elements, trimmed. *)
Lemma enchantmentEntries_join (x : string) (rest : list string) :
  Forall (fun y => JsText.includesChar y ","%char = false) (x :: rest) ->
  enchantmentEntries (JsText.join ", " (x :: rest)) = map Js.trim (x :: rest).
Proof.
  intros Hno. unfold enchantmentEntries. rewrite split_join_comma by exact Hno.
  cbn [map]. f_equal. rewrite map_map. apply map_ext.
  intros y. apply trim_after_space.
Qed.

(** ** idToName *)

Lemma firstIs_impl (p q : ascii -> bool) (s : string) :
  (forall c, p c = true -> q c = true) -> firstIs p s = true -> firstIs q s = true.
Proof. intros H. destruct s as [|c s]; simpl; [discriminate | apply H]. Qed.

Lemma lastIs_impl (p q : ascii -> bool) (s : string) :
  (forall c, p c = true -> q c = true) -> lastIs p s = true -> lastIs q s = true.
Proof.
  intros H. unfold lastIs. destruct (lastChar s); [apply H | discriminate].
Qed.

Lemma firstIs_allChars (p q : ascii -> bool) (s : string) :
  allChars p s = true -> firstIs q s = true -> firstIs (fun c => p c && q c) s = true.
Proof.
  destruct s as [|c s]; [discriminate|]. unfold firstIs. simpl. intros Hall Hq.
  apply andb_true_iff in Hall as [Hc _]. rewrite Hc, Hq. reflexivity.
Qed.

Lemma mapChars_mapChars (f g : ascii -> ascii) (s : string) :
  Js.mapChars f (Js.mapChars g s) = Js.mapChars (fun c => f (g c)) s.
Proof. induction s as [|c s IH]; simpl; [|rewrite IH]; reflexivity. Qed.

Lemma toLowerCase_append (a b : string) :
  Js.toLowerCase (a ++ b) = (Js.toLowerCase a ++ Js.toLowerCase b)%string.
Proof. apply mapChars_append. Qed.

Lemma toLowerCase_join (sep : string) (arr : list string) :
  Js.toLowerCase (JsText.join sep arr)
  = JsText.join (Js.toLowerCase sep) (map Js.toLowerCase arr).
Proof.
  unfold Js.toLowerCase.
  induction arr as [|x arr IH]; [reflexivity|].
  destruct arr as [|y arr]; [reflexivity|].
  rewrite join_cons by discriminate. rewrite !mapChars_append, IH.
  reflexivity.
Qed.

Lemma toLowerCase_capitalize (word : string) :
  allChars (fun c => isIdChar c || Ascii.eqb c " "%char) word = true ->
  Js.toLowerCase (capitalize word) = word.
Proof.
  destruct word as [|c word]; [reflexivity|].
  simpl allChars. intros H. apply andb_true_iff in H as [Hc Hword].
  unfold capitalize. cbn [JsText.charAt0 Js.slice1 JsText.toUpperCase].
  rewrite !toLowerCase_append, (lowerChar_upperChar c Hc).
  unfold Js.toLowerCase.
  rewrite (mapChars_fixed _ _ word lowerChar_fixed Hword). reflexivity.
Qed.

(** Apart from the case of letters, idToName keeps the name part as it is
    after its underscores became spaces. *)
Lemma capitalized_words_lower (namePart : string) :
  allChars (fun c => isIdChar c || Ascii.eqb c " "%char) namePart = true ->
  Js.toLowerCase (JsText.join " " (map capitalize (Js.split " "%char namePart)))
  = namePart.
Proof.
  intros Hall. rewrite toLowerCase_join, map_map.
  rewrite (map_ext_Forall _ (fun word => word)).
  - rewrite map_id. exact (join_splitChar " " namePart EmptyString).
  - apply (Forall_impl _ (P := fun piece =>
             allChars (fun c => isIdChar c || Ascii.eqb c " "%char) piece = true)).
    + intros word. apply toLowerCase_capitalize.
    + apply splitChar_all; [reflexivity | exact Hall].
Qed.


Lemma includesChar_append (a b : string) (c : ascii) :
  JsText.includesChar (a ++ b) c = JsText.includesChar a c || JsText.includesChar b c.
Proof.
  induction a as [|x a IH]; simpl; [reflexivity|].
  rewrite IH, orb_assoc. reflexivity.
Qed.



Lemma idChar_spaced (c : ascii) :
  isIdChar c = true ->
  (isIdChar (if Ascii.eqb c "_" then " "%char else c)
   || Ascii.eqb (if Ascii.eqb c "_" then " "%char else c) " ") = true.
Proof. each_char c. Qed.

Lemma idChar_spaced_word (c : ascii) :
  isIdChar c && notUnderscore c = true ->
  Js.isWordChar (if Ascii.eqb c "_" then " "%char else c) = true.
Proof. each_char c. Qed.

Lemma idChar_spaced_back (c : ascii) :
  isIdChar c = true ->
  (let d := if Ascii.eqb c "_" then " "%char else c in
   if Ascii.eqb d " " then "_"%char else d) = c.
Proof. each_char c. Qed.

Lemma spaced_wordOrSpace (c : ascii) :
  (isIdChar c || Ascii.eqb c " "%char) = true -> wordOrSpace c = true.
Proof. each_char c. Qed.

Section DisplayName.

Variable name : string.
Hypothesis Hplain : isPlainName name = true.

Abbreviation namePart := (JsText.underscoresToSpaces name).
Abbreviation shown := (JsText.join " " (map capitalize (Js.split " "%char namePart))).

Lemma plain_idChars : allChars isIdChar name = true.
Proof.
  pose proof Hplain as Hp. unfold isPlainName in Hp.
  apply andb_true_iff in Hp as [H _]. apply andb_true_iff in H as [H _]. exact H.
Qed.

Lemma plain_namePart :
  allChars (fun c => isIdChar c || Ascii.eqb c " "%char) namePart = true.
Proof.
  unfold JsText.underscoresToSpaces. rewrite allChars_mapChars.
  apply (allChars_impl isIdChar); [exact idChar_spaced | exact plain_idChars].
Qed.

Lemma shown_lower : Js.toLowerCase shown = namePart.
Proof. apply capitalized_words_lower. exact plain_namePart. Qed.

Lemma shown_isDisplayName : isDisplayName shown = true.
Proof.
  pose proof Hplain as Hp. unfold isPlainName in Hp.
  apply andb_true_iff in Hp as [H Hlast]. apply andb_true_iff in H as [Hall Hfirst].
  unfold isDisplayName.
  rewrite (allChars_ext _ _ shown (fun c => eq_sym (lowerChar_wordOrSpace c))).
  rewrite (firstIs_ext _ _ shown (fun c => eq_sym (lowerChar_word c))).
  rewrite (lastIs_ext _ _ shown (fun c => eq_sym (lowerChar_word c))).
  rewrite <- allChars_mapChars, <- firstIs_mapChars, <- lastIs_mapChars.
  change (Js.mapChars Js.lowerChar shown) with (Js.toLowerCase shown).
  rewrite shown_lower.
  rewrite (allChars_impl _ wordOrSpace namePart spaced_wordOrSpace plain_namePart).
  unfold JsText.underscoresToSpaces.
  rewrite firstIs_mapChars, lastIs_mapChars.
  rewrite (firstIs_impl _ _ name idChar_spaced_word
             (firstIs_allChars isIdChar notUnderscore name Hall Hfirst)).
  rewrite (lastIs_impl _ _ name idChar_spaced_word
             (lastIs_allChars isIdChar notUnderscore name Hall Hlast)).
  reflexivity.
Qed.

Lemma shown_trimmed : Js.trim shown = shown.
Proof.
  pose proof shown_isDisplayName as H. unfold isDisplayName in H.
  apply andb_true_iff in H as [H Hlast]. apply andb_true_iff in H as [_ Hfirst].
  assert (Hword : forall c, Js.isWordChar c = true -> notSpace c = true).
  { intros c Hc. unfold notSpace. rewrite (word_not_space c Hc). reflexivity. }
  apply trim_clean.
  - exact (firstIs_impl _ _ shown Hword Hfirst).
  - exact (lastIs_impl _ _ shown Hword Hlast).
Qed.

Lemma shown_formattedName : formattedName shown = name.
Proof.
  unfold formattedName. rewrite shown_trimmed, shown_lower.
  unfold JsText.underscoresToSpaces, Js.spacesToUnderscores.
  rewrite mapChars_mapChars.
  apply (mapChars_fixed isIdChar); [exact idChar_spaced_back | exact plain_idChars].
Qed.

End DisplayName.



(** ** The entry pattern on a displayed name followed by a level *)

Lemma trimStart_keeps (u : string) :
  lastIs notSpace u = true ->
  forall x, exists v, v <> EmptyString /\ Js.trimStart (u ++ x) = (v ++ x)%string.
Proof.
  unfold lastIs. induction u as [|c u IH]; [discriminate|].
  intros Hlast x. simpl append. cbn [Js.trimStart].
  destruct (Js.isWhiteSpace c) eqn:Hc.
  - destruct u as [|d u].
    + simpl in Hlast. unfold notSpace in Hlast. rewrite Hc in Hlast. discriminate.
    + apply IH. exact Hlast.
  - exists (String c u). split; [discriminate | reflexivity].
Qed.

Lemma matchLevel_inside_name (u t : string) :
  lastIs Js.isWordChar u = true -> matchLevel (u ++ String " " t) = None.
Proof.
  intros Hlast. unfold matchLevel.
  destruct (u ++ String " " t)%string as [|c rest] eqn:E; [reflexivity|].
  destruct (Js.isWhiteSpace c); [|reflexivity].
  rewrite <- E.
  assert (Hns : lastIs notSpace u = true).
  { apply (lastIs_impl Js.isWordChar); [|exact Hlast].
    intros d Hd. unfold notSpace. rewrite (word_not_space d Hd). reflexivity. }
  destruct (trimStart_keeps u Hns (String " " t)) as (v & Hv & ->).
  rewrite allChars_append. simpl allChars at 2.
  change (Js.isWordChar " ") with false. rewrite andb_false_r, andb_false_r.
  reflexivity.
Qed.

Lemma matchLevel_level (levelStr : string) :
  isEmpty levelStr = false ->
  allChars Js.isWordChar levelStr = true ->
  matchLevel (String " " levelStr) = Some levelStr.
Proof.
  intros Hne Hword. unfold matchLevel.
  change (Js.isWhiteSpace " ") with true. cbv iota.
  change (Js.trimStart (String " " levelStr)) with (Js.trimStart levelStr).
  rewrite trimStart_clean.
  - rewrite Hne, Hword. reflexivity.
  - destruct levelStr as [|c s]; [discriminate|]. simpl in *.
    apply andb_true_iff in Hword as [Hc _].
    unfold firstIs, notSpace. simpl. rewrite (word_not_space c Hc). reflexivity.
Qed.

Lemma wordOrSpace_class (c : ascii) :
  wordOrSpace c = true -> Js.isWordChar c || Js.isWhiteSpace c = true.
Proof. each_char c. Qed.

(** The lazy name group stops exactly in front of the last word. *)
Lemma matchName_name_level (levelStr : string) :
  isEmpty levelStr = false ->
  allChars Js.isWordChar levelStr = true ->
  forall name acc,
    allChars wordOrSpace name = true ->
    lastIs Js.isWordChar name = true ->
    matchName acc (name ++ String " " levelStr)
    = Some ((acc ++ name)%string, Some levelStr).
Proof.
  intros Hne Hword. induction name as [|c name IH]; intros acc Hall Hlast;
    [discriminate|].
  simpl in Hall. apply andb_true_iff in Hall as [Hc Hall].
  simpl append. cbn [matchName]. rewrite (wordOrSpace_class c Hc).
  destruct name as [|d name].
  - simpl append. rewrite (matchLevel_level levelStr Hne Hword). reflexivity.
  - assert (Hlast' : lastIs Js.isWordChar (String d name) = true) by exact Hlast.
    rewrite (matchLevel_inside_name (String d name) levelStr Hlast').
    change (isEmpty (String d name ++ String " " levelStr)) with false. cbv iota.
    rewrite (IH (acc ++ String c EmptyString)%string Hall Hlast').
    rewrite append_assoc. reflexivity.
Qed.

Lemma displayName_parts (name : string) :
  isDisplayName name = true ->
  allChars wordOrSpace name = true
  /\ firstIs Js.isWordChar name = true /\ lastIs Js.isWordChar name = true.
Proof.
  unfold isDisplayName. intros H.
  apply andb_true_iff in H as [H Hlast]. apply andb_true_iff in H as [Hall Hfirst].
  repeat split; assumption.
Qed.

Lemma pattern_name_level (name levelStr : string) :
  isDisplayName name = true ->
  isEmpty levelStr = false ->
  allChars Js.isWordChar levelStr = true ->
  enchantmentPattern_exec (name ++ String " " levelStr) = Some (name, Some levelStr).
Proof.
  intros Hname Hne Hword. destruct (displayName_parts name Hname) as (Hall & _ & Hlast).
  unfold enchantmentPattern_exec.
  rewrite (matchName_name_level levelStr Hne Hword name EmptyString Hall Hlast).
  reflexivity.
Qed.

Section ReadBack.

Variable EnchantmentTypes_get : string -> option EnchantmentType.t.
Variable item : ItemStack.
Variable enchantableComponent : ItemEnchantableComponent.

Lemma parseEntry_name_level name levelStr enchantmentType :
  isDisplayName name = true ->
  isEmpty levelStr = false ->
  allChars Js.isWordChar levelStr = true ->
  EnchantmentTypes_get (formattedName name) = Some enchantmentType ->
  Js.gt (romanToNumber levelStr) (EnchantmentType.maxLevel enchantmentType) = false ->
  canAddEnchantment enchantableComponent
    {| type := enchantmentType; level := romanToNumber levelStr |} = true ->
  parseEntry EnchantmentTypes_get item enchantableComponent (name ++ String " " levelStr)
  = inr {| type := enchantmentType; level := romanToNumber levelStr |}.
Proof.
  intros Hname Hne Hword Htype Hmax Hadd. unfold parseEntry.
  rewrite (pattern_name_level name levelStr Hname Hne Hword).
  unfold levelOf. rewrite Hne.
  change (Js.spacesToUnderscores (Js.toLowerCase (Js.trim name)))
    with (formattedName name).
  rewrite Htype, Hmax, Hadd. reflexivity.
Qed.

Lemma parseEntries_all (entries : list string) :
  forall parsed enchantments,
    Forall2 (fun entry enchantment =>
               parseEntry EnchantmentTypes_get item enchantableComponent entry
               = inr enchantment) entries parsed ->
    parseEntries EnchantmentTypes_get item enchantableComponent enchantments entries
    = {| enchantments := Some (enchantments ++ parsed); error := None |}.
Proof.
  induction entries as [|entry entries IH]; intros parsed acc Hall;
    inversion Hall as [|? enchantment ? rest Hhead Htail]; subst.
  - simpl. rewrite app_nil_r. reflexivity.
  - simpl. rewrite Hhead, (IH rest _ Htail), <- app_assoc. reflexivity.
Qed.

End ReadBack.

Lemma numeral_word (n : Z) :
  1 <= n <= 10 ->
  isEmpty (convertToRomanNumerals (Js.Int n)) = false
  /\ allChars Js.isWordChar (convertToRomanNumerals (Js.Int n)) = true.
Proof.
  intros H.
  assert (Hcases : n = 1 \/ n = 2 \/ n = 3 \/ n = 4 \/ n = 5 \/ n = 6 \/ n = 7
                   \/ n = 8 \/ n = 9 \/ n = 10) by lia.
  repeat (destruct Hcases as [-> | Hcases]; [split; reflexivity|]).
  subst n. split; reflexivity.
Qed.

Lemma allChars_no_comma (p : ascii -> bool) (s : string) :
  (forall c, p c = true -> Ascii.eqb c ","%char = false) ->
  allChars p s = true -> JsText.includesChar s ","%char = false.
Proof.
  intros H. induction s as [|c s IH]; [reflexivity|]. simpl.
  intros Hs. apply andb_true_iff in Hs as [Hc Hs].
  rewrite (H c Hc), (IH Hs). reflexivity.
Qed.

Lemma word_not_comma (c : ascii) : Js.isWordChar c = true -> Ascii.eqb c ","%char = false.
Proof. each_char c. Qed.

Lemma lastIs_append_nonempty (p : ascii -> bool) (a b : string) :
  isEmpty b = false -> lastIs p (a ++ b) = lastIs p b.
Proof.
  destruct b as [|c b]; [discriminate|]. intros _.
  unfold lastIs. rewrite lastChar_append. reflexivity.
Qed.

Lemma firstIs_append_nonempty (p : ascii -> bool) (a b : string) :
  isEmpty a = false -> firstIs p (a ++ b) = firstIs p a.
Proof. destruct a; [discriminate | reflexivity]. Qed.

Lemma firstIs_nonempty (p : ascii -> bool) (s : string) :
  firstIs p s = true -> isEmpty s = false.
Proof. destruct s; [discriminate | reflexivity]. Qed.

(** What is shown for an enchantment that reads back: a clean entry that
    parseEntry turns into the enchantment again. *)
Lemma formatEnchantment_reads_back EnchantmentTypes_get item enchantableComponent
  (enchantment : Enchantment) :
  readsBack EnchantmentTypes_get enchantableComponent enchantment ->
  JsText.includesChar (formatEnchantment enchantment) ","%char = false
  /\ Js.trim (formatEnchantment enchantment) = formatEnchantment enchantment
  /\ parseEntry EnchantmentTypes_get item enchantableComponent
       (formatEnchantment enchantment) = inr enchantment.
Proof.
  intros (Hplain & Htype & (n & Hlevel & Hrange) & Hmax & Hadd).
  destruct enchantment as [ty lv]. simpl in *. subst lv.
  unfold formatEnchantment. cbn [type level].
  pose proof (shown_isDisplayName _ Hplain) as Hshown.
  pose proof (shown_formattedName _ Hplain) as Hformatted.
  fold (idToName (EnchantmentType.id ty)) in Hshown, Hformatted.
  destruct (numeral_word n Hrange) as [Hne Hword].
  destruct (displayName_parts _ Hshown) as (Hall & Hfirst & Hlast).
  change (idToName (EnchantmentType.id ty) ++ " " ++ convertToRomanNumerals (Js.Int n))%string
    with (idToName (EnchantmentType.id ty)
          ++ String " " (convertToRomanNumerals (Js.Int n)))%string.
  split; [|split].
  - rewrite includesChar_append. simpl JsText.includesChar at 2.
    rewrite (allChars_no_comma _ _ wordOrSpace_not_comma Hall).
    rewrite (allChars_no_comma _ _ word_not_comma Hword). reflexivity.
  - assert (Hclean : forall c, Js.isWordChar c = true -> notSpace c = true).
    { intros c Hc. unfold notSpace. rewrite (word_not_space c Hc). reflexivity. }
    apply trim_clean.
    + rewrite firstIs_append_nonempty by exact (firstIs_nonempty _ _ Hfirst).
      exact (firstIs_impl _ _ _ Hclean Hfirst).
    + rewrite lastIs_append_nonempty by reflexivity.
      destruct (convertToRomanNumerals (Js.Int n)) as [|c r] eqn:E; [discriminate|].
      change (lastIs notSpace (String " " (String c r)))
        with (lastIs notSpace (String c r)).
      clear - Hword Hclean. revert c Hword.
      induction r as [|d r IH]; intros c Hword; simpl in Hword;
        apply andb_true_iff in Hword as [Hc Hr].
      * unfold lastIs. simpl. exact (Hclean c Hc).
      * change (lastIs notSpace (String c (String d r)))
          with (lastIs notSpace (String d r)).
        apply IH. exact Hr.
  - rewrite <- (romanToNumber_convertToRomanNumerals n Hrange) at 2.
    apply parseEntry_name_level; try assumption.
    + rewrite Hformatted. exact Htype.
    + rewrite (romanToNumber_convertToRomanNumerals n Hrange). exact Hmax.
    + rewrite (romanToNumber_convertToRomanNumerals n Hrange). exact Hadd.
Qed.

(** The enchantment field of the edit form shows formatEnchantments of the
    item's enchantments; submitting that text unchanged gives the same list
    again, for a non-empty list of enchantments that read back.  The empty
    list is shown as the empty string, which is not an entry. *)
Theorem formatEnchantments_parse_round_trip
  (EnchantmentTypes_get : string -> option EnchantmentType.t) (item : ItemStack)
  (enchantableComponent : ItemEnchantableComponent) (shown : list Enchantment) :
  getComponent item Enchantable = Some enchantableComponent ->
  shown <> [] ->
  Forall (readsBack EnchantmentTypes_get enchantableComponent) shown ->
  parseEnchantments EnchantmentTypes_get item (formatEnchantments shown)
  = {| enchantments := Some shown; error := None |}
  /\ parseEnchantments EnchantmentTypes_get item (formatEnchantments [])
     = {| enchantments := None; error := Some "Invalid format: " |}.
Proof.
  intros Hcomponent Hne Hall.
  unfold parseEnchantments. rewrite Hcomponent. split; [|reflexivity].
  destruct shown as [|first rest]; [contradiction|].
  unfold formatEnchantments. cbn [map].
  rewrite enchantmentEntries_join.
  - rewrite (parseEntries_all EnchantmentTypes_get item enchantableComponent _
               (first :: rest)); [reflexivity|].
    change (formatEnchantment first :: map formatEnchantment rest)
      with (map formatEnchantment (first :: rest)).
    clear Hne. induction Hall as [|e l He _ IH]; [constructor|].
    destruct (formatEnchantment_reads_back EnchantmentTypes_get item
                enchantableComponent e He) as (_ & Htrim & Hparse).
    cbn [map]. constructor; [rewrite Htrim; exact Hparse | exact IH].
  - change (formatEnchantment first :: map formatEnchantment rest)
      with (map formatEnchantment (first :: rest)).
    clear Hne. induction Hall as [|e l He _ IH]; [constructor|].
    destruct (formatEnchantment_reads_back EnchantmentTypes_get item
                enchantableComponent e He) as (Hcomma & _ & _).
    cbn [map]. constructor; [exact Hcomma | exact IH].
Qed.

Lemma formatEnchantments_parse_round_trip_witness :
  formatEnchantments [{| type := Sample.sharpness; level := Js.Int 4 |};
                      {| type := Sample.unbreaking; level := Js.Int 3 |}]
  = "Sharpness IV, Unbreaking III"
  /\ parseEnchantments Sample.registry Sample.sword "Sharpness IV, Unbreaking III"
     = {| enchantments := Some [{| type := Sample.sharpness; level := Js.Int 4 |};
                                {| type := Sample.unbreaking; level := Js.Int 3 |}];
          error := None |}.
Proof.
  split; [reflexivity|].
  apply (formatEnchantments_parse_round_trip Sample.registry Sample.sword
           Sample.swordEnchantable
           [{| type := Sample.sharpness; level := Js.Int 4 |};
            {| type := Sample.unbreaking; level := Js.Int 3 |}]).
  - reflexivity.
  - discriminate.
  - repeat constructor; try reflexivity; try (eexists; split; [reflexivity | lia]).
Defined.

(** ** The lore field and the block list fields of the edit form *)

Lemma orEmpty_same (s : string) : orEmpty s = s.
Proof. destruct s; reflexivity. Qed.

Lemma length_append (a b : string) :
  String.length (a ++ b) = (String.length a + String.length b)%nat.
Proof. induction a as [|c a IH]; simpl; [|rewrite IH]; reflexivity. Qed.

Lemma prefix_cons (a b : ascii) (s1 s2 : string) :
  String.prefix (String a s1) (String b s2) = Ascii.eqb a b && String.prefix s1 s2.
Proof.
  change (String.prefix (String a s1) (String b s2))
    with (if ascii_dec a b then String.prefix s1 s2 else false).
  destruct (ascii_dec a b) as [-> | Hne].
  - rewrite Ascii.eqb_refl. reflexivity.
  - apply Ascii.eqb_neq in Hne. rewrite Hne. reflexivity.
Qed.

Lemma prefix_break (s : string) :
  String.prefix "<b>" s
  = match s with
    | String x (String y (String z _)) =>
        Ascii.eqb x "<" && Ascii.eqb y "b" && Ascii.eqb z ">"
    | _ => false
    end.
Proof.
  destruct s as [|x [|y [|z s]]]; try reflexivity.
  - rewrite prefix_cons. apply andb_false_r.
  - rewrite !prefix_cons. change (String.prefix ">" "") with false.
    rewrite !andb_false_r. reflexivity.
  - rewrite !prefix_cons.
    replace (String.prefix "" s) with true by (destruct s; reflexivity).
    rewrite andb_true_r, andb_assoc, (Ascii.eqb_sym "<" x), (Ascii.eqb_sym "b" y),
      (Ascii.eqb_sym ">" z).
    reflexivity.
Qed.

(** The separator has no border: inside a line without separator, no match
    can start that runs into the separator behind the line. *)
Lemma no_match_across (c : ascii) (x rest : string) :
  includesString "<b>" (String c x) = false ->
  String.prefix "<b>" (String c x ++ "<b>" ++ rest) = false.
Proof.
  intros Hno. cbn [includesString] in Hno. apply orb_false_iff in Hno as [Hhere _].
  rewrite prefix_break in Hhere. rewrite prefix_break.
  destruct x as [|y [|z x]]; simpl in *.
  - destruct (Ascii.eqb c "<"); reflexivity.
  - rewrite andb_false_r. reflexivity.
  - exact Hhere.
Qed.

Lemma splitAt_piece (x : string) :
  includesString "<b>" x = false ->
  forall fuel cur rest,
    (String.length x < fuel)%nat ->
    JsText.splitAt fuel "<b>" cur (x ++ "<b>" ++ rest)
    = (cur ++ x)%string
      :: JsText.splitAt (fuel - String.length x - 1) "<b>" EmptyString rest.
Proof.
  induction x as [|c x IH]; intros Hno fuel cur rest Hfuel;
    (destruct fuel as [|fuel]; [simpl in Hfuel; lia|]).
  - cbn [JsText.splitAt].
    change ("" ++ "<b>" ++ rest)%string with (String "<" (String "b" (String ">" rest))).
    rewrite prefix_break. simpl. rewrite append_empty_r, Nat.sub_0_r. reflexivity.
  - cbn [JsText.splitAt]. simpl append at 1.
    rewrite (no_match_across c x rest Hno).
    cbn [includesString] in Hno. apply orb_false_iff in Hno as [_ Hx].
    rewrite (IH Hx fuel _ rest) by (simpl in Hfuel; lia).
    rewrite append_assoc. reflexivity.
Qed.

Lemma splitAt_last (x : string) :
  includesString "<b>" x = false ->
  forall fuel cur,
    (String.length x < fuel)%nat ->
    JsText.splitAt fuel "<b>" cur x = [(cur ++ x)%string].
Proof.
  induction x as [|c x IH]; intros Hno fuel cur Hfuel;
    (destruct fuel as [|fuel]; [simpl in Hfuel; lia|]).
  - simpl. rewrite append_empty_r. reflexivity.
  - cbn [JsText.splitAt].
    cbn [includesString] in Hno. apply orb_false_iff in Hno as [Hhere Hx].
    rewrite Hhere, (IH Hx fuel _) by (simpl in Hfuel; lia).
    rewrite append_assoc. reflexivity.
Qed.

Lemma splitAt_join (rest : list string) :
  forall x fuel cur,
    Forall (fun line => includesString "<b>" line = false) (x :: rest) ->
    (String.length (JsText.join "<b>" (x :: rest)) < fuel)%nat ->
    JsText.splitAt fuel "<b>" cur (JsText.join "<b>" (x :: rest))
    = (cur ++ x)%string :: rest.
Proof.
  induction rest as [|y rest IH]; intros x fuel cur Hno Hfuel;
    inversion Hno as [|? ? Hx Hrest]; subst.
  - apply splitAt_last; assumption.
  - rewrite join_cons in * by discriminate.
    rewrite !length_append in Hfuel.
    change (String.length "<b>") with 3%nat in Hfuel.
    rewrite splitAt_piece by (assumption || lia). f_equal.
    apply (IH y _ EmptyString Hrest). lia.
Qed.

(** Splitting at the break mark what was joined with it gives the lines
    back, when no line holds the mark. *)
Lemma splitString_join (x : string) (rest : list string) :
  Forall (fun line => includesString "<b>" line = false) (x :: rest) ->
  JsText.splitString "<b>" (JsText.join "<b>" (x :: rest)) = x :: rest.
Proof.
  intros Hno. unfold JsText.splitString.
  apply (splitAt_join rest x _ EmptyString Hno). lia.
Qed.

Lemma nonEmpty_clean (lines : list string) :
  Forall (fun line => Js.trim line = line /\ isEmpty line = false) lines ->
  JsText.nonEmpty (map Js.trim lines) = lines.
Proof.
  unfold JsText.nonEmpty. induction 1 as [|line lines [Htrim Hne] _ IH];
    [reflexivity|].
  simpl. rewrite Htrim, Hne, IH. reflexivity.
Qed.

(** Submitting the lore field as it was shown sets the lore to the old lines
    trimmed and without the blank ones, when no line holds the break mark;
    so the lore is kept exactly when every line is not blank and has no
    white space at its ends. *)
Theorem lore_field_round_trip (item : ItemStack) :
  Forall (fun line => includesString "<b>" line = false) (getLore item) ->
  loreLines (loreField item) = JsText.nonEmpty (map Js.trim (getLore item))
  /\ (Forall (fun line => Js.trim line = line /\ isEmpty line = false) (getLore item) ->
      loreLines (loreField item) = getLore item).
Proof.
  intros Hno.
  assert (E : loreLines (loreField item) = JsText.nonEmpty (map Js.trim (getLore item))).
  { unfold loreField, loreLines. rewrite orEmpty_same.
    destruct (getLore item) as [|x rest]; [reflexivity|].
    rewrite (splitString_join x rest Hno). reflexivity. }
  split; [exact E|].
  intros Hclean. rewrite E. apply nonEmpty_clean. exact Hclean.
Qed.

Lemma lore_field_round_trip_witness :
  loreField (setLore Sample.sword [" Forged "; ""; "in <fire>"]) = " Forged <b><b>in <fire>"
  /\ loreLines (loreField (setLore Sample.sword [" Forged "; ""; "in <fire>"]))
     = ["Forged"; "in <fire>"]
  /\ loreLines (loreField Sample.sword) = getLore Sample.sword.
Proof.
  split; [reflexivity|].
  destruct (lore_field_round_trip (setLore Sample.sword [" Forged "; ""; "in <fire>"]))
    as [H1 _]; [repeat constructor|].
  destruct (lore_field_round_trip Sample.sword) as [_ H2]; [repeat constructor|].
  split; [rewrite H1; reflexivity|].
  apply H2. repeat constructor.
Defined.

(** The loop over the blocks of a list field: all blocks, in order, when the
    host knows every one of them, and otherwise the message that names the
    first block it does not know. *)
Theorem validBlocks_outcome (BlockTypes_get : string -> bool) (listName : string)
  (inputList : list string) :
  forall valid,
    validBlocks BlockTypes_get listName valid inputList
    = match find (fun block => negb (BlockTypes_get block)) inputList with
      | None => inr (valid ++ inputList)
      | Some block =>
          inl ("Block type " ++ quoted block ++ " is invalid, cannot be added to "
               ++ quoted listName ++ " list.")%string
      end.
Proof.
  induction inputList as [|block rest IH]; intros valid; simpl.
  - rewrite app_nil_r. reflexivity.
  - destruct (BlockTypes_get block); simpl; [|reflexivity].
    rewrite IH, <- app_assoc. reflexivity.
Qed.

Lemma find_none_all (p : string -> bool) (l : list string) :
  Forall (fun x => p x = true) l -> find (fun x => negb (p x)) l = None.
Proof.
  induction 1 as [|x l Hx _ IH]; [reflexivity|]. simpl. rewrite Hx. exact IH.
Qed.

Lemma validBlocks_all (BlockTypes_get : string -> bool) (listName : string)
  (inputList : list string) :
  Forall (fun block => BlockTypes_get block = true) inputList ->
  forall valid,
    validBlocks BlockTypes_get listName valid inputList = inr (valid ++ inputList).
Proof.
  induction 1 as [|block rest Hblock _ IH]; intros valid; simpl.
  - rewrite app_nil_r. reflexivity.
  - rewrite Hblock, IH, <- app_assoc. reflexivity.
Qed.

(** Submitting a block list field as it was shown: the blocks come back
    trimmed and without the empty ones, when no block name holds a comma;
    names the host knows, not empty and without white space at their ends,
    are then set again as they were. *)
Theorem blocks_field_round_trip (BlockTypes_get : string -> bool) (listName : string)
  (blocks : list string) :
  Forall (fun block => JsText.includesChar block ","%char = false) blocks ->
  blockInputList (blocksField blocks) = JsText.nonEmpty (map Js.trim blocks)
  /\ (Forall (fun block => Js.trim block = block /\ isEmpty block = false) blocks ->
      Forall (fun block => BlockTypes_get block = true) blocks ->
      validBlocks BlockTypes_get listName [] (blockInputList (blocksField blocks))
      = inr blocks).
Proof.
  intros Hno.
  assert (E : blockInputList (blocksField blocks) = JsText.nonEmpty (map Js.trim blocks)).
  { unfold blocksField, blockInputList. rewrite orEmpty_same.
    destruct blocks as [|x rest]; [reflexivity|].
    rewrite (split_join_comma x rest Hno).
    cbn [map]. rewrite map_map.
    rewrite (map_ext (fun y => Js.trim (String " " y)) Js.trim trim_after_space).
    reflexivity. }
  split; [exact E|].
  intros Hclean Hknown. rewrite E, (nonEmpty_clean blocks Hclean).
  exact (validBlocks_all BlockTypes_get listName blocks Hknown []).
Qed.

Lemma blocks_field_round_trip_witness :
  blocksField ["minecraft:stone"; "minecraft:dirt"] = "minecraft:stone, minecraft:dirt"
  /\ validBlocks (fun block => String.prefix "minecraft:" block) "Can Destroy" []
       (blockInputList (blocksField ["minecraft:stone"; "minecraft:dirt"]))
     = inr ["minecraft:stone"; "minecraft:dirt"].
Proof.
  split; [reflexivity|].
  destruct (blocks_field_round_trip (fun block => String.prefix "minecraft:" block)
              "Can Destroy" ["minecraft:stone"; "minecraft:dirt"]) as [_ H];
    [repeat constructor|].
  apply H; repeat constructor.
Defined.

(** ** isSameItem: what it guarantees and when it is symmetric *)

Lemma SFeqb_sym (a b : spec_float) : SFeqb a b = SFeqb b a.
Proof.
  unfold SFeqb.
  destruct a as [[|]|[|]| |[|] m1 e1], b as [[|]|[|]| |[|] m2 e2]; try reflexivity;
    simpl; rewrite (Z.compare_antisym e1 e2); destruct (e1 ?= e2); simpl;
    try reflexivity;
    change (Pos.compare_cont Eq m1 m2) with (Pos.compare m1 m2);
    change (Pos.compare_cont Eq m2 m1) with (Pos.compare m2 m1);
    rewrite (Pos.compare_antisym m1 m2); destruct (m1 ?= m2)%positive; reflexivity.
Qed.

(** [x === y] on numbers does not depend on the order of its operands. *)
Lemma strictEq_sym (x y : float) : Js.strictEq x y = Js.strictEq y x.
Proof. unfold Js.strictEq. rewrite !eqb_spec. apply SFeqb_sym. Qed.

Lemma equals_sym (v w : Vector3.t) : Vector3.equals v w = Vector3.equals w v.
Proof.
  unfold Vector3.equals.
  rewrite (strictEq_sym (Vector3.x v)), (strictEq_sym (Vector3.y v)),
    (strictEq_sym (Vector3.z v)).
  reflexivity.
Qed.

Lemma optionStringNe_false (a b : option string) : optionStringNe a b = false <-> a = b.
Proof.
  destruct a as [x|], b as [y|]; simpl; split; intros H; try discriminate;
    try reflexivity.
  - apply negb_false_iff, String.eqb_eq in H. subst y. reflexivity.
  - injection H as ->. rewrite String.eqb_refl. reflexivity.
Qed.

Lemma lockModeNe_false (a b : ItemLockMode) : lockModeNe a b = false <-> a = b.
Proof. destruct a, b; simpl; split; intros H; congruence. Qed.

(** The chain of early returns, read as one conjunction. *)
Lemma isSameItem_checks (isStackableWith : ItemStack -> ItemStack -> bool)
  (item1 item2 : ItemStack) :
  isSameItem isStackableWith item1 item2 = true
  <-> typeId item1 = typeId item2
      /\ nameTag item1 = nameTag item2
      /\ amount item1 = amount item2
      /\ isStackable item1 && isStackableWith item1 item2 = false
      /\ differAsSets (getTags item1) (getTags item2) = false
      /\ differAsSets (getLore item1) (getLore item2) = false
      /\ differAsSets (getCanDestroy item1) (getCanDestroy item2) = false
      /\ differAsSets (getCanPlaceOn item1) (getCanPlaceOn item2) = false
      /\ keepOnDeath item1 = keepOnDeath item2
      /\ lockMode item1 = lockMode item2
      /\ compareComponents item1 item2 = true
      /\ compareDynamicProperties item1 item2 = true.
Proof.
  unfold isSameItem.
  rewrite <- String.eqb_eq, <- optionStringNe_false, <- Z.eqb_eq,
    <- (Bool.eqb_true_iff (keepOnDeath item1)), <- lockModeNe_false.
  destruct (typeId item1 =? typeId item2)%string; simpl; [|intuition discriminate].
  destruct (optionStringNe (nameTag item1) (nameTag item2)); [intuition discriminate|].
  destruct (amount item1 =? amount item2); simpl; [|intuition discriminate].
  destruct (isStackable item1 && isStackableWith item1 item2); [intuition discriminate|].
  destruct (differAsSets (getTags item1) (getTags item2)); [intuition discriminate|].
  destruct (differAsSets (getLore item1) (getLore item2)); [intuition discriminate|].
  destruct (differAsSets (getCanDestroy item1) (getCanDestroy item2));
    [intuition discriminate|].
  destruct (differAsSets (getCanPlaceOn item1) (getCanPlaceOn item2));
    [intuition discriminate|].
  destruct (Bool.eqb (keepOnDeath item1) (keepOnDeath item2)); simpl;
    [|intuition discriminate].
  destruct (lockModeNe (lockMode item1) (lockMode item2)); [intuition discriminate|].
  destruct (compareComponents item1 item2); simpl; [|intuition discriminate].
  destruct (compareDynamicProperties item1 item2); simpl; intuition discriminate.
Qed.

(** On a list without repetition the one-sided containment test is a test
    of equal sets, so it can be turned around. *)
Lemma differAsSets_sym (a b : list string) :
  NoDup a -> differAsSets a b = false -> differAsSets b a = false.
Proof.
  intros Hnodup H. apply differAsSets_false in H as [Hlen Hincl].
  apply differAsSets_false. split; [symmetry; exact Hlen|].
  apply (NoDup_length_incl Hnodup); [rewrite Hlen; apply Nat.le_refl | exact Hincl].
Qed.

Lemma sameEnchantment_sym (e1 e2 : Enchantment) :
  sameEnchantment e1 e2 -> sameEnchantment e2 e1.
Proof.
  intros [Hid (n & H1 & H2)]. split; [symmetry; exact Hid|].
  exists n. split; assumption.
Qed.

Lemma compareEnchantableComponents_sym (comp1 comp2 : ItemEnchantableComponent) :
  compareEnchantableComponents comp1 comp2 = true ->
  compareEnchantableComponents comp2 comp1 = true.
Proof.
  rewrite !compareEnchantableComponents_positional.
  generalize (getEnchantments comp1) (getEnchantments comp2).
  induction 1 as [|e1 e2 l1 l2 Hhead _ IH]; constructor;
    [apply sameEnchantment_sym; exact Hhead | exact IH].
Qed.

Lemma compareCooldownComponents_sym (comp1 comp2 : ItemCooldownComponent) :
  compareCooldownComponents comp1 comp2 = compareCooldownComponents comp2 comp1.
Proof.
  unfold compareCooldownComponents. rewrite String.eqb_sym, Z.eqb_sym. reflexivity.
Qed.

Lemma compareDurabilityComponents_sym (comp1 comp2 : ItemDurabilityComponent) :
  compareDurabilityComponents comp1 comp2 = compareDurabilityComponents comp2 comp1.
Proof.
  unfold compareDurabilityComponents.
  rewrite (Z.eqb_sym (maxDurability comp1)), (Z.eqb_sym (damage comp1)). reflexivity.
Qed.

Lemma bool_eqb_sym (a b : bool) : Bool.eqb a b = Bool.eqb b a.
Proof. destruct a, b; reflexivity. Qed.

Lemma compareFoodComponents_sym (comp1 comp2 : ItemFoodComponent) :
  compareFoodComponents comp1 comp2 = compareFoodComponents comp2 comp1.
Proof.
  unfold compareFoodComponents.
  rewrite (bool_eqb_sym (canAlwaysEat comp1)), (Z.eqb_sym (nutrition comp1)),
    (strictEq_sym (saturationModifier comp1)), (String.eqb_sym (usingConvertsTo comp1)).
  reflexivity.
Qed.

Lemma compareComponent_sym (item1 item2 : ItemStack) (componentType : ItemComponentTypes)
  (compareFunction : componentOf componentType -> componentOf componentType -> bool) :
  (forall comp1 comp2, compareFunction comp1 comp2 = true -> compareFunction comp2 comp1 = true) ->
  compareComponent item1 item2 componentType compareFunction = true ->
  compareComponent item2 item1 componentType compareFunction = true.
Proof.
  intros Hsym. unfold compareComponent, hasComponent.
  destruct (getComponent item1 componentType) as [comp1|],
    (getComponent item2 componentType) as [comp2|]; simpl; try discriminate;
    try reflexivity.
  apply Hsym.
Qed.

Lemma compareComponents_sym (item1 item2 : ItemStack) :
  compareComponents item1 item2 = true -> compareComponents item2 item1 = true.
Proof.
  unfold compareComponents.
  destruct (compareComponent item1 item2 Cooldown compareCooldownComponents) eqn:H1;
    [|discriminate].
  destruct (compareComponent item1 item2 Durability compareDurabilityComponents) eqn:H2;
    [|discriminate].
  destruct (compareComponent item1 item2 Food compareFoodComponents) eqn:H3;
    [|discriminate].
  destruct (compareComponent item1 item2 Enchantable compareEnchantableComponents) eqn:H4;
    [|discriminate].
  intros _.
  rewrite (compareComponent_sym item1 item2 Cooldown compareCooldownComponents),
    (compareComponent_sym item1 item2 Durability compareDurabilityComponents),
    (compareComponent_sym item1 item2 Food compareFoodComponents),
    (compareComponent_sym item1 item2 Enchantable compareEnchantableComponents);
    try assumption; try reflexivity.
  - exact compareEnchantableComponents_sym.
  - intros c1 c2. rewrite compareFoodComponents_sym. trivial.
  - intros c1 c2. rewrite compareDurabilityComponents_sym. trivial.
  - intros c1 c2. rewrite compareCooldownComponents_sym. trivial.
Qed.

(** [arraysEqual] holds exactly for equal arrays of strings. *)
Lemma arraysEqual_eq (arr1 arr2 : list string) :
  arraysEqual arr1 arr2 = true <-> arr1 = arr2.
Proof.
  unfold arraysEqual, Js.length. split.
  - destruct (Z.of_nat (List.length arr1) =? Z.of_nat (List.length arr2)) eqn:Hlen;
      [|discriminate].
    apply Z.eqb_eq in Hlen. apply Nat2Z.inj in Hlen. simpl.
    revert arr2 Hlen. induction arr1 as [|x arr1 IH]; intros [|y arr2] Hlen Hsame;
      try discriminate; [reflexivity|].
    simpl in Hsame. apply andb_true_iff in Hsame as [Hxy Hrest].
    apply String.eqb_eq in Hxy. subst y. f_equal. apply IH; [|exact Hrest].
    simpl in Hlen. lia.
  - intros <-. rewrite Z.eqb_refl. simpl.
    induction arr1 as [|x arr1 IH]; [reflexivity|].
    simpl. rewrite String.eqb_refl. exact IH.
Qed.

Lemma propertyNe_sym (prop1 prop2 : option DynamicProperty) :
  propertyNe prop1 prop2 = propertyNe prop2 prop1.
Proof.
  destruct prop1 as [[a|a|a|r1 i1 v1]|], prop2 as [[b|b|b|r2 i2 v2]|];
    simpl; try reflexivity.
  - rewrite bool_eqb_sym. reflexivity.
  - unfold Js.strictNe. f_equal. exact (strictEq_sym a b).
  - rewrite String.eqb_sym. reflexivity.
  - rewrite Nat.eqb_sym. reflexivity.
Qed.

Lemma sameProperties_sym (item1 item2 : ItemStack) (properties : list string) :
  sameProperties item1 item2 properties = true ->
  sameProperties item2 item1 properties = true.
Proof.
  induction properties as [|property rest IH]; [reflexivity|].
  cbn [sameProperties].
  rewrite (String.eqb_sym (typeof (getDynamicProperty item2 property))).
  destruct (negb (typeof (getDynamicProperty item1 property)
                  =? typeof (getDynamicProperty item2 property))%string);
    [discriminate|].
  rewrite (propertyNe_sym (getDynamicProperty item2 property)).
  destruct (instanceofVector3 (getDynamicProperty item1 property)) as [v1|],
    (instanceofVector3 (getDynamicProperty item2 property)) as [v2|].
  - rewrite (equals_sym v2 v1). destruct (negb (Vector3.equals v1 v2));
      [discriminate | exact IH].
  - destruct (propertyNe _ _); [discriminate | exact IH].
  - destruct (propertyNe _ _); [discriminate | exact IH].
  - destruct (propertyNe _ _); [discriminate | exact IH].
Qed.

Lemma compareDynamicProperties_sym (item1 item2 : ItemStack) :
  compareDynamicProperties item1 item2 = true ->
  compareDynamicProperties item2 item1 = true.
Proof.
  unfold compareDynamicProperties.
  destruct (arraysEqual (getDynamicPropertyIds item1) (getDynamicPropertyIds item2))
    eqn:Hids; [|discriminate].
  simpl. intros Hsame. apply arraysEqual_eq in Hids.
  rewrite <- Hids.
  rewrite (proj2 (arraysEqual_eq _ _) eq_refl). simpl.
  apply sameProperties_sym. exact Hsame.
Qed.

(** When isSameItem answers true, the two items agree on every scalar field
    and on the identifiers of their dynamic properties, each of the four
    lists of the first item is contained in the list of the second, which
    has the same length, and the same components are present on both. *)
Theorem isSameItem_sound (isStackableWith : ItemStack -> ItemStack -> bool)
  (item1 item2 : ItemStack) :
  isSameItem isStackableWith item1 item2 = true ->
  typeId item1 = typeId item2
  /\ nameTag item1 = nameTag item2
  /\ amount item1 = amount item2
  /\ keepOnDeath item1 = keepOnDeath item2
  /\ lockMode item1 = lockMode item2
  /\ (List.length (getTags item1) = List.length (getTags item2)
      /\ incl (getTags item1) (getTags item2))
  /\ (List.length (getLore item1) = List.length (getLore item2)
      /\ incl (getLore item1) (getLore item2))
  /\ (List.length (getCanDestroy item1) = List.length (getCanDestroy item2)
      /\ incl (getCanDestroy item1) (getCanDestroy item2))
  /\ (List.length (getCanPlaceOn item1) = List.length (getCanPlaceOn item2)
      /\ incl (getCanPlaceOn item1) (getCanPlaceOn item2))
  /\ getDynamicPropertyIds item1 = getDynamicPropertyIds item2
  /\ (forall componentType,
        hasComponent item1 componentType = hasComponent item2 componentType).
Proof.
  intros H. apply isSameItem_checks in H
    as (Hid & Hname & Hamount & _ & Htags & Hlore & Hdestroy & Hplace & Hkeep & Hlock
        & Hcomp & Hdyn).
  repeat (split; [assumption || (apply differAsSets_false; assumption)|]).
  split.
  - unfold compareDynamicProperties in Hdyn.
    destruct (arraysEqual _ _) eqn:Hids; [|discriminate].
    apply arraysEqual_eq. exact Hids.
  - unfold compareComponents in Hcomp. intros componentType.
    destruct (compareComponent item1 item2 Cooldown _) eqn:H1; [|discriminate].
    destruct (compareComponent item1 item2 Durability _) eqn:H2; [|discriminate].
    destruct (compareComponent item1 item2 Food _) eqn:H3; [|discriminate].
    destruct (compareComponent item1 item2 Enchantable _) eqn:H4; [|discriminate].
    assert (Hhas : forall ty f, compareComponent item1 item2 ty f = true ->
                     hasComponent item1 ty = hasComponent item2 ty).
    { intros ty f. unfold compareComponent.
      destruct (hasComponent item1 ty), (hasComponent item2 ty);
        simpl; intros; try reflexivity; discriminate. }
    destruct componentType; eapply Hhas; eassumption.
Qed.

Lemma isSameItem_sound_witness :
  typeId Sample.sword = typeId (setLore Sample.sword ["Blessed"; "Forged"])
  /\ incl (getLore Sample.sword) ["Blessed"; "Forged"].
Proof.
  destruct (isSameItem_sound Sample.stacksNone Sample.sword
              (setLore Sample.sword ["Blessed"; "Forged"]))
    as (H1 & _ & _ & _ & _ & _ & [_ H2] & _); [reflexivity|].
  split; [exact H1 | exact H2].
Defined.

(** isSameItem can be turned around when no list of the first item repeats
    an element and the stackability check of the second item against the
    first does not fire either. *)
Theorem isSameItem_symmetric (isStackableWith : ItemStack -> ItemStack -> bool)
  (item1 item2 : ItemStack) :
  NoDup (getTags item1) -> NoDup (getLore item1) ->
  NoDup (getCanDestroy item1) -> NoDup (getCanPlaceOn item1) ->
  isStackable item2 && isStackableWith item2 item1 = false ->
  isSameItem isStackableWith item1 item2 = true ->
  isSameItem isStackableWith item2 item1 = true.
Proof.
  intros Htags Hlore Hdestroy Hplace Hstack H.
  apply isSameItem_checks in H
    as (Hid & Hname & Hamount & _ & Ht & Hl & Hd & Hp & Hkeep & Hlock & Hcomp & Hdyn).
  apply isSameItem_checks.
  repeat (split; [solve [symmetry; assumption | assumption
                        | apply differAsSets_sym; assumption]|]).
  split; [apply compareComponents_sym; exact Hcomp|].
  apply compareDynamicProperties_sym. exact Hdyn.
Qed.

Lemma isSameItem_symmetric_witness :
  isSameItem Sample.stacksAll (setLore Sample.sword ["Blessed"; "Forged"]) Sample.sword
  = true.
Proof.
  apply (isSameItem_symmetric Sample.stacksAll Sample.sword
           (setLore Sample.sword ["Blessed"; "Forged"]));
    try reflexivity; try constructor.
  - intros [H | []]. discriminate H.
  - repeat constructor. intros [].
Defined.

Lemma compareDynamicProperties_ext_both (item1 item1' item2 item2' : ItemStack) :
  dynamicProperties item1 = dynamicProperties item1' ->
  dynamicProperties item2 = dynamicProperties item2' ->
  compareDynamicProperties item1 item2 = compareDynamicProperties item1' item2'.
Proof.
  intros H1 H2. rewrite (compareDynamicProperties_ext item1 item2 item2' H2).
  assert (Hget : forall property,
             getDynamicProperty item1 property = getDynamicProperty item1' property).
  { intros property. unfold getDynamicProperty. rewrite H1. reflexivity. }
  unfold compareDynamicProperties, getDynamicPropertyIds. rewrite H1.
  destruct (negb (arraysEqual (map fst (dynamicProperties item1'))
                    (map fst (dynamicProperties item2')))); [reflexivity|].
  induction (map fst (dynamicProperties item1')) as [|property rest IH];
    [reflexivity|].
  simpl. rewrite Hget, IH. reflexivity.
Qed.

(** With a repeated line the containment test is one-sided: an item whose
    lore repeats a line is the same as the item whose lore holds that line
    and another one, but not the other way round. *)
Theorem isSameItem_one_sided (isStackableWith : ItemStack -> ItemStack -> bool)
  (item : ItemStack) (line other : string) :
  line <> other ->
  isStackable item = false ->
  compareComponents item item = true ->
  compareDynamicProperties item item = true ->
  isSameItem isStackableWith (setLore item [line; line]) (setLore item [line; other]) = true
  /\ isSameItem isStackableWith (setLore item [line; other]) (setLore item [line; line])
     = false.
Proof.
  intros Hne Hstack Hcomp Hdyn.
  assert (Hdyn' : forall l1 l2,
             compareDynamicProperties (setLore item l1) (setLore item l2) = true).
  { intros l1 l2.
    rewrite (compareDynamicProperties_ext_both (setLore item l1) item (setLore item l2) item
               eq_refl eq_refl).
    exact Hdyn. }
  assert (Hother : (other =? line)%string = false) by (apply String.eqb_neq; congruence).
  split.
  - apply isSameItem_checks. cbn [setLore typeId nameTag amount isStackable getTags
      getLore getCanDestroy getCanPlaceOn keepOnDeath lockMode].
    rewrite Hstack, !differAsSets_refl.
    repeat (split; [reflexivity|]).
    split.
    + unfold differAsSets, Js.every, Js.includes. simpl.
      rewrite String.eqb_refl. reflexivity.
    + repeat (split; [reflexivity|]). split; [exact Hcomp | apply Hdyn'].
  - destruct (isSameItem isStackableWith (setLore item [line; other])
                (setLore item [line; line])) eqn:E; [|reflexivity].
    apply isSameItem_checks in E as (_ & _ & _ & _ & _ & Hlore & _).
    cbn [setLore getLore] in Hlore.
    unfold differAsSets, Js.every, Js.includes in Hlore. simpl in Hlore.
    rewrite String.eqb_refl, Hother in Hlore. discriminate Hlore.
Qed.

Lemma isSameItem_one_sided_witness :
  isSameItem Sample.stacksAll (setLore Sample.sword ["Forged"; "Forged"])
    (setLore Sample.sword ["Forged"; "Blessed"]) = true
  /\ isSameItem Sample.stacksAll (setLore Sample.sword ["Forged"; "Blessed"])
       (setLore Sample.sword ["Forged"; "Forged"]) = false.
Proof.
  apply (isSameItem_one_sided Sample.stacksAll Sample.sword "Forged" "Blessed");
    try reflexivity.
  discriminate.
Defined.

(** ** listItems *)

Section ListItemsFacts.

Variable isStackableWith : ItemStack -> ItemStack -> bool.
Variable equipmentSlots : list EquipmentSlot.
Variable container : Inventory.
Variable equippableComp : option (EquipmentSlot -> option ItemStack).

(** An entry and its button go together: the handler fetches for the entry
    the item that the button names. *)
Abbreviation goesWith :=
  (fun selected label =>
     exists item, selectedItem container equippableComp selected = Some item
                  /\ label = buttonLabel selected item).

Lemma listEquipment_goesWith (getEquipment : EquipmentSlot -> option ItemStack)
  (slots : list EquipmentSlot) :
  equippableComp = Some getEquipment ->
  forall labels indices,
    Forall2 goesWith indices labels ->
    exists labels',
      fst (listEquipment getEquipment slots ("Go back" :: labels, indices))
      = "Go back" :: labels'
      /\ Forall2 goesWith
           (snd (listEquipment getEquipment slots ("Go back" :: labels, indices)))
           labels'.
Proof.
  intros Hcomp. induction slots as [|slot rest IH]; intros labels indices Hall.
  - exists labels. split; [reflexivity | exact Hall].
  - cbn [listEquipment]. destruct (getEquipment slot) as [equipment|] eqn:E.
    + cbn [fst snd]. change (("Go back" :: labels) ++ [getName (SourceItem equipment) ++ " (Equipped)"]%string)
        with ("Go back" :: (labels ++ [getName (SourceItem equipment) ++ " (Equipped)"]%string)).
      apply IH. apply Forall2_app; [exact Hall|].
      constructor; [|constructor].
      exists equipment. split; [|reflexivity].
      rewrite Hcomp. destruct container; exact E.
    + apply IH. exact Hall.
Qed.

Lemma listContainer_goesWith (mainhandItem : option ItemStack)
  (slots : list (option ItemStack)) :
  forall before labels indices,
    container = InContainer (before ++ slots) ->
    Forall2 goesWith indices labels ->
    exists labels',
      fst (listContainer isStackableWith mainhandItem (Z.of_nat (List.length before)) slots
             ("Go back" :: labels, indices))
      = "Go back" :: labels'
      /\ Forall2 goesWith
           (snd (listContainer isStackableWith mainhandItem
                   (Z.of_nat (List.length before)) slots ("Go back" :: labels, indices)))
           labels'.
Proof.
  induction slots as [|slot rest IH]; intros before labels indices Hcontainer Hall.
  - exists labels. split; [reflexivity | exact Hall].
  - assert (Hnext : Z.of_nat (List.length before) + 1
                    = Z.of_nat (List.length (before ++ [slot]))).
    { rewrite length_app. simpl. lia. }
    assert (Hcontainer' : container = InContainer ((before ++ [slot]) ++ rest)).
    { rewrite <- app_assoc. exact Hcontainer. }
    assert (Hshown : forall item, slot = Some item ->
              exists labels',
                fst (listContainer isStackableWith mainhandItem
                       (Z.of_nat (List.length before) + 1) rest
                       (("Go back" :: labels) ++ [getName (SourceItem item)],
                        indices ++ [ContainerIndex (Z.of_nat (List.length before))]))
                = "Go back" :: labels'
                /\ Forall2 goesWith
                     (snd (listContainer isStackableWith mainhandItem
                             (Z.of_nat (List.length before) + 1) rest
                             (("Go back" :: labels) ++ [getName (SourceItem item)],
                              indices ++ [ContainerIndex (Z.of_nat (List.length before))])))
                     labels').
    { intros item ->. rewrite Hnext.
      change (("Go back" :: labels) ++ [getName (SourceItem item)])
        with ("Go back" :: (labels ++ [getName (SourceItem item)])).
      apply (IH (before ++ [Some item]) _ _ Hcontainer').
      apply Forall2_app; [exact Hall|]. constructor; [|constructor].
      exists item. split; [|reflexivity].
      rewrite Hcontainer. unfold selectedItem, Js.at_.
      replace (Z.of_nat (List.length before) <? 0) with false
        by (symmetry; apply Z.ltb_ge; lia).
      rewrite Nat2Z.id, nth_error_app2 by apply Nat.le_refl.
      rewrite Nat.sub_diag. reflexivity. }
    cbn [listContainer]. destruct slot as [item|].
    + cbn [fst snd]. destruct mainhandItem as [mainhand|].
      * destruct (isSameItem isStackableWith item mainhand).
        -- rewrite Hnext. apply (IH (before ++ [Some item]) _ _ Hcontainer' Hall).
        -- apply Hshown. reflexivity.
      * apply Hshown. reflexivity.
    + rewrite Hnext. apply (IH (before ++ [None]) _ _ Hcontainer' Hall).
Qed.

End ListItemsFacts.

(** The menu of listItems starts with "Go back", and after it the k-th
    button names the item that the answer handler fetches for the k-th entry
    of itemIndices: an equipped item with "(Equipped)" behind its name, a
    container item by its name alone. *)
Theorem listItems_buttons_match
  (isStackableWith : ItemStack -> ItemStack -> bool)
  (equipmentSlots : list EquipmentSlot) (container : Inventory) (target : Target)
  (equippableComp : option (EquipmentSlot -> option ItemStack)) :
  exists labels,
    buttons (fst (listItems isStackableWith equipmentSlots container target equippableComp))
    = "Go back" :: labels
    /\ Forall2
         (fun selected label =>
            exists item, selectedItem container equippableComp selected = Some item
                         /\ label = buttonLabel selected item)
         (snd (listItems isStackableWith equipmentSlots container target equippableComp))
         labels.
Proof.
  unfold listItems. cbn [fst snd buttons].
  assert (Hequipment :
            exists labels,
              fst (match equippableComp with
                   | Some getEquipment =>
                       listEquipment getEquipment equipmentSlots (["Go back"], [])
                   | None => (["Go back"], [])
                   end) = "Go back" :: labels
              /\ Forall2
                   (fun selected label =>
                      exists item, selectedItem container equippableComp selected = Some item
                                   /\ label = buttonLabel selected item)
                   (snd (match equippableComp with
                         | Some getEquipment =>
                             listEquipment getEquipment equipmentSlots (["Go back"], [])
                         | None => (["Go back"], [])
                         end)) labels).
  { destruct equippableComp as [getEquipment|] eqn:E.
    - rewrite <- E. apply (listEquipment_goesWith container equippableComp getEquipment
                             equipmentSlots E [] []). constructor.
    - exists []. split; [reflexivity | constructor]. }
  destruct Hequipment as (labels & Hfst & Hall).
  destruct container as [slots|] eqn:Hcontainer.
  - destruct (match equippableComp with
              | Some getEquipment =>
                  listEquipment getEquipment equipmentSlots (["Go back"], [])
              | None => (["Go back"], [])
              end) as [shown indices].
    cbn [fst snd] in Hfst, Hall. subst shown.
    exact (listContainer_goesWith isStackableWith (InContainer slots) equippableComp
             _ slots [] labels indices eq_refl Hall).
  - exists labels. split; assumption.
Qed.

Lemma listEquipment_indices (getEquipment : EquipmentSlot -> option ItemStack)
  (slots : list EquipmentSlot) :
  forall state index,
    In (ContainerIndex index) (snd (listEquipment getEquipment slots state)) ->
    In (ContainerIndex index) (snd state).
Proof.
  induction slots as [|slot rest IH]; intros state index Hin; [exact Hin|].
  cbn [listEquipment] in Hin. destruct (getEquipment slot) as [equipment|].
  - apply IH in Hin. cbn [snd] in Hin. apply in_app_or in Hin as [Hin | [Hin | []]];
      [exact Hin | discriminate Hin].
  - apply IH. exact Hin.
Qed.

Lemma listContainer_indices (isStackableWith : ItemStack -> ItemStack -> bool)
  (mainhandItem : option ItemStack) (slots : list (option ItemStack)) :
  forall i state index,
    In (ContainerIndex index) (snd (listContainer isStackableWith mainhandItem i slots state))
    <-> In (ContainerIndex index) (snd state)
        \/ exists k item, index = i + Z.of_nat k
                          /\ nth_error slots k = Some (Some item)
                          /\ skipped isStackableWith mainhandItem item = false.
Proof.
  induction slots as [|slot rest IH]; intros i state index.
  - simpl. split; [left; assumption|].
    intros [H | (k & item & _ & Hnth & _)]; [exact H|]. destruct k; discriminate Hnth.
  - assert (Hshift : (exists k item, index = i + 1 + Z.of_nat k
                                     /\ nth_error rest k = Some (Some item)
                                     /\ skipped isStackableWith mainhandItem item = false)
                     -> exists k item, index = i + Z.of_nat k
                                       /\ nth_error (slot :: rest) k = Some (Some item)
                                       /\ skipped isStackableWith mainhandItem item = false).
    { intros (k & item & -> & Hnth & Hskip). exists (S k), item.
      repeat split; [lia | exact Hnth | exact Hskip]. }
    assert (Hunshift : forall k item,
               index = i + Z.of_nat (S k) ->
               nth_error (slot :: rest) (S k) = Some (Some item) ->
               skipped isStackableWith mainhandItem item = false ->
               exists k' item', index = i + 1 + Z.of_nat k'
                                /\ nth_error rest k' = Some (Some item')
                                /\ skipped isStackableWith mainhandItem item' = false).
    { intros k item -> Hnth Hskip. exists k, item.
      repeat split; [lia | exact Hnth | exact Hskip]. }
    cbn [listContainer].
    destruct slot as [item|]; [destruct (skipped isStackableWith mainhandItem item) eqn:Hskip|].
    + assert (E : listContainer isStackableWith mainhandItem i (Some item :: rest) state
                  = listContainer isStackableWith mainhandItem (i + 1) rest state).
      { cbn [listContainer]. unfold skipped in Hskip.
        destruct mainhandItem as [mainhand|]; [rewrite Hskip; reflexivity | discriminate]. }
      cbn [listContainer] in E. rewrite E, IH. split.
      * intros [H | H]; [left; exact H | right; exact (Hshift H)].
      * intros [H | (k & item' & Hidx & Hnth & Hskip')]; [left; exact H|].
        destruct k as [|k].
        -- simpl in Hnth. injection Hnth as <-. congruence.
        -- right. exact (Hunshift k item' Hidx Hnth Hskip').
    + assert (E : listContainer isStackableWith mainhandItem i (Some item :: rest) state
                  = listContainer isStackableWith mainhandItem (i + 1) rest
                      (fst state ++ [getName (SourceItem item)],
                       snd state ++ [ContainerIndex i])).
      { cbn [listContainer]. unfold skipped in Hskip.
        destruct mainhandItem as [mainhand|]; [rewrite Hskip|]; reflexivity. }
      cbn [listContainer] in E. rewrite E, IH. cbn [snd]. rewrite in_app_iff. split.
      * intros [[H | [H | []]] | H].
        -- left. exact H.
        -- injection H as <-. right. exists O, item.
           repeat split; [lia | exact Hskip].
        -- right. exact (Hshift H).
      * intros [H | (k & item' & Hidx & Hnth & Hskip')]; [left; left; exact H|].
        destruct k as [|k].
        -- left. right. left. f_equal. lia.
        -- right. exact (Hunshift k item' Hidx Hnth Hskip').
    + rewrite IH. split.
      * intros [H | H]; [left; exact H | right; exact (Hshift H)].
      * intros [H | (k & item' & Hidx & Hnth & Hskip')]; [left; exact H|].
        destruct k as [|k]; [discriminate Hnth|].
        right. exact (Hunshift k item' Hidx Hnth Hskip').
Qed.

(** Which container slots listItems shows: the slot of an item is listed
    exactly when isSameItem does not report the item as the same as the
    main-hand item of the entity, so every slot holding such an item is left
    out, not only one; and an item that is stackable, and that the host
    stacks with the main-hand item, is always listed. *)
Theorem listItems_container_slots
  (isStackableWith : ItemStack -> ItemStack -> bool)
  (equipmentSlots : list EquipmentSlot) (slots : list (option ItemStack))
  (target : Target) (equippableComp : option (EquipmentSlot -> option ItemStack))
  (k : nat) (item : ItemStack) :
  nth_error slots k = Some (Some item) ->
  (In (ContainerIndex (Z.of_nat k))
      (snd (listItems isStackableWith equipmentSlots (InContainer slots) target
              equippableComp))
   <-> skipped isStackableWith (mainhandOf target equippableComp) item = false)
  /\ (forall mainhand,
        mainhandOf target equippableComp = Some mainhand ->
        isStackable item = true ->
        isStackableWith item mainhand = true ->
        In (ContainerIndex (Z.of_nat k))
          (snd (listItems isStackableWith equipmentSlots (InContainer slots) target
                  equippableComp))).
Proof.
  intros Hnth.
  assert (Hiff : In (ContainerIndex (Z.of_nat k))
                   (snd (listItems isStackableWith equipmentSlots (InContainer slots) target
                           equippableComp))
                 <-> skipped isStackableWith (mainhandOf target equippableComp) item = false).
  { unfold listItems. cbn [snd]. fold (mainhandOf target equippableComp).
    rewrite listContainer_indices. split.
    - intros [Hin | (k' & item' & Hidx & Hnth' & Hskip)].
      + destruct equippableComp as [getEquipment|]; [|destruct Hin].
        apply listEquipment_indices in Hin. destruct Hin.
      + assert (k' = k) by lia. subst k'. congruence.
    - intros Hskip. right. exists k, item. split; [reflexivity|]. split; assumption. }
  split; [exact Hiff|].
  intros mainhand Hmain Hstackable Hwith. apply Hiff. rewrite Hmain. simpl.
  exact (isSameItem_false_when_stacking isStackableWith item mainhand Hstackable Hwith).
Qed.

Lemma listItems_container_slots_witness :
  snd (listItems Sample.stacksAll [Head; Chest; Legs; Feet; Mainhand; Offhand]
         (InContainer [Some Sample.sword; None; Some Sample.stick; Some Sample.sword])
         (TargetEntity (SourcePlayer "Steve"))
         (Some (fun slot => match slot with Mainhand => Some Sample.sword | _ => None end)))
  = [EquippableIndex Mainhand; ContainerIndex 2]
  /\ In (ContainerIndex 2)
       (snd (listItems Sample.stacksAll [Head; Chest; Legs; Feet; Mainhand; Offhand]
               (InContainer [Some Sample.sword; None; Some Sample.stick; Some Sample.sword])
               (TargetEntity (SourcePlayer "Steve"))
               (Some (fun slot =>
                        match slot with Mainhand => Some Sample.sword | _ => None end)))).
Proof.
  split; [vm_compute; reflexivity|].
  destruct (listItems_container_slots Sample.stacksAll
              [Head; Chest; Legs; Feet; Mainhand; Offhand]
              [Some Sample.sword; None; Some Sample.stick; Some Sample.sword]
              (TargetEntity (SourcePlayer "Steve"))
              (Some (fun slot =>
                       match slot with Mainhand => Some Sample.sword | _ => None end))
              2 Sample.stick eq_refl) as [Hlisted _].
  apply Hlisted. vm_compute. reflexivity.
Defined.

(** ** parseCoords and the host *)

Lemma parseCoordinate_without_local (Math_sin Math_cos Math_sin' Math_cos' : float -> float)
  (player player' : Player) (input : string) (base : float) (axis : Axis) :
  Js.startsWith input "^" = false ->
  parseCoordinateWithDirection Math_sin Math_cos player input base axis
  = parseCoordinateWithDirection Math_sin' Math_cos' player' input base axis.
Proof.
  intros Hlocal. unfold parseCoordinateWithDirection. rewrite Hlocal. reflexivity.
Qed.

(** parseCoords reads the rotation of the player, and the sine and cosine,
    only for tokens that start with ^: when no token of the input starts with
    ^, the result is the same for every rotation (readable or not) and every
    sine and cosine, as long as the location is the same. *)
Theorem parseCoords_ignores_rotation
  (Math_sin Math_cos Math_sin' Math_cos' : float -> float)
  (player player' : Player) (input : string) :
  isLocal (Js.splitWhiteSpace (Js.trim input)) = false ->
  location player = location player' ->
  parseCoords Math_sin Math_cos player input
  = parseCoords Math_sin' Math_cos' player' input.
Proof.
  intros Hlocal Hloc. unfold parseCoords.
  destruct (Js.splitWhiteSpace (Js.trim input)) as [|c0 [|c1 [|c2 [|c3 rest]]]];
    try reflexivity.
  f_equal. unfold parseComponents. rewrite <- Hloc.
  destruct (location player) as [origin|e]; [|reflexivity]. cbn [bind].
  rewrite Hlocal.
  unfold isLocal, Js.some in Hlocal. cbn [existsb] in Hlocal.
  apply Bool.orb_false_iff in Hlocal as [H0 Hlocal].
  apply Bool.orb_false_iff in Hlocal as [H1 Hlocal].
  apply Bool.orb_false_iff in Hlocal as [H2 _].
  rewrite (parseCoordinate_without_local Math_sin Math_cos Math_sin' Math_cos'
             player player' c0 _ AxisX H0).
  rewrite (parseCoordinate_without_local Math_sin Math_cos Math_sin' Math_cos'
             player player' c1 _ AxisY H1).
  rewrite (parseCoordinate_without_local Math_sin Math_cos Math_sin' Math_cos'
             player player' c2 _ AxisZ H2).
  reflexivity.
Qed.

Lemma parseCoords_ignores_rotation_witness :
  parseCoords Sample.sin Sample.cos
    {| location := Return (Vector3.new 10 64 10);
       getRotation := Throw (ErrorObject "Failed to get property") |} "~1 70 ~-2"
  = parseCoords (fun _ => 0%float) (fun _ => 0%float)
      {| location := Return (Vector3.new 10 64 10);
         getRotation := Return {| Vector2.x := 0; Vector2.y := 90 |} |} "~1 70 ~-2"
  /\ parseCoords Sample.sin Sample.cos
       {| location := Return (Vector3.new 10 64 10);
          getRotation := Throw (ErrorObject "Failed to get property") |} "~1 70 ~-2"
     = inl (Vector3.new 11 70 8).
Proof.
  split; [|vm_compute; reflexivity].
  apply (parseCoords_ignores_rotation Sample.sin Sample.cos
           (fun _ => 0%float) (fun _ => 0%float)); reflexivity.
Defined.

(** What parseCoords makes of a failing host read, for an input of three
    tokens: an Error thrown by reading the location comes back as the string
    'Error: ' followed by its message, another thrown value as the
    unknown-error string; and when the location can be read, no token starts
    with ~ and some token starts with ^, an Error thrown by reading the
    rotation comes back the same way, whatever the other tokens hold. *)
Theorem parseCoords_host_failure (Math_sin Math_cos : float -> float)
  (player : Player) (input c0 c1 c2 message : string) :
  Js.splitWhiteSpace (Js.trim input) = [c0; c1; c2] ->
  (location player = Throw (ErrorObject message) ->
   parseCoords Math_sin Math_cos player input = inr ("Error: " ++ message)%string)
  /\ (location player = Throw OtherValue ->
      parseCoords Math_sin Math_cos player input = inr "Error: An unknown error occurred."%string)
  /\ (forall origin,
        location player = Return origin ->
        isRelative [c0; c1; c2] = false ->
        isLocal [c0; c1; c2] = true ->
        getRotation player = Throw (ErrorObject message) ->
        parseCoords Math_sin Math_cos player input = inr ("Error: " ++ message)%string).
Proof.
  intros Hsplit. unfold parseCoords. rewrite Hsplit. unfold parseComponents.
  split; [|split].
  - intros Hloc. rewrite Hloc. reflexivity.
  - intros Hloc. rewrite Hloc. reflexivity.
  - intros origin Hloc Hrel Hlocal Hrot. rewrite Hloc. cbn [bind].
    rewrite Hrel. cbn [andb].
    unfold isRelative, Js.some in Hrel. cbn [existsb] in Hrel.
    apply Bool.orb_false_iff in Hrel as [R0 Hrel].
    apply Bool.orb_false_iff in Hrel as [R1 Hrel].
    apply Bool.orb_false_iff in Hrel as [R2 _].
    unfold isLocal, Js.some in Hlocal. cbn [existsb] in Hlocal.
    unfold parseCoordinateWithDirection. rewrite R0, R1, R2, Hrot.
    destruct (Js.startsWith c0 "^") eqn:L0; [reflexivity|].
    destruct (Js.startsWith c1 "^") eqn:L1; [reflexivity|].
    destruct (Js.startsWith c2 "^") eqn:L2; [reflexivity|].
    discriminate Hlocal.
Qed.

Lemma parseCoords_host_failure_witness :
  parseCoords Sample.sin Sample.cos
    {| location := Throw (ErrorObject "Failed to get property");
       getRotation := Throw (ErrorObject "Failed to get property") |} "^ ^ ^1"
  = inr "Error: Failed to get property"%string.
Proof.
  apply (parseCoords_host_failure Sample.sin Sample.cos _ "^ ^ ^1" "^" "^" "^1"
           "Failed to get property"); reflexivity.
Defined.

(** ** editItemDetails: the form and its field registry *)

(** The edit form and its field registry agree.  Every control of the form
    was registered under the name of its own field, in the same position, so
    from a response that holds one value per control getValue returns, for
    every registered name, the value of that field's control, whatever the
    default.  The fields that the item does not get (amount and unbreakable
    by stackability, durability and enchantments by component) read as
    their defaults. *)
Theorem editItemDetails_fields (item : ItemStack) (maxAmount : Z)
  (values : list FormFieldManager.FormValue) :
  List.length values = List.length (widgets (editForm item maxAmount)) ->
  map fieldOf (widgets (editForm item maxAmount)) = formManager (editForm item maxAmount)
  /\ (forall k name defaultValue,
        nth_error (formManager (editForm item maxAmount)) k = Some name ->
        Some (FormFieldManager.getValue (formManager (editForm item maxAmount))
                {| FormFieldManager.formValues := Some values |} name defaultValue)
        = nth_error values k)
  /\ (forall defaultValue,
        isStackable item = false ->
        FormFieldManager.getValue (formManager (editForm item maxAmount))
          {| FormFieldManager.formValues := Some values |} "amount" defaultValue
        = defaultValue)
  /\ (forall defaultValue,
        isStackable item = true ->
        FormFieldManager.getValue (formManager (editForm item maxAmount))
          {| FormFieldManager.formValues := Some values |} "unbreakable" defaultValue
        = defaultValue)
  /\ (forall defaultValue,
        getComponent item Durability = None ->
        FormFieldManager.getValue (formManager (editForm item maxAmount))
          {| FormFieldManager.formValues := Some values |} "durability" defaultValue
        = defaultValue)
  /\ (forall defaultValue,
        getComponent item Enchantable = None ->
        FormFieldManager.getValue (formManager (editForm item maxAmount))
          {| FormFieldManager.formValues := Some values |} "enchantments" defaultValue
        = defaultValue).
Proof.
  unfold editForm, getComponent.
  destruct (isStackable item), (durability item), (enchantable item);
    cbn [negb addField addWidget formManager widgets FormFieldManager.addField
         FormFieldManager.create fst app List.length];
    intros Hlen;
    repeat (destruct values as [|? values]; try discriminate Hlen);
    (split; [reflexivity|]);
    (split;
     [intros k name defaultValue Hnth;
      repeat (destruct k as [|k];
              [injection Hnth as <-; reflexivity | cbn [nth_error] in Hnth]);
      destruct k; discriminate Hnth|]);
    repeat split; intros defaultValue H; try discriminate H; reflexivity.
Qed.

Lemma editItemDetails_fields_witness :
  FormFieldManager.getValue (formManager (editForm Sample.sword 1))
    {| FormFieldManager.formValues :=
         Some [FormFieldManager.Text "Excalibur"; FormFieldManager.Number 12;
               FormFieldManager.Boolean true; FormFieldManager.Boolean false;
               FormFieldManager.Number 2; FormFieldManager.Text "Forged<b>Blessed";
               FormFieldManager.Text "Sharpness V"; FormFieldManager.Text "";
               FormFieldManager.Text ""] |}
    "amount" (FormFieldManager.Number 1)
  = FormFieldManager.Number 1.
Proof.
  apply (editItemDetails_fields Sample.sword 1); reflexivity.
Defined.

(** ** editItemDetails: the answer to the form *)

Lemma parseEntries_length (EnchantmentTypes_get : string -> option EnchantmentType.t)
  (item : ItemStack) (enchantableComponent : ItemEnchantableComponent)
  (entries : list string) :
  forall found parsed,
    enchantments (parseEntries EnchantmentTypes_get item enchantableComponent found entries)
    = Some parsed ->
    List.length parsed = (List.length found + List.length entries)%nat.
Proof.
  induction entries as [|entry entries IH]; intros found parsed Hres.
  - simpl in Hres. injection Hres as <-. simpl. lia.
  - simpl in Hres.
    destruct (parseEntry EnchantmentTypes_get item enchantableComponent entry);
      [discriminate Hres|].
    apply IH in Hres. rewrite Hres, length_app. simpl. lia.
Qed.

(** parseEnchantments never returns an empty list. *)
Lemma parseEnchantments_not_empty (EnchantmentTypes_get : string -> option EnchantmentType.t)
  (item : ItemStack) (enchantmentsStr : string) :
  noEnchantments (parseEnchantments EnchantmentTypes_get item enchantmentsStr) = false.
Proof.
  unfold noEnchantments, parseEnchantments.
  destruct (getComponent item Enchantable) as [enchantableComponent|]; [|reflexivity].
  destruct (enchantments
              (parseEntries EnchantmentTypes_get item enchantableComponent []
                 (enchantmentEntries enchantmentsStr))) as [[|first rest]|] eqn:E;
    try reflexivity.
  apply parseEntries_length in E. unfold enchantmentEntries in E.
  rewrite length_map in E. unfold Js.split in E.
  destruct (Js.splitChar ","%char EmptyString enchantmentsStr) eqn:Hsplit;
    [exact (False_ind _ (splitChar_not_nil _ _ _ Hsplit)) | discriminate E].
Qed.

(** Switching Unbreakable on for an item without durability component makes
    the answer handler throw: the write to the damage of the missing
    component is reached, or an earlier write has thrown already.  Nothing is
    stored and no error is shown.  When the four writes before it succeed,
    what is thrown is the engine's TypeError. *)
Theorem onSubmit_unbreakable_without_durability
  (EnchantmentTypes_get : string -> option EnchantmentType.t)
  (BlockTypes_get : string -> bool) (host : ItemHost) (item : ItemStack)
  (container : Inventory) (isEquippable : bool) (inputs : EditInputs) :
  isUnbreakable inputs = true ->
  getComponent item Durability = None ->
  throws (onSubmit EnchantmentTypes_get BlockTypes_get host item container isEquippable
            inputs)
  /\ (forall item1 item2 item3 item4,
        set_nameTag host item (nameTagInput inputs) = Return item1 ->
        set_amount host item1 (amountInput inputs) = Return item2 ->
        set_keepOnDeath host item2 (keepOnDeathInput inputs) = Return item3 ->
        set_lockMode host item3 (lockModeOfIndex (lockModeIndex inputs)) = Return item4 ->
        onSubmit EnchantmentTypes_get BlockTypes_get host item container isEquippable inputs
        = Throw (typeError host)).
Proof.
  intros Hunbreakable Hdurability. unfold onSubmit, applyFields, throws.
  rewrite Hdurability, Hunbreakable. split.
  - destruct (set_nameTag host item (nameTagInput inputs)) as [item1|e];
      [|exists e; reflexivity]. cbn [bind].
    destruct (set_amount host item1 (amountInput inputs)) as [item2|e];
      [|exists e; reflexivity]. cbn [bind].
    destruct (set_keepOnDeath host item2 (keepOnDeathInput inputs)) as [item3|e];
      [|exists e; reflexivity]. cbn [bind].
    destruct (set_lockMode host item3 (lockModeOfIndex (lockModeIndex inputs)))
      as [item4|e]; [|exists e; reflexivity]. cbn [bind].
    exists (typeError host). reflexivity.
  - intros item1 item2 item3 item4 H1 H2 H3 H4.
    rewrite H1. cbn [bind]. rewrite H2. cbn [bind]. rewrite H3. cbn [bind].
    rewrite H4. reflexivity.
Qed.

Lemma onSubmit_unbreakable_without_durability_witness :
  onSubmit Sample.registry SampleHost.blocks SampleHost.host SampleHost.saddle
    (InContainer [Some SampleHost.saddle]) false
    (SampleHost.answer SampleHost.saddle true)
  = Throw (typeError SampleHost.host).
Proof.
  destruct (onSubmit_unbreakable_without_durability Sample.registry SampleHost.blocks
              SampleHost.host SampleHost.saddle (InContainer [Some SampleHost.saddle])
              false (SampleHost.answer SampleHost.saddle true) eq_refl eq_refl)
    as [_ Hthrown].
  apply (Hthrown
           (SampleHost.write SampleHost.saddle (Some EmptyString) 1 [] [] [] false LockNone
              None None [])
           (SampleHost.write SampleHost.saddle (Some EmptyString) 1 [] [] [] false LockNone
              None None [])
           (SampleHost.write SampleHost.saddle (Some EmptyString) 1 [] [] [] false LockNone
              None None [])
           (SampleHost.write SampleHost.saddle (Some EmptyString) 1 [] [] [] false LockNone
              None None []));
    vm_compute; reflexivity.
Defined.

(** The answer handler never takes the silent return that follows
    parseEnchantments: parseEnchantments returns no empty list, for any item
    and any text.  So for every host the handler throws, shows an error,
    stores the item, or ends without storing it; it stores the item only
    when the container is of the kind that isEquippable announces, and it
    ends without storing only when it is not. *)
Theorem onSubmit_never_ignores
  (EnchantmentTypes_get : string -> option EnchantmentType.t)
  (BlockTypes_get : string -> bool) (host : ItemHost) (item : ItemStack)
  (container : Inventory) (isEquippable : bool) (inputs : EditInputs) :
  (forall enchanted text,
      noEnchantments (parseEnchantments EnchantmentTypes_get enchanted text) = false)
  /\ onSubmit EnchantmentTypes_get BlockTypes_get host item container isEquippable inputs
     <> Return Ignored
  /\ (throws (onSubmit EnchantmentTypes_get BlockTypes_get host item container isEquippable
                inputs)
      \/ (exists message,
             onSubmit EnchantmentTypes_get BlockTypes_get host item container isEquippable
               inputs
             = Return (ErrorShown message))
      \/ (exists stored,
             onSubmit EnchantmentTypes_get BlockTypes_get host item container isEquippable
               inputs
             = Return (Stored stored)
             /\ kindMatches isEquippable container = true)
      \/ (exists kept,
             onSubmit EnchantmentTypes_get BlockTypes_get host item container isEquippable
               inputs
             = Return (NotStored kept)
             /\ kindMatches isEquippable container = false)).
Proof.
  assert (Hcases :
            throws (onSubmit EnchantmentTypes_get BlockTypes_get host item container
                      isEquippable inputs)
            \/ (exists message,
                   onSubmit EnchantmentTypes_get BlockTypes_get host item container
                     isEquippable inputs
                   = Return (ErrorShown message))
            \/ (exists stored,
                   onSubmit EnchantmentTypes_get BlockTypes_get host item container
                     isEquippable inputs
                   = Return (Stored stored)
                   /\ kindMatches isEquippable container = true)
            \/ (exists kept,
                   onSubmit EnchantmentTypes_get BlockTypes_get host item container
                     isEquippable inputs
                   = Return (NotStored kept)
                   /\ kindMatches isEquippable container = false)).
  { assert (Hblocks : forall current,
               throws (applyBlocks BlockTypes_get host current container isEquippable inputs)
               \/ (exists message,
                      applyBlocks BlockTypes_get host current container isEquippable inputs
                      = Return (ErrorShown message))
               \/ (exists stored,
                      applyBlocks BlockTypes_get host current container isEquippable inputs
                      = Return (Stored stored)
                      /\ kindMatches isEquippable container = true)
               \/ (exists kept,
                      applyBlocks BlockTypes_get host current container isEquippable inputs
                      = Return (NotStored kept)
                      /\ kindMatches isEquippable container = false)).
    { intros current. unfold applyBlocks, throws.
      destruct (validBlocks BlockTypes_get "Can Destroy" []
                  (blockInputList (canDestroyInput inputs))) as [message|valid1];
        [right; left; exists message; reflexivity|].
      destruct (setCanDestroy host current valid1) as [item1|e];
        [|left; exists e; reflexivity]. cbn [bind].
      destruct (validBlocks BlockTypes_get "Can Place On" []
                  (blockInputList (canPlaceOnInput inputs))) as [message|valid2];
        [right; left; exists message; reflexivity|].
      destruct (setCanPlaceOn host item1 valid2) as [item2|e];
        [|left; exists e; reflexivity]. cbn [bind].
      destruct isEquippable, container as [slots|].
      - right; right; right. exists item2. split; reflexivity.
      - destruct (setEquipment host item2) as [[]|e]; [|left; exists e; reflexivity].
        right; right; left. exists item2. split; reflexivity.
      - destruct (setItem host item2) as [[]|e]; [|left; exists e; reflexivity].
        right; right; left. exists item2. split; reflexivity.
      - right; right; right. exists item2. split; reflexivity. }
    unfold onSubmit.
    destruct (applyFields host item inputs) as [item1|e];
      [|left; exists e; reflexivity]. cbn [bind].
    destruct (host_setLore host item1 (loreLines (loreInput inputs))) as [item2|e];
      [|left; exists e; reflexivity]. cbn [bind].
    destruct (getComponent item Enchantable); [|apply Hblocks].
    unfold applyEnchantments.
    destruct (negb (isEmpty (enchantmentsInput inputs))).
    - destruct (removeAllEnchantments host item2) as [item3|e];
        [|right; left; eexists; reflexivity].
      cbn [bind]. rewrite parseEnchantments_not_empty.
      destruct (truthyString
                  (error (parseEnchantments EnchantmentTypes_get item3
                            (enchantmentsInput inputs))));
        [right; left; eexists; reflexivity|].
      destruct (addEnchantments host item3
                  (enchantments (parseEnchantments EnchantmentTypes_get item3
                                   (enchantmentsInput inputs)))) as [item4|e];
        [apply Hblocks | right; left; eexists; reflexivity].
    - destruct (removeAllEnchantments host item2) as [item3|e];
        [apply Hblocks | right; left; eexists; reflexivity]. }
  split; [intros enchanted text; apply parseEnchantments_not_empty|].
  split; [|exact Hcases].
  intros Hignored.
  destruct Hcases as [[e H] | [[message H] | [[stored [H _]] | [kept [H _]]]]];
    rewrite H in Hignored; discriminate Hignored.
Qed.

(** ** getContainer *)

Lemma listEquipment_keeps (getEquipment : EquipmentSlot -> option ItemStack)
  (slots : list EquipmentSlot) :
  forall state index,
    In index (snd state) -> In index (snd (listEquipment getEquipment slots state)).
Proof.
  induction slots as [|slot rest IH]; intros state index Hin; [exact Hin|].
  cbn [listEquipment]. destruct (getEquipment slot); apply IH; [|exact Hin].
  cbn [snd]. apply in_or_app. left. exact Hin.
Qed.

Lemma listEquipment_lists (getEquipment : EquipmentSlot -> option ItemStack)
  (slots : list EquipmentSlot) (slot : EquipmentSlot) (equipment : ItemStack) :
  In slot slots ->
  getEquipment slot = Some equipment ->
  forall state, In (EquippableIndex slot) (snd (listEquipment getEquipment slots state)).
Proof.
  intros Hin Hget. induction slots as [|first rest IH]; [destruct Hin|].
  intros state. cbn [listEquipment]. destruct Hin as [-> | Hin].
  - rewrite Hget. apply listEquipment_keeps. cbn [snd]. apply in_or_app.
    right. left. reflexivity.
  - destruct (getEquipment first); apply IH; exact Hin.
Qed.

Lemma listContainer_keeps (isStackableWith : ItemStack -> ItemStack -> bool)
  (mainhandItem : option ItemStack) (slots : list (option ItemStack)) :
  forall i state index,
    In index (snd state) ->
    In index (snd (listContainer isStackableWith mainhandItem i slots state)).
Proof.
  induction slots as [|slot rest IH]; intros i state index Hin; [exact Hin|].
  cbn [listContainer].
  destruct slot as [item|]; [|apply IH; exact Hin].
  destruct mainhandItem as [mainhand|];
    [destruct (isSameItem isStackableWith item mainhand)|];
    apply IH; try exact Hin; cbn [snd]; apply in_or_app; left; exact Hin.
Qed.

Lemma noEquipment_false (getEquipment : EquipmentSlot -> option ItemStack)
  (slots : list EquipmentSlot) :
  noEquipment getEquipment slots = false ->
  exists slot equipment, In slot slots /\ getEquipment slot = Some equipment.
Proof.
  induction slots as [|slot rest IH]; intros H; [discriminate H|].
  cbn [noEquipment] in H. destruct (getEquipment slot) as [equipment|] eqn:E.
  - exists slot, equipment. split; [left; reflexivity | exact E].
  - destruct (IH H) as (slot' & equipment & Hin & Hget).
    exists slot', equipment. split; [right; exact Hin | exact Hget].
Qed.

Lemma emptySlotsCount_le (slots : list (option ItemStack)) :
  emptySlotsCount slots <= size slots.
Proof.
  unfold emptySlotsCount, size, Js.length. apply inj_le. apply filter_length_le.
Qed.

(** A container whose count of empty slots is not its size holds an item. *)
Lemma not_empty_holds (slots : list (option ItemStack)) :
  (emptySlotsCount slots =? size slots) = false ->
  exists k item, nth_error slots k = Some (Some item).
Proof.
  induction slots as [|slot rest IH]; intros H; [discriminate H|].
  destruct slot as [item|]; [exists O, item; reflexivity|].
  destruct IH as (k & item & Hnth).
  - apply Z.eqb_neq. apply Z.eqb_neq in H. intros Heq. apply H.
    unfold emptySlotsCount, size, Js.length in *. cbn [filter List.length]. lia.
  - exists (S k), item. exact Hnth.
Qed.

Section GetContainerFacts.

Variable isStackableWith : ItemStack -> ItemStack -> bool.
Variable equipmentSlots : list EquipmentSlot.
Hypothesis mainhandListed : In Mainhand equipmentSlots.

(** Whatever the container holds next to an item, listItems gives an entry:
    the entry of the item, or that of the main hand it is the same as. *)
Lemma listItems_lists_something (slots : list (option ItemStack)) (target : Target)
  (equippableComp : option (EquipmentSlot -> option ItemStack)) (k : nat)
  (item : ItemStack) :
  nth_error slots k = Some (Some item) ->
  snd (listItems isStackableWith equipmentSlots (InContainer slots) target equippableComp)
  <> [].
Proof.
  intros Hnth.
  assert (Hin : exists index,
             In index (snd (listItems isStackableWith equipmentSlots (InContainer slots)
                              target equippableComp))).
  { unfold listItems. cbn [snd]. fold (mainhandOf target equippableComp).
    destruct (skipped isStackableWith (mainhandOf target equippableComp) item) eqn:Hskip.
    - unfold skipped in Hskip.
      destruct (mainhandOf target equippableComp) as [mainhand|] eqn:Hmain;
        [|discriminate Hskip].
      unfold mainhandOf in Hmain.
      destruct target as [entity|typeId]; [|discriminate Hmain].
      destruct equippableComp as [getEquipment|]; [|discriminate Hmain].
      exists (EquippableIndex Mainhand). apply listContainer_keeps.
      apply (listEquipment_lists getEquipment equipmentSlots Mainhand mainhand
               mainhandListed Hmain).
    - exists (ContainerIndex (Z.of_nat k)). apply listContainer_indices.
      right. exists k, item. split; [reflexivity|]. split; assumption. }
  destruct Hin as [index Hin]. intros Hnil. rewrite Hnil in Hin. destruct Hin.
Qed.

End GetContainerFacts.

(** getContainer opens the item menu only with an item to pick: when the
    host lists the main hand among the equipment slots, the table of entries
    that comes with a menu is never empty, for an entity and for a block.
    For an entity without inventory the count of empty slots is read from a
    missing container, so getContainer throws the engine's TypeError, and
    the message that the entity has no inventory is never shown. *)
Theorem getContainer_lists_something
  (isStackableWith : ItemStack -> ItemStack -> bool)
  (equipmentSlots : list EquipmentSlot) (typeError : exn) (target : Target)
  (container : option (list (option ItemStack)))
  (equippableComp : option (EquipmentSlot -> option ItemStack)) :
  In Mainhand equipmentSlots ->
  (forall menu itemIndices,
      getContainer isStackableWith equipmentSlots typeError target container equippableComp
      = Return (ItemList menu itemIndices) ->
      itemIndices <> [])
  /\ (forall entity,
        getContainer isStackableWith equipmentSlots typeError (TargetEntity entity) None
          equippableComp
        = Throw typeError).
Proof.
  intros Hmainhand. split; [|reflexivity].
  intros menu itemIndices Hres. unfold getContainer in Hres.
  destruct target as [entity|typeId]; destruct container as [slots|];
    try discriminate Hres.
  - destruct (emptySlotsCount slots =? size slots) eqn:Hempty.
    + cbn [andb] in Hres.
      destruct equippableComp as [getEquipment|]; [|discriminate Hres].
      destruct (noEquipment getEquipment equipmentSlots) eqn:Hnone; [discriminate Hres|].
      destruct (listItems isStackableWith equipmentSlots (InContainer slots)
                  (TargetEntity entity) (Some getEquipment)) as [menu' indices'] eqn:Hlist.
      injection Hres as _ <-.
      destruct (noEquipment_false _ _ Hnone) as (slot & equipment & Hin & Hget).
      assert (Hlisted : In (EquippableIndex slot) indices').
      { change indices' with (snd (menu', indices')). rewrite <- Hlist.
        unfold listItems. cbn [snd]. apply listContainer_keeps.
        apply (listEquipment_lists getEquipment equipmentSlots slot equipment Hin Hget). }
      intros Hnil. rewrite Hnil in Hlisted. destruct Hlisted.
    + cbn [andb] in Hres.
      destruct (not_empty_holds slots Hempty) as (k & item & Hnth).
      pose proof (listItems_lists_something isStackableWith equipmentSlots Hmainhand
                    slots (TargetEntity entity) equippableComp k item Hnth) as Hsome.
      destruct (listItems isStackableWith equipmentSlots (InContainer slots)
                  (TargetEntity entity) equippableComp) as [menu' indices'].
      injection Hres as _ <-. exact Hsome.
  - destruct (emptySlotsCount slots =? size slots) eqn:Hempty; [discriminate Hres|].
    destruct (not_empty_holds slots Hempty) as (k & item & Hnth).
    pose proof (listItems_lists_something isStackableWith equipmentSlots Hmainhand
                  slots (TargetBlock typeId) None k item Hnth) as Hsome.
    destruct (listItems isStackableWith equipmentSlots (InContainer slots)
                (TargetBlock typeId) None) as [menu' indices'].
    injection Hres as _ <-. exact Hsome.
Qed.

Lemma getContainer_lists_something_witness :
  getContainer Sample.stacksAll [Head; Chest; Legs; Feet; Mainhand; Offhand]
    (ErrorObject "cannot read property 'emptySlotsCount' of undefined")
    (TargetEntity (SourceEntity "" "minecraft:zombie")) None
    (Some (fun slot => match slot with Mainhand => Some Sample.sword | _ => None end))
  = Throw (ErrorObject "cannot read property 'emptySlotsCount' of undefined").
Proof.
  apply (getContainer_lists_something Sample.stacksAll
           [Head; Chest; Legs; Feet; Mainhand; Offhand]
           (ErrorObject "cannot read property 'emptySlotsCount' of undefined")
           (TargetEntity (SourceEntity "" "minecraft:zombie")) None
           (Some (fun slot => match slot with Mainhand => Some Sample.sword | _ => None end))).
  simpl. auto 6.
Defined.

(** The lock mode goes through the edit form unchanged.  The form holds the
    lock-mode dropdown, whose default index shows the name of the item's lock
    mode and is decoded by the answer handler to that same lock mode; and
    whatever index is answered, the lock mode the handler decodes is the one
    whose name the dropdown shows at that index.  An index outside the
    dropdown decodes to no lock mode. *)
Theorem lockMode_round_trip (item : ItemStack) (maxAmount : Z) :
  exists options,
    In (Dropdown "Lock mode" options (lockModeIndices (lockMode item)))
      (widgets (editForm item maxAmount))
    /\ Js.at_ options (lockModeIndices (lockMode item)) = Some (lockModeName (lockMode item))
    /\ lockModeOfIndex (Js.Int (lockModeIndices (lockMode item))) = Some (lockMode item)
    /\ (forall index,
          option_map lockModeName (lockModeOfIndex (Js.Int index)) = Js.at_ options index)
    /\ lockModeOfIndex Js.NaN = None.
Proof.
  exists [lockModeName LockSlot; lockModeName LockInventory; lockModeName LockNone].
  split; [|split; [|split; [|split]]].
  - unfold editForm, getComponent.
    destruct (isStackable item), (durability item), (enchantable item);
      cbn [negb addField addWidget formManager widgets app];
      repeat (first [left; reflexivity | right]).
  - destruct (lockMode item); reflexivity.
  - destruct (lockMode item); reflexivity.
  - intros index. unfold lockModeOfIndex, Js.at_.
    destruct (index <? 0); [reflexivity|].
    destruct (Z.to_nat index) as [|[|[|n]]]; try reflexivity.
    destruct n; reflexivity.
  - reflexivity.
Qed.
